(** * pyTNCterm: the YAPP file-transfer engine

    A shallow embedding of [src/core/yapp_handler.py] (class [YappHandler])
    and the properties of its packet framing, its sender/receiver state
    machine and its timeout policy.

    Conventions of the embedding:
    - Python [bytes]/[bytearray] are [list byte]; Python [str] is a list of
      Unicode code points ([list N]); Python [int] is [Z]; [len], slice
      bounds and loop fuel are [nat].
    - The handler object is the record [YappHandler]; every method is a
      computation in the monad [M], which threads the handler, collects the
      calls made to the outside world (callbacks, file writes) in a trace and
      propagates Python exceptions.
    - The five callbacks are optional constructor arguments in the source
      ([None] by default); the record keeps one boolean per callback telling
      whether it is installed, and a call is recorded only when it is.
      Callbacks are assumed not to raise.
    - [with self._lock] makes every public method atomic; each public method
      is one function of the model. *)

From Stdlib Require Import String Ascii List Bool Arith NArith ZArith Lia.
From Stdlib Require Import Strings.Byte.
Import ListNotations.

Set Implicit Arguments.

(** ** Python values *)

Module Py.

Definition bytes := list byte.
Definition str := list N.

(** A string literal of the source, as a list of code points. *)
Definition lit (s : string) : str :=
  map N_of_ascii (list_ascii_of_string s).

(** [b.decode('ascii', errors='replace')]: every byte above 0x7F becomes
    U+FFFD. *)
Definition decode_ascii (b : bytes) : str :=
  map (fun c => if (Byte.to_N c <? 128)%N then Byte.to_N c else 65533%N) b.

(** [s.encode('ascii', errors='replace')]: every code point above 0x7F
    becomes [?]. *)
Definition encode_ascii (s : str) : bytes :=
  map (fun c => if (c <? 128)%N
                then match Byte.of_N c with Some b => b | None => x3f end
                else x3f) s.

(** [b[i:]] and [b[i:j]] for [0 <= i <= j]. *)
Definition slice_from {A} (i : nat) (b : list A) : list A := skipn i b.
Definition slice {A} (i j : nat) (b : list A) : list A := firstn (j - i) (skipn i b).

(** [payload.split(b'\x00')]: the fields between NUL bytes; always at least
    one field. *)
Fixpoint split_nul (b : bytes) : list bytes :=
  match b with
  | [] => [[]]
  | c :: r =>
      if Byte.eqb c x00 then [] :: split_nul r
      else match split_nul r with
           | p :: ps => (c :: p) :: ps
           | [] => [[c]]
           end
  end.

(** *** [str(n)] for an [int] *)

Definition digit_char (d : nat) : N := (48 + N.of_nat d)%N.

Fixpoint digits_fuel (fuel n : nat) (acc : str) : str :=
  match fuel with
  | O => acc
  | S f =>
      if n <? 10 then digit_char n :: acc
      else digits_fuel f (n / 10) (digit_char (n mod 10) :: acc)
  end.

Definition str_of_nat (n : nat) : str := digits_fuel (S n) n [].

Definition str_of_int (z : Z) : str :=
  if (z <? 0)%Z then 45%N :: str_of_nat (Z.to_nat (- z))
  else str_of_nat (Z.to_nat z).

(** *** [int(s)] for a [str], base 10

    CPython's [int(str)]: optional ASCII white space (TAB, LF, VT, FF, CR,
    space) on both sides, an optional sign, then decimal digits in which
    single underscores may separate digits.  Anything else, the replacement
    character U+FFFD included, raises [ValueError] ([None] here). *)

Definition is_space (c : N) : bool :=
  ((9 <=? c) && (c <=? 13) || (c =? 32))%N.

Definition is_digit (c : N) : bool := ((48 <=? c) && (c <=? 57))%N.

Definition digit_val (c : N) : Z := Z.of_N c - 48.

Fixpoint lstrip (s : str) : str :=
  match s with
  | c :: r => if is_space c then lstrip r else s
  | [] => []
  end.

(** Scans digits and underscores after the first digit; [prev_us] says that
    the previous character was an underscore. *)
Fixpoint scan_digits (acc : Z) (prev_us : bool) (s : str) : option (Z * str) :=
  match s with
  | c :: r =>
      if is_digit c then scan_digits (acc * 10 + digit_val c) false r
      else if (c =? 95)%N then
             if prev_us then None else scan_digits acc true r
      else if prev_us then None else Some (acc, s)
  | [] => if prev_us then None else Some (acc, [])
  end.

Definition int_of_str (s : str) : option Z :=
  let s1 := lstrip s in
  let '(neg, s2) :=
    match s1 with
    | 43%N :: r => (false, r)
    | 45%N :: r => (true, r)
    | _ => (false, s1)
    end in
  match s2 with
  | c :: _ =>
      if is_digit c then
        match scan_digits 0 false s2 with
        | Some (n, rest) =>
            if forallb is_space rest then Some (if neg then (- n)%Z else n)
            else None
        | None => None
        end
      else None
  | [] => None
  end.

End Py.

(** ** Protocol constants and enumerations *)

Module Yapp.

Import Py.

Inductive YappState :=
| IDLE
| S_INIT | S_HEADER | S_DATA | S_EOF | S_EOT
| R_WAIT | R_HEADER | R_DATA
| DONE | ERROR | CW_WAIT.

Inductive YappEvent := INFO | SENT | RECEIVED | EV_ERROR | SUCCESS.

Definition YappState_eqb (a b : YappState) : bool :=
  match a, b with
  | IDLE, IDLE | S_INIT, S_INIT | S_HEADER, S_HEADER | S_DATA, S_DATA
  | S_EOF, S_EOF | S_EOT, S_EOT | R_WAIT, R_WAIT | R_HEADER, R_HEADER
  | R_DATA, R_DATA | DONE, DONE | ERROR, ERROR | CW_WAIT, CW_WAIT => true
  | _, _ => false
  end.

Definition SOH : byte := x01.
Definition STX : byte := x02.
Definition ETX : byte := x03.
Definition EOT : byte := x04.
Definition ENQ : byte := x05.
Definition ACK : byte := x06.
Definition DLE : byte := x10.
Definition NAK : byte := x15.
Definition CAN : byte := x18.

Definition MAX_DATA_LEN : nat := 250.
Definition MAX_SI_RETRIES : Z := 5.

(** ** The outside world *)

(** Python exceptions that the handler can meet. *)
Inductive Exn :=
| ValueError (msg : str)            (* bytes([..., n]) with n > 255 *)
| AttributeError (msg : str)        (* a method called on None *)
| UnsupportedOperation (msg : str)  (* read on a write handle or conversely *)
| OSError (msg : str).              (* raised by the file system *)

(** [str(e)], as used in the f-strings of the source. *)
Definition exn_str (e : Exn) : str :=
  match e with
  | ValueError m | AttributeError m | UnsupportedOperation m | OSError m => m
  end.

(** An open file object.  A file opened with ['rb'] holds its content and
    the read position.  A file opened with ['wb'] holds what the storage will
    answer to the next operations that reach it, the writes and the close
    (which flushes): [None] for an operation that succeeds, [Some e] for one
    that raises [e]; operations after the end of the list succeed. *)
Inductive FileHandle :=
| Reader (content : bytes) (pos : nat)
| Writer (answers : list (option Exn)).

(** What the operating system answers to the calls of the handler. *)
Record OS := {
  os_path_exists : str -> bool;
  os_path_basename : str -> str;
  os_path_getsize : str -> Exn + Z;
  os_path_join : str -> str -> str;
  os_makedirs : str -> option Exn;
  open_rb : str -> Exn + bytes;
  open_wb : str -> Exn + list (option Exn)
}.

(** Calls made by the handler to its collaborators, in order. *)
Inductive Effect :=
| ESend (pkt : bytes)                     (* send_raw(pkt) *)
| EProgress (transferred total : Z)       (* on_progress(...) *)
| ELog (ev : YappEvent) (msg : str)       (* on_event(...) *)
| EFinished (success : bool) (msg : str)  (* on_finished(...) *)
| ERxData (data : bytes)                  (* on_rx_data(data) *)
| EWrite (data : bytes)                   (* file.write(data) that succeeded *)
| ESeek                                   (* file.seek(0) *)
| EClose.                                 (* file.close() *)

(** ** The handler object *)

Record YappHandler := {
  send_raw : bool;
  on_progress : bool;
  on_event : bool;
  on_finished : bool;
  on_rx_data : bool;
  state : YappState;
  _rx_buf : bytes;
  _file_handle : option FileHandle;
  _filename : str;
  _file_size : Z;
  _bytes_transferred : Z;
  _download_dir : str;
  _timer : bool;
  _si_retries : Z
}.

(** [YappHandler(send_raw, on_progress, on_event, on_finished, on_rx_data)] *)
Definition __init__ (sr op oe of_ orx : bool) : YappHandler :=
  {| send_raw := sr; on_progress := op; on_event := oe; on_finished := of_;
     on_rx_data := orx;
     state := IDLE; _rx_buf := []; _file_handle := None; _filename := [];
     _file_size := 0; _bytes_transferred := 0; _download_dir := [];
     _timer := false; _si_retries := 0 |}.

Definition with_state (s : YappState) (h : YappHandler) : YappHandler :=
  {| send_raw := send_raw h; on_progress := on_progress h;
     on_event := on_event h; on_finished := on_finished h;
     on_rx_data := on_rx_data h;
     state := s; _rx_buf := _rx_buf h; _file_handle := _file_handle h;
     _filename := _filename h; _file_size := _file_size h;
     _bytes_transferred := _bytes_transferred h;
     _download_dir := _download_dir h; _timer := _timer h;
     _si_retries := _si_retries h |}.

Definition with_rx_buf (b : bytes) (h : YappHandler) : YappHandler :=
  {| send_raw := send_raw h; on_progress := on_progress h;
     on_event := on_event h; on_finished := on_finished h;
     on_rx_data := on_rx_data h;
     state := state h; _rx_buf := b; _file_handle := _file_handle h;
     _filename := _filename h; _file_size := _file_size h;
     _bytes_transferred := _bytes_transferred h;
     _download_dir := _download_dir h; _timer := _timer h;
     _si_retries := _si_retries h |}.

Definition with_file_handle (f : option FileHandle) (h : YappHandler) : YappHandler :=
  {| send_raw := send_raw h; on_progress := on_progress h;
     on_event := on_event h; on_finished := on_finished h;
     on_rx_data := on_rx_data h;
     state := state h; _rx_buf := _rx_buf h; _file_handle := f;
     _filename := _filename h; _file_size := _file_size h;
     _bytes_transferred := _bytes_transferred h;
     _download_dir := _download_dir h; _timer := _timer h;
     _si_retries := _si_retries h |}.

Definition with_filename (n : str) (h : YappHandler) : YappHandler :=
  {| send_raw := send_raw h; on_progress := on_progress h;
     on_event := on_event h; on_finished := on_finished h;
     on_rx_data := on_rx_data h;
     state := state h; _rx_buf := _rx_buf h; _file_handle := _file_handle h;
     _filename := n; _file_size := _file_size h;
     _bytes_transferred := _bytes_transferred h;
     _download_dir := _download_dir h; _timer := _timer h;
     _si_retries := _si_retries h |}.

Definition with_file_size (z : Z) (h : YappHandler) : YappHandler :=
  {| send_raw := send_raw h; on_progress := on_progress h;
     on_event := on_event h; on_finished := on_finished h;
     on_rx_data := on_rx_data h;
     state := state h; _rx_buf := _rx_buf h; _file_handle := _file_handle h;
     _filename := _filename h; _file_size := z;
     _bytes_transferred := _bytes_transferred h;
     _download_dir := _download_dir h; _timer := _timer h;
     _si_retries := _si_retries h |}.

Definition with_bytes_transferred (z : Z) (h : YappHandler) : YappHandler :=
  {| send_raw := send_raw h; on_progress := on_progress h;
     on_event := on_event h; on_finished := on_finished h;
     on_rx_data := on_rx_data h;
     state := state h; _rx_buf := _rx_buf h; _file_handle := _file_handle h;
     _filename := _filename h; _file_size := _file_size h;
     _bytes_transferred := z;
     _download_dir := _download_dir h; _timer := _timer h;
     _si_retries := _si_retries h |}.

Definition with_download_dir (d : str) (h : YappHandler) : YappHandler :=
  {| send_raw := send_raw h; on_progress := on_progress h;
     on_event := on_event h; on_finished := on_finished h;
     on_rx_data := on_rx_data h;
     state := state h; _rx_buf := _rx_buf h; _file_handle := _file_handle h;
     _filename := _filename h; _file_size := _file_size h;
     _bytes_transferred := _bytes_transferred h;
     _download_dir := d; _timer := _timer h;
     _si_retries := _si_retries h |}.

Definition with_timer (t : bool) (h : YappHandler) : YappHandler :=
  {| send_raw := send_raw h; on_progress := on_progress h;
     on_event := on_event h; on_finished := on_finished h;
     on_rx_data := on_rx_data h;
     state := state h; _rx_buf := _rx_buf h; _file_handle := _file_handle h;
     _filename := _filename h; _file_size := _file_size h;
     _bytes_transferred := _bytes_transferred h;
     _download_dir := _download_dir h; _timer := t;
     _si_retries := _si_retries h |}.

Definition with_si_retries (z : Z) (h : YappHandler) : YappHandler :=
  {| send_raw := send_raw h; on_progress := on_progress h;
     on_event := on_event h; on_finished := on_finished h;
     on_rx_data := on_rx_data h;
     state := state h; _rx_buf := _rx_buf h; _file_handle := _file_handle h;
     _filename := _filename h; _file_size := _file_size h;
     _bytes_transferred := _bytes_transferred h;
     _download_dir := _download_dir h; _timer := _timer h;
     _si_retries := z |}.

(** ** The monad of handler methods *)

(** How a method ends: normally, by a Python exception, or (in the model
    only) because a bounded loop ran out of iterations. *)
Inductive Outcome (A : Type) :=
| Ok (a : A)
| Raise (e : Exn)
| OutOfFuel.

Arguments Ok {A} a.
Arguments Raise {A} e.
Arguments OutOfFuel {A}.

Definition M (A : Type) : Type :=
  YappHandler -> Outcome A * YappHandler * list Effect.

Definition ret {A} (a : A) : M A := fun h => (Ok a, h, []).

Definition bind {A B} (m : M A) (f : A -> M B) : M B :=
  fun h =>
    match m h with
    | (Ok a, h1, t1) =>
        match f a h1 with
        | (o, h2, t2) => (o, h2, t1 ++ t2)
        end
    | (Raise e, h1, t1) => (Raise e, h1, t1)
    | (OutOfFuel, h1, t1) => (OutOfFuel, h1, t1)
    end.

Declare Scope yapp_scope.
Delimit Scope yapp_scope with yapp.
Notation "x <- m ;; k" := (bind m (fun x => k))
  (at level 61, m at next level, right associativity) : yapp_scope.
Notation "m ;; k" := (bind m (fun _ => k))
  (at level 61, right associativity) : yapp_scope.
Open Scope yapp_scope.

Definition self : M YappHandler := fun h => (Ok h, h, []).
Definition update (f : YappHandler -> YappHandler) : M unit :=
  fun h => (Ok tt, f h, []).
Definition call (e : Effect) : M unit := fun h => (Ok tt, h, [e]).
(** [if callback: callback(...)] for an optional callback. *)
Definition call_if (installed : bool) (e : Effect) : M unit :=
  fun h => (Ok tt, h, if installed then [e] else []).
Definition raise {A} (e : Exn) : M A := fun h => (Raise e, h, []).
Definition out_of_fuel {A} : M A := fun h => (OutOfFuel, h, []).

(** [try: m except Exception as e: handler e] *)
Definition try_except {A} (m : M A) (handler : Exn -> M A) : M A :=
  fun h =>
    match m h with
    | (Raise e, h1, t1) =>
        match handler e h1 with
        | (o, h2, t2) => (o, h2, t1 ++ t2)
        end
    | r => r
    end.

(** The three components of a run. *)
Definition outcome {A} (r : Outcome A * YappHandler * list Effect) : Outcome A :=
  fst (fst r).
Definition final {A} (r : Outcome A * YappHandler * list Effect) : YappHandler :=
  snd (fst r).
Definition trace {A} (r : Outcome A * YappHandler * list Effect) : list Effect :=
  snd r.

(** ** File objects *)

(** [self._file_handle.read(n)] *)
Definition file_read (n : nat) : M bytes :=
  h <- self ;;
  match _file_handle h with
  | Some (Reader c p) =>
      let data := firstn n (skipn p c) in
      update (with_file_handle (Some (Reader c (p + length data)))) ;;
      ret data
  | Some (Writer _) => raise (UnsupportedOperation (lit "read"))
  | None => raise (AttributeError (lit "'NoneType' object has no attribute 'read'"))
  end.

(** [self._file_handle.write(data)] *)
Definition file_write (data : bytes) : M unit :=
  h <- self ;;
  match _file_handle h with
  | Some (Writer []) => call (EWrite data)
  | Some (Writer (None :: rest)) =>
      update (with_file_handle (Some (Writer rest))) ;; call (EWrite data)
  | Some (Writer (Some e :: rest)) =>
      update (with_file_handle (Some (Writer rest))) ;; raise e
  | Some (Reader _ _) => raise (UnsupportedOperation (lit "write"))
  | None => raise (AttributeError (lit "'NoneType' object has no attribute 'write'"))
  end.

(** [self._file_handle.seek(0)] *)
Definition file_seek0 : M unit :=
  h <- self ;;
  match _file_handle h with
  | Some (Reader c _) =>
      update (with_file_handle (Some (Reader c 0))) ;; call ESeek
  | Some (Writer _) => call ESeek
  | None => raise (AttributeError (lit "'NoneType' object has no attribute 'seek'"))
  end.

(** The closing of the file in [_finish]:
    [if self._file_handle: try: self._file_handle.close() / except Exception:
    pass / self._file_handle = None].  The call is made and whatever it
    answers is ignored. *)
Definition close_file_handle : M unit :=
  h <- self ;;
  match _file_handle h with
  | Some _ => call EClose ;; update (with_file_handle None)
  | None => ret tt
  end.

(** [if self._file_handle: self._file_handle.close(); self._file_handle = None]
    where the source has no [try] around it ([_send_data_loop], and
    EndOfFile and EndOfTransmission in [_process_receiver_data]).  Closing a
    file opened for writing flushes it and the storage answers as for a
    write: when it answers with an exception, the exception leaves the
    method before the field is cleared, so the file object stays in the
    field (what it answers afterwards is again in the list).  A file opened
    for reading closes without error. *)
Definition close_file : M unit :=
  h <- self ;;
  match _file_handle h with
  | Some (Writer (Some e :: rest)) =>
      call EClose ;; update (with_file_handle (Some (Writer rest))) ;; raise e
  | Some _ => call EClose ;; update (with_file_handle None)
  | None => ret tt
  end.

(** [bytes([class_byte, n])] raises [ValueError] unless [0 <= n <= 255]. *)
Definition byte_of_len (n : nat) : M byte :=
  match Byte.of_nat n with
  | Some b => ret b
  | None => raise (ValueError (lit "bytes must be in range(0, 256)"))
  end.

Definition state_in (s : YappState) (l : list YappState) : bool :=
  existsb (YappState_eqb s) l.

(** ** Helpers (source: "Helpers") *)

Definition _send_packet (data : bytes) : M unit :=
  h <- self ;;
  call_if (send_raw h) (ESend data).

Definition _update_progress : M unit :=
  h <- self ;;
  call_if (on_progress h) (EProgress (_bytes_transferred h) (_file_size h)).

Definition _log (event_type : YappEvent) (message : str) : M unit :=
  h <- self ;;
  call_if (on_event h) (ELog event_type message).

(** ** Timer *)

Definition _cancel_timer : M unit :=
  h <- self ;;
  if _timer h then update (with_timer false) else ret tt.

Definition _start_timer : M unit :=
  _cancel_timer ;;
  update (with_timer true).

Definition _finish (success : bool) (message : str) : M unit :=
  _cancel_timer ;;
  close_file_handle ;;
  update (with_state (if success then DONE else ERROR)) ;;
  _log (if success then SUCCESS else EV_ERROR) message ;;
  h <- self ;;
  call_if (on_finished h) (EFinished success message).

Definition _reset : M unit :=
  _cancel_timer ;;
  h <- self ;;
  (match _file_handle h with
   | Some _ => call EClose
   | None => ret tt
   end) ;;
  update (with_file_handle None) ;;
  update (with_filename []) ;;
  update (with_file_size 0) ;;
  update (with_bytes_transferred 0) ;;
  update (with_rx_buf []) ;;
  update (with_si_retries 0) ;;
  update (with_state IDLE).

(** ** Protocol packet builders *)

(** The wire bytes built by each [_send_*] method. *)
Definition SI_packet : bytes := [ENQ; x01].
Definition EF_packet : bytes := [ETX; x01].
Definition ET_packet : bytes := [EOT; x01].
Definition RR_packet : bytes := [ACK; x01].
Definition RF_packet : bytes := [ACK; x02].
Definition AF_packet : bytes := [ACK; x03].
Definition AT_packet : bytes := [ACK; x04].
Definition CA_packet : bytes := [ACK; x05].

Definition header_payload (filename : str) (file_size : Z) : bytes :=
  encode_ascii filename ++ [x00] ++ encode_ascii (str_of_int file_size) ++ [x00].

Definition _send_si : M unit :=
  _send_packet SI_packet ;;
  _log SENT (lit "SI (Send Init)") ;;
  _start_timer.

Definition _send_header : M unit :=
  h <- self ;;
  let payload := header_payload (_filename h) (_file_size h) in
  n <- byte_of_len (length payload) ;;
  _send_packet ([SOH; n] ++ payload) ;;
  _log SENT (lit "HD (Header) file=" ++ _filename h ++ lit " size="
             ++ str_of_int (_file_size h)) ;;
  update (with_state S_HEADER) ;;
  _start_timer.

(** Returns [True] when a block was sent. *)
Definition _send_data_block : M bool :=
  h <- self ;;
  match _file_handle h with
  | None => ret false
  | Some _ =>
      data <- file_read MAX_DATA_LEN ;;
      match data with
      | [] => ret false
      | _ :: _ =>
          let length_ := length data in
          len_byte <- byte_of_len (if length_ <? 256 then length_ else 0) ;;
          _send_packet ([STX; len_byte] ++ data) ;;
          update (fun h => with_bytes_transferred
                             (_bytes_transferred h + Z.of_nat length_) h) ;;
          _update_progress ;;
          ret true
      end
  end.

Definition _send_eof : M unit :=
  _send_packet EF_packet ;;
  _log SENT (lit "EF (End of File)") ;;
  update (with_state S_EOF) ;;
  _start_timer.

Definition _send_eot : M unit :=
  _send_packet ET_packet ;;
  _log SENT (lit "ET (End of Transmission)") ;;
  update (with_state S_EOT) ;;
  _start_timer.

Definition _send_rr : M unit :=
  _send_packet RR_packet ;; _log SENT (lit "RR (Receive Ready)").

Definition _send_rf : M unit :=
  _send_packet RF_packet ;; _log SENT (lit "RF (Receive File)").

Definition _send_af : M unit :=
  _send_packet AF_packet ;; _log SENT (lit "AF (Ack End of File)").

Definition _send_at : M unit :=
  _send_packet AT_packet ;; _log SENT (lit "AT (Ack End of Transmission)").

Definition _send_nr (reason : str) : M unit :=
  let payload := encode_ascii reason in
  n <- byte_of_len (length payload) ;;
  _send_packet ([NAK; n] ++ payload) ;;
  _log SENT (lit "NR (Not Ready) " ++ reason).

Definition _send_cancel (reason : str) : M unit :=
  let payload := encode_ascii reason in
  n <- byte_of_len (length payload) ;;
  _send_packet ([CAN; n] ++ payload) ;;
  _log SENT (lit "CN (Cancel) " ++ reason).

Definition _send_ca : M unit :=
  _send_packet CA_packet ;; _log SENT (lit "CA (Cancel Ack)").

(** ** Data send loop *)

(** [while self.state == S_DATA: ...]; every iteration that does not return
    reads at least one byte of the file, so [fuel] iterations are enough when
    [fuel] exceeds the number of unread bytes. *)
Fixpoint _send_data_loop_fuel (fuel : nat) : M unit :=
  h <- self ;;
  if YappState_eqb (state h) S_DATA then
    match fuel with
    | O => out_of_fuel
    | S fuel' =>
        more <- _send_data_block ;;
        if more then _send_data_loop_fuel fuel'
        else (close_file ;; _send_eof)
    end
  else ret tt.

Definition unread (h : YappHandler) : nat :=
  match _file_handle h with
  | Some (Reader c p) => length c - p
  | _ => 0
  end.

Definition _send_data_loop : M unit :=
  h <- self ;;
  _send_data_loop_fuel (S (unread h)).

(** ** Header parsing *)

Section WithOS.

Variable os : OS.

Definition _parse_header (payload : bytes) : M unit :=
  let parts := split_nul payload in
  (match parts with
   | p0 :: p1 :: _ =>
       update (with_filename (decode_ascii p0)) ;;
       match int_of_str (decode_ascii p1) with
       | Some n => update (with_file_size n)
       | None => update (with_file_size 0)
       end
   | _ => ret tt
   end) ;;
  h <- self ;;
  _log RECEIVED (lit "HD (Header) file=" ++ _filename h ++ lit " size="
                 ++ str_of_int (_file_size h)) ;;
  match _filename h with
  | [] =>
      _send_nr (lit "Invalid filename") ;;
      _finish false (lit "Invalid filename in header")
  | _ :: _ =>
      let filepath := os_path_join os (_download_dir h) (_filename h) in
      match open_wb os filepath with
      | inr answers =>
          update (with_file_handle (Some (Writer answers))) ;;
          update (with_bytes_transferred 0) ;;
          _send_rf ;;
          update (with_state R_DATA) ;;
          _log INFO (lit "Receiving " ++ _filename h ++ lit "...")
      | inl e =>
          _send_nr (lit "Cannot create file: " ++ exn_str e) ;;
          _finish false (lit "Cannot create file: " ++ exn_str e)
      end
  end.

(** ** Buffer processing / state machine *)

(** States: S_INIT, S_HEADER, S_EOF, S_EOT.  Returns [True] when bytes of the
    buffer were consumed. *)
Definition _process_sender_response (first second : byte) : M bool :=
  _cancel_timer ;;
  if Byte.eqb first ACK then
    update (fun h => with_rx_buf (slice_from 2 (_rx_buf h)) h) ;;
    if Byte.eqb second x01 then
      _log RECEIVED (lit "RR (Receive Ready)") ;;
      h <- self ;;
      (if YappState_eqb (state h) S_INIT then _send_header else ret tt) ;;
      ret true
    else if Byte.eqb second x02 then
      _log RECEIVED (lit "RF (Receive File)") ;;
      h <- self ;;
      (if state_in (state h) [S_INIT; S_HEADER] then
         update (with_state S_DATA) ;;
         _log INFO (lit "Sending data...") ;;
         _send_data_loop
       else ret tt) ;;
      ret true
    else if Byte.eqb second x03 then
      _log RECEIVED (lit "AF (Ack End of File)") ;;
      h <- self ;;
      (if YappState_eqb (state h) S_EOF then _send_eot else ret tt) ;;
      ret true
    else if Byte.eqb second x04 then
      _log RECEIVED (lit "AT (Ack End of Transmission)") ;;
      h <- self ;;
      (if YappState_eqb (state h) S_EOT
       then _finish true (lit "File sent successfully: " ++ _filename h)
       else ret tt) ;;
      ret true
    else if Byte.eqb second x05 then
      _log RECEIVED (lit "CA (Cancel Ack)") ;;
      _finish false (lit "Transfer cancelled") ;;
      ret true
    else if Byte.eqb second ACK then
      _log RECEIVED (lit "RT (YappC requested - not supported, using standard)") ;;
      h <- self ;;
      (if state_in (state h) [S_INIT; S_HEADER] then
         update (with_state S_DATA) ;;
         _send_data_loop
       else ret tt) ;;
      ret true
    else ret true
  else if Byte.eqb first NAK then
    let length_ := Byte.to_nat second in
    h <- self ;;
    if length (_rx_buf h) <? 2 + length_ then ret false
    else
      let payload := slice 2 (2 + length_) (_rx_buf h) in
      update (with_rx_buf (slice_from (2 + length_) (_rx_buf h))) ;;
      (match payload with
       | c :: _ =>
           if Byte.eqb c x52 then
             _log RECEIVED (lit "RE (Resume) - not supported, restarting") ;;
             h <- self ;;
             if YappState_eqb (state h) S_HEADER then
               file_seek0 ;;
               update (with_bytes_transferred 0) ;;
               _send_header
             else ret tt
           else
             let reason := decode_ascii payload in
             _log RECEIVED (lit "NR (Not Ready) " ++ reason) ;;
             _finish false (lit "Remote not ready: " ++ reason)
       | [] =>
           let reason := decode_ascii payload in
           _log RECEIVED (lit "NR (Not Ready) " ++ reason) ;;
           _finish false (lit "Remote not ready: " ++ reason)
       end) ;;
      ret true
  else
    update (fun h => with_rx_buf (slice_from 1 (_rx_buf h)) h) ;;
    ret true.

(** States: R_WAIT, R_HEADER.  The second [ENQ 01] branch of the source
    ("Duplicate SI") can never be taken, its test being the one of the first
    branch; it is kept here in the same place. *)
Definition _process_receiver_control (first second : byte) : M bool :=
  _cancel_timer ;;
  if Byte.eqb first ENQ && Byte.eqb second x01 then
    update (fun h => with_rx_buf (slice_from 2 (_rx_buf h)) h) ;;
    _log RECEIVED (lit "SI (Send Init)") ;;
    _send_rr ;;
    update (with_state R_HEADER) ;;
    _start_timer ;;
    ret true
  else if Byte.eqb first SOH then
    let length_ := Byte.to_nat second in
    h <- self ;;
    if length (_rx_buf h) <? 2 + length_ then ret false
    else
      let payload := slice 2 (2 + length_) (_rx_buf h) in
      update (with_rx_buf (slice_from (2 + length_) (_rx_buf h))) ;;
      _parse_header payload ;;
      ret true
  else if Byte.eqb first EOT && Byte.eqb second x01 then
    update (fun h => with_rx_buf (slice_from 2 (_rx_buf h)) h) ;;
    _log RECEIVED (lit "ET (End of Transmission)") ;;
    _send_at ;;
    _finish true (lit "Transfer complete (no files)") ;;
    ret true
  else if Byte.eqb first ENQ && Byte.eqb second x01 then
    update (fun h => with_rx_buf (slice_from 2 (_rx_buf h)) h) ;;
    _send_rr ;;
    ret true
  else
    update (fun h => with_rx_buf (slice_from 1 (_rx_buf h)) h) ;;
    ret true.

(** State: R_DATA. *)
Definition _process_receiver_data (first second : byte) : M bool :=
  if Byte.eqb first STX then
    let length_ := if negb (Byte.eqb second x00) then Byte.to_nat second else 256 in
    h <- self ;;
    if length (_rx_buf h) <? 2 + length_ then ret false
    else
      let data := slice 2 (2 + length_) (_rx_buf h) in
      update (with_rx_buf (slice_from (2 + length_) (_rx_buf h))) ;;
      (match _file_handle h with
       | Some _ =>
           try_except
             (file_write data ;;
              update (fun h => with_bytes_transferred
                                 (_bytes_transferred h + Z.of_nat length_) h) ;;
              _update_progress)
             (fun e =>
                _send_cancel (lit "Write error: " ++ exn_str e) ;;
                _finish false (lit "File write error: " ++ exn_str e))
       | None => ret tt
       end) ;;
      ret true
  else if Byte.eqb first ETX && Byte.eqb second x01 then
    update (fun h => with_rx_buf (slice_from 2 (_rx_buf h)) h) ;;
    _log RECEIVED (lit "EF (End of File)") ;;
    close_file ;;
    _send_af ;;
    update (with_state R_HEADER) ;;
    _start_timer ;;
    h <- self ;;
    _log SUCCESS (lit "File received: " ++ _filename h ++ lit " ("
                  ++ str_of_int (_bytes_transferred h) ++ lit " bytes)") ;;
    ret true
  else if Byte.eqb first EOT && Byte.eqb second x01 then
    update (fun h => with_rx_buf (slice_from 2 (_rx_buf h)) h) ;;
    _log RECEIVED (lit "ET (End of Transmission)") ;;
    close_file ;;
    _send_at ;;
    h <- self ;;
    _finish true (lit "Received " ++ _filename h ++ lit " ("
                  ++ str_of_int (_bytes_transferred h) ++ lit " bytes)") ;;
    ret true
  else if Byte.eqb first CAN then
    let length_ := Byte.to_nat second in
    h <- self ;;
    if length (_rx_buf h) <? 2 + length_ then ret false
    else
      update (with_rx_buf (slice_from (2 + length_) (_rx_buf h))) ;;
      _send_ca ;;
      _finish false (lit "Cancelled by remote") ;;
      ret true
  else
    update (fun h => with_rx_buf (slice_from 1 (_rx_buf h)) h) ;;
    ret true.

(** State: S_DATA. *)
Definition _process_sender_data_interrupt (first second : byte) : M bool :=
  if Byte.eqb first DLE then
    let length_ := Byte.to_nat second in
    h <- self ;;
    if length (_rx_buf h) <? 2 + length_ then ret false
    else
      let text := decode_ascii (slice 2 (2 + length_) (_rx_buf h)) in
      update (with_rx_buf (slice_from (2 + length_) (_rx_buf h))) ;;
      _log RECEIVED (lit "TX: " ++ text) ;;
      ret true
  else
    update (with_rx_buf []) ;;
    _send_cancel (lit "Unexpected data during send") ;;
    _finish false (lit "Protocol error: unexpected data during send") ;;
    ret true.

(** One turn of the [while len(self._rx_buf) >= 2] loop of
    [_process_buffer], entered with at least two bytes in the buffer.  The
    result is [True] when the loop goes on and [False] when the method
    returns. *)
Definition _process_buffer_body (first second : byte) : M bool :=
  if Byte.eqb first CAN then
    let length_ := Byte.to_nat second in
    h <- self ;;
    if length (_rx_buf h) <? 2 + length_ then ret false
    else
      let reason := decode_ascii (slice 2 (2 + length_) (_rx_buf h)) in
      update (with_rx_buf (slice_from (2 + length_) (_rx_buf h))) ;;
      _log RECEIVED (lit "CN (Cancel) " ++ reason) ;;
      _send_ca ;;
      _finish false (lit "Cancelled by remote: " ++ reason) ;;
      ret false
  else
    h <- self ;;
    if state_in (state h) [S_INIT; S_HEADER; S_EOF; S_EOT] then
      _process_sender_response first second
    else if state_in (state h) [R_WAIT; R_HEADER] then
      _process_receiver_control first second
    else if YappState_eqb (state h) R_DATA then
      _process_receiver_data first second
    else if YappState_eqb (state h) S_DATA then
      _process_sender_data_interrupt first second
    else
      update (with_rx_buf []) ;;
      ret false.

(** The loop itself.  A turn that lets the loop go on removes at least one
    byte from the buffer, so [fuel] turns are enough when [fuel] exceeds the
    length of the buffer. *)
Fixpoint _process_buffer_fuel (fuel : nat) : M unit :=
  h <- self ;;
  match _rx_buf h with
  | first :: second :: _ =>
      match fuel with
      | O => out_of_fuel
      | S fuel' =>
          consumed <- _process_buffer_body first second ;;
          if consumed then _process_buffer_fuel fuel' else ret tt
      end
  | _ => ret tt
  end.

Definition _process_buffer : M unit :=
  h <- self ;;
  _process_buffer_fuel (S (length (_rx_buf h))).

(** ** Public API *)

Definition start_send (filepath : str) : M (bool * str) :=
  h <- self ;;
  if negb (YappState_eqb (state h) IDLE) then
    ret (false, lit "Transfer already in progress")
  else if negb (os_path_exists os filepath) then
    ret (false, lit "File not found: " ++ filepath)
  else
    try_except
      (update (with_filename (os_path_basename os filepath)) ;;
       size <- (match os_path_getsize os filepath with
                | inr n => ret n
                | inl e => raise e
                end) ;;
       update (with_file_size size) ;;
       content <- (match open_rb os filepath with
                   | inr c => ret c
                   | inl e => raise e
                   end) ;;
       update (with_file_handle (Some (Reader content 0))) ;;
       update (with_bytes_transferred 0) ;;
       update (with_si_retries 0) ;;
       update (with_state S_INIT) ;;
       update (with_rx_buf []) ;;
       h <- self ;;
       _log INFO (lit "Starting send: " ++ _filename h ++ lit " ("
                  ++ str_of_int (_file_size h) ++ lit " bytes)") ;;
       _send_si ;;
       ret (true, lit "Sending " ++ _filename h))
      (fun e =>
         _reset ;;
         ret (false, lit "Error: " ++ exn_str e)).

Definition start_receive (download_dir : str) : M (bool * str) :=
  h <- self ;;
  if negb (YappState_eqb (state h) IDLE) then
    ret (false, lit "Transfer already in progress")
  else
    match os_makedirs os download_dir with
    | Some e => raise e
    | None =>
        update (with_download_dir download_dir) ;;
        update (with_rx_buf []) ;;
        update (with_bytes_transferred 0) ;;
        update (with_filename []) ;;
        update (with_file_size 0) ;;
        update (with_state R_WAIT) ;;
        _log INFO (lit "Waiting for sender (SI)...") ;;
        _start_timer ;;
        ret (true, lit "Waiting for file transfer")
    end.

Definition process_data (data : bytes) : M unit :=
  h <- self ;;
  if YappState_eqb (state h) IDLE then
    call_if (on_rx_data h) (ERxData data)
  else
    update (fun h => with_rx_buf (_rx_buf h ++ data) h) ;;
    _process_buffer.

Definition cancel : M unit :=
  h <- self ;;
  if state_in (state h) [IDLE; DONE; ERROR] then ret tt
  else
    _send_cancel (lit "Cancelled by user") ;;
    _finish false (lit "Transfer cancelled by user").

Definition is_active (h : YappHandler) : bool :=
  negb (state_in (state h) [IDLE; DONE; ERROR]).

Definition _on_timeout : M unit :=
  h <- self ;;
  if YappState_eqb (state h) S_INIT && (_si_retries h <? MAX_SI_RETRIES)%Z then
    update (fun h => with_si_retries (_si_retries h + 1) h) ;;
    h <- self ;;
    _log INFO (lit "Timeout, retrying SI (" ++ str_of_int (_si_retries h)
               ++ lit "/" ++ str_of_int MAX_SI_RETRIES ++ lit ")...") ;;
    _send_si
  else if negb (YappState_eqb (state h) IDLE) then
    _log EV_ERROR (lit "Timeout - no response from remote") ;;
    _send_cancel (lit "Timeout") ;;
    _finish false (lit "Timeout: no response from remote station")
  else ret tt.

Definition reset_to_idle : M unit := _reset.

End WithOS.
(** ** One decode step *)

(** One turn of the loop of [_process_buffer], loop test included: [False]
    when the loop stops (fewer than two bytes, more data needed, or the method
    returned). *)
Definition decode_step (os : OS) : M bool :=
  h <- self ;;
  match _rx_buf h with
  | first :: second :: _ => _process_buffer_body os first second
  | _ => ret false
  end.

(** The payload length that a Data packet declares: [length = second if
    second != 0 else 256]. *)
Definition data_len (second : byte) : nat :=
  if negb (Byte.eqb second x00) then Byte.to_nat second else 256.

(** The classes that a state decodes with a length prefix: Cancel everywhere
    (it is tested before the dispatch on the state), NAK in the sender states
    that wait for an answer, Header in the receiver control states, Data in
    R_DATA and Text in S_DATA. *)
Definition length_prefixed (s : YappState) (first : byte) : bool :=
  Byte.eqb first CAN
  || state_in s [S_INIT; S_HEADER; S_EOF; S_EOT] && Byte.eqb first NAK
  || state_in s [R_WAIT; R_HEADER] && Byte.eqb first SOH
  || YappState_eqb s R_DATA && Byte.eqb first STX
  || YappState_eqb s S_DATA && Byte.eqb first DLE.

Definition declared_len (first second : byte) : nat :=
  if Byte.eqb first STX then data_len second else Byte.to_nat second.

(** ** Packet kinds and their wire format

    The fifteen packet types of the table in the module docstring, and the
    bytes that the table (and the [_send_*] builders, for the kinds that have
    one) put on the wire. *)

Inductive Kind :=
| SI | RR | RF | AF | AT | CA | RT | HD | DT | EF | ET | NR | RE | CN | TX.

(** The length byte: [len(payload)], with 0 standing for 256 as in
    [_send_data_block]. *)
Definition len_byte (n : nat) : byte :=
  match Byte.of_nat (if n <? 256 then n else 0) with
  | Some b => b
  | None => x00
  end.

Definition wire (k : Kind) (payload : bytes) : bytes :=
  match k with
  | SI => SI_packet
  | RR => RR_packet
  | RF => RF_packet
  | AF => AF_packet
  | AT => AT_packet
  | CA => CA_packet
  | RT => [ACK; ACK]
  | HD => [SOH; len_byte (length payload)] ++ payload
  | DT => [STX; len_byte (length payload)] ++ payload
  | EF => EF_packet
  | ET => ET_packet
  | NR | RE => [NAK; len_byte (length payload)] ++ payload
  | CN => [CAN; len_byte (length payload)] ++ payload
  | TX => [DLE; len_byte (length payload)] ++ payload
  end.

(** The states whose handler has a branch for a kind. *)
Definition decodes_kind (s : YappState) (k : Kind) : bool :=
  match k with
  | SI | HD => state_in s [R_WAIT; R_HEADER]
  | RR | RF | AF | AT | CA | RT | NR | RE =>
      state_in s [S_INIT; S_HEADER; S_EOF; S_EOT]
  | DT | EF => YappState_eqb s R_DATA
  | ET => state_in s [R_WAIT; R_HEADER; R_DATA]
  | CN => true
  | TX => YappState_eqb s S_DATA
  end.

Definition starts_with_R (payload : bytes) : bool :=
  match payload with
  | c :: _ => Byte.eqb c x52
  | [] => false
  end.

(** The message with which a handler reports the packet it has recognised
    ([on_event(RECEIVED, ...)]); Header and Data are reported otherwise. *)
Definition received_message (k : Kind) (payload : bytes) : str :=
  match k with
  | SI => lit "SI (Send Init)"
  | RR => lit "RR (Receive Ready)"
  | RF => lit "RF (Receive File)"
  | AF => lit "AF (Ack End of File)"
  | AT => lit "AT (Ack End of Transmission)"
  | CA => lit "CA (Cancel Ack)"
  | RT => lit "RT (YappC requested - not supported, using standard)"
  | EF => lit "EF (End of File)"
  | ET => lit "ET (End of Transmission)"
  | NR => lit "NR (Not Ready) " ++ decode_ascii payload
  | RE => lit "RE (Resume) - not supported, restarting"
  | CN => lit "CN (Cancel) " ++ decode_ascii payload
  | TX => lit "TX: " ++ decode_ascii payload
  | HD | DT => []
  end.

(** The handler holds a file open for writing whose next write succeeds. *)
Definition writable (h : YappHandler) : Prop :=
  exists answers,
    _file_handle h = Some (Writer answers) /\ hd None answers = None.

(** A payload of 7-bit ASCII bytes. *)
Definition seven_bit (payload : bytes) : Prop :=
  Forall (fun b => (Byte.to_N b < 128)%N) payload.

(** What shows that a step has decoded a packet of kind [k] and recovered
    its payload [payload].  Data: the payload is written to the file.
    Cancel, NotReady and Text: the RECEIVED event of the kind carries a text
    whose ASCII encoding is the payload.  Header: the Header event is
    raised, and the file name and the size that the handler holds are those
    of which the payload is the encoding.  Resume: the RECEIVED event of the
    kind; the handler does not look at the payload beyond its first byte, so
    nothing shows it.  The kinds without payload: the RECEIVED event of the
    kind. *)
Definition recognised (k : Kind) (payload : bytes)
    (t : list Effect) (h' : YappHandler) : Prop :=
  match k with
  | DT => In (EWrite payload) t
  | HD =>
      In (ELog RECEIVED (lit "HD (Header) file=" ++ _filename h'
                         ++ lit " size=" ++ str_of_int (_file_size h'))) t
      /\ header_payload (_filename h') (_file_size h') = payload
  | NR =>
      exists text,
        In (ELog RECEIVED (lit "NR (Not Ready) " ++ text)) t
        /\ encode_ascii text = payload
  | CN =>
      exists text,
        In (ELog RECEIVED (lit "CN (Cancel) " ++ text)) t
        /\ encode_ascii text = payload
  | TX =>
      exists text,
        In (ELog RECEIVED (lit "TX: " ++ text)) t
        /\ encode_ascii text = payload
  | _ => In (ELog RECEIVED (received_message k payload)) t
  end.

(** The payloads of the round trip.  Kinds without payload carry none; a
    Header payload is the one that [_send_header] builds from a name of
    ASCII characters other than NUL and a size; a Data payload is not empty;
    the payloads of Cancel, NotReady and Text are 7-bit ASCII, the one of
    NotReady not starting with [R]; a Resume payload starts with [R]. *)
Definition shaped (k : Kind) (payload : bytes) : Prop :=
  match k with
  | SI | RR | RF | AF | AT | CA | RT | EF | ET => payload = []
  | HD =>
      exists (name : str) (size : Z),
        Forall (fun c => (0 < c < 128)%N) name
        /\ payload = header_payload name size
  | DT => payload <> []
  | NR => seven_bit payload /\ starts_with_R payload = false
  | RE => starts_with_R payload = true
  | CN | TX => seven_bit payload
  end.

(** The round trip of a packet: in every state that decodes the kind, with
    the event callback installed (and the file writable, for Data), a step
    on a buffer that starts with the wire bytes recognises the kind and the
    payload and leaves exactly what followed the packet. *)
Definition round_trip (os : OS) (k : Kind) (payload : bytes) : Prop :=
  forall (h : YappHandler) (rest : bytes),
    decodes_kind (state h) k = true ->
    on_event h = true ->
    (k = DT -> writable h) ->
    _rx_buf h = wire k payload ++ rest ->
    recognised k payload (trace (decode_step os h)) (final (decode_step os h))
    /\ _rx_buf (final (decode_step os h)) = rest.

(** ** Calls from the outside *)

(** The calls that the application and the timer thread make on a handler. *)
Inductive Call :=
| CallStartSend (filepath : str)
| CallStartReceive (download_dir : str)
| CallProcessData (data : bytes)
| CallCancel
| CallTimeout.

Definition run_call (os : OS) (c : Call) : M unit :=
  match c with
  | CallStartSend filepath => start_send os filepath ;; ret tt
  | CallStartReceive download_dir => start_receive os download_dir ;; ret tt
  | CallProcessData data => process_data os data
  | CallCancel => cancel
  | CallTimeout => _on_timeout
  end.

(** A sequence of calls; a call that raises leaves the handler as it was at
    the raise, and the next call goes on from there. *)
Fixpoint run_calls (os : OS) (cs : list Call) (h : YappHandler)
    : YappHandler * list Effect :=
  match cs with
  | [] => (h, [])
  | c :: cs' =>
      let r := run_call os c h in
      let '(h', t') := run_calls os cs' (final r) in
      (h', trace r ++ t')
  end.

(** The [on_finished] calls of a trace. *)
Definition finished_calls (t : list Effect) : list (bool * str) :=
  flat_map (fun e => match e with
                     | EFinished s m => [(s, m)]
                     | _ => []
                     end) t.

(** The packets sent in a trace, and how many of them are SendInit. *)
Definition sent_packets (t : list Effect) : list bytes :=
  flat_map (fun e => match e with
                     | ESend p => [p]
                     | _ => []
                     end) t.

Definition is_SI (p : bytes) : bool :=
  match p with
  | [a; b] => Byte.eqb a ENQ && Byte.eqb b x01
  | _ => false
  end.

Definition SI_count (t : list Effect) : nat :=
  length (filter is_SI (sent_packets t)).

(** [n] expiries of the timer in a row. *)
Fixpoint timeouts (n : nat) : M unit :=
  match n with
  | O => ret tt
  | S n' => _on_timeout ;; timeouts n'
  end.

(** ** The invariant of a sending session

    Between two calls, a handler that was started by [start_send] is in a
    sender or terminal state; as long as the file is open nothing has been
    read or counted and the file holds [_file_size] bytes; once it is closed
    the counter is within the size. *)
Definition sender_session (h : YappHandler) : Prop :=
  state_in (state h) [S_INIT; S_HEADER; S_EOF; S_EOT; DONE; ERROR] = true
  /\ match _file_handle h with
     | Some (Reader content pos) =>
         pos = 0 /\ _bytes_transferred h = 0%Z
         /\ _file_size h = Z.of_nat (length content)
     | Some (Writer _) => False
     | None => (0 <= _bytes_transferred h <= _file_size h)%Z
     end.

(** ** Two properties of methods, used to show that the loops end

    A method is [steady] when it never runs out of loop iterations and leaves
    the receive buffer as it found it; a step [shrinks] the buffer of a
    handler when it does not run out of iterations either and, whenever it
    lets the loop of [_process_buffer] go on, has made the buffer shorter. *)
Definition steady {A} (m : M A) : Prop :=
  forall h, outcome (m h) <> OutOfFuel /\ _rx_buf (final (m h)) = _rx_buf h.

Definition shrinks (h : YappHandler) (m : M bool) : Prop :=
  2 <= length (_rx_buf h) ->
  outcome (m h) <> OutOfFuel
  /\ (outcome (m h) = Ok true ->
      length (_rx_buf (final (m h))) < length (_rx_buf h)).

(** A method is [total] when it never runs out of loop iterations: it returns
    or raises. *)
Definition total {A} (m : M A) : Prop :=
  forall h, outcome (m h) <> OutOfFuel.

(** ** A small world for the examples

    One file, [a.txt], of ten bytes; every directory can be made and every
    file can be opened for writing and written. *)
Definition example_os : OS :=
  {| os_path_exists := fun _ => true;
     os_path_basename := fun p => p;
     os_path_getsize := fun _ => inr 10%Z;
     os_path_join := fun d f => d ++ lit "/" ++ f;
     os_makedirs := fun _ => None;
     open_rb := fun _ => inr [x61; x62; x63; x64; x65; x66; x67; x68; x69; x6a];
     open_wb := fun _ => inr [] |}.

(** A fresh handler with its five callbacks installed. *)
Definition example_handler : YappHandler := __init__ true true true true true.

(** A method [keeps] a property of the handler when the property holds after
    the method (however it ends) whenever it held before. *)
Definition keeps {A} (P : YappHandler -> Prop) (m : M A) : Prop :=
  forall h, P h -> P (final (m h)).

(** The handler of the examples once [start_send] has started the sending of
    [a.txt]: it is in S_INIT. *)
Definition sender_started : YappHandler :=
  final (start_send example_os (lit "a.txt") example_handler).

(** A handler in R_DATA, its file open for writing, with [buf] in its receive
    buffer. *)
Definition receiving (buf : bytes) : YappHandler :=
  with_rx_buf buf
    (with_file_handle (Some (Writer [])) (with_state R_DATA example_handler)).

(** ** More of the handler: what the sender sends and the receiver writes *)

(** The blocks in which [_send_data_loop] reads what is left of a file:
    [MAX_DATA_LEN] bytes at a time, the last block being what remains. *)
Fixpoint blocks_fuel (fuel : nat) (data : bytes) : list bytes :=
  match fuel with
  | O => []
  | S fuel' =>
      match firstn MAX_DATA_LEN data with
      | [] => []
      | b :: bs => (b :: bs) :: blocks_fuel fuel' (skipn MAX_DATA_LEN data)
      end
  end.

Definition blocks (data : bytes) : list bytes :=
  blocks_fuel (length data) data.

(** The data written to the file in a trace, write by write. *)
Definition written (t : list Effect) : list bytes :=
  flat_map (fun e => match e with
                     | EWrite d => [d]
                     | _ => []
                     end) t.

(** Data packets one after the other, as they arrive on the line. *)
Definition data_stream (payloads : list bytes) : bytes :=
  concat (map (wire DT) payloads).

(** What the receiver does with a run of Data packets: a write and, when
    [on_progress] is installed, a progress report for each. *)
Fixpoint receipt (progress : bool) (transferred total : Z)
    (payloads : list bytes) : list Effect :=
  match payloads with
  | [] => []
  | p :: ps =>
      EWrite p ::
      (if progress
       then [EProgress (transferred + Z.of_nat (length p)) total] else [])
      ++ receipt progress (transferred + Z.of_nat (length p)) total ps
  end.

(** ** The calls that a method makes, by the callbacks installed

    [logged h ev msg] is the call of [on_event] made by [_log(ev, msg)],
    [sent h pkt msg] the calls made by a builder that sends [pkt] and logs
    [msg], [closed h] the call of [close] on the file when one is open, and
    [finish_calls success message h] the calls made by
    [_finish(success, message)]; [finished success h] is the handler that
    [_finish] leaves. *)
Definition logged (h : YappHandler) (ev : YappEvent) (msg : str) : list Effect :=
  if on_event h then [ELog ev msg] else [].

Definition sent (h : YappHandler) (pkt : bytes) (msg : str) : list Effect :=
  (if send_raw h then [ESend pkt] else []) ++ logged h SENT msg.

Definition closed (h : YappHandler) : list Effect :=
  match _file_handle h with
  | Some _ => [EClose]
  | None => []
  end.

(** What the storage answers when the file that the handler holds is
    closed: the exception that [close] raises, if any (see [close_file]). *)
Definition close_answer (h : YappHandler) : option Exn :=
  match _file_handle h with
  | Some (Writer (a :: _)) => a
  | _ => None
  end.

Definition finish_calls (success : bool) (message : str) (h : YappHandler)
    : list Effect :=
  closed h
  ++ logged h (if success then SUCCESS else EV_ERROR) message
  ++ (if on_finished h then [EFinished success message] else []).

Definition finished (success : bool) (h : YappHandler) : YappHandler :=
  with_state (if success then DONE else ERROR)
    (with_file_handle None (with_timer false h)).

(** The calls made by [_send_data_block] for a run of blocks read from the
    file, the counter being [transferred] before the first: the Data packet,
    then the progress. *)
Fixpoint block_calls (h : YappHandler) (transferred : Z) (bs : list bytes)
    : list Effect :=
  match bs with
  | [] => []
  | b :: bs' =>
      (if send_raw h then [ESend (wire DT b)] else [])
      ++ (if on_progress h
          then [EProgress (transferred + Z.of_nat (length b)) (_file_size h)]
          else [])
      ++ block_calls h (transferred + Z.of_nat (length b)) bs'
  end.

(** ** Two stations back to back

    [line t] is what a station puts on the line during a call: the packets
    it hands to [send_raw], one after the other.  [exchange] lets two
    stations answer each other: [a] receives [incoming] in one delivery, what
    it sends is delivered to [b], and so on until a station has nothing to
    say.  The result gives, for each station, the handler at the end and the
    calls it has made. *)
Definition line (t : list Effect) : bytes := concat (sent_packets t).

Fixpoint exchange (fuel : nat) (os_a os_b : OS) (a b : YappHandler)
    (incoming : bytes)
    : (YappHandler * list Effect) * (YappHandler * list Effect) :=
  match fuel, incoming with
  | S fuel', _ :: _ =>
      let r := process_data os_a incoming a in
      let '((b', tb), (a', ta)) :=
        exchange fuel' os_b os_a b (final r) (line (trace r)) in
      ((a', trace r ++ ta), (b', tb))
  | _, _ => ((a, []), (b, []))
  end.

(** A transfer between two handlers: the receiver is started on the
    directory [dir], the sender on the file [filepath], and the SendInit of
    the sender is the first delivery.  The result gives the receiver, then
    the sender, each with the calls made after its start. *)
Definition transfer (fuel : nat) (os_s os_r : OS) (filepath dir : str)
    (s r : YappHandler)
    : (YappHandler * list Effect) * (YappHandler * list Effect) :=
  let started := start_send os_s filepath s in
  exchange fuel os_r os_s
    (final (start_receive os_r dir r)) (final started) (line (trace started)).

(** * Properties *)

Unset Implicit Arguments.

(** ** Slices of a buffer that starts with a whole packet *)

Lemma slice_prefix {A} (a b : A) (p r : list A) n :
  length p = n -> slice 2 (2 + n) (a :: b :: p ++ r) = p.
Proof.
  intros <-. unfold slice. replace (2 + length p - 2) with (length p) by lia.
  cbn [skipn]. rewrite firstn_app, Nat.sub_diag, firstn_all. cbn. apply app_nil_r.
Qed.

Lemma slice_from_prefix {A} (a b : A) (p r : list A) n :
  length p = n -> slice_from (2 + n) (a :: b :: p ++ r) = r.
Proof.
  intros <-. unfold slice_from. cbn [skipn Nat.add].
  rewrite skipn_app, Nat.sub_diag, skipn_all. reflexivity.
Qed.

Lemma ltb_complete {A} (a b : A) (p r : list A) n :
  length p = n -> (length (a :: b :: p ++ r) <? 2 + n) = false.
Proof.
  intros <-. apply Nat.ltb_ge. cbn [length]. rewrite length_app. lia.
Qed.

Lemma ltb_partial {A} (a b : A) (p : list A) n :
  length p < n -> (length (a :: b :: p) <? 2 + n) = true.
Proof. intros H. apply Nat.ltb_lt. cbn [length]. lia. Qed.

Lemma with_timer_same h : with_timer (_timer h) h = h.
Proof. destruct h; reflexivity. Qed.

Lemma with_rx_buf_same h : with_rx_buf (_rx_buf h) h = h.
Proof. destruct h; reflexivity. Qed.

Ltac destruct_handler h :=
  destruct h as [sr op oe ofn orx st buf fh fname fsz bt dd tm sir].

#[local] Arguments Byte.eqb !a !b.
#[local] Arguments slice : simpl never.
#[local] Arguments slice_from : simpl never.
#[local] Arguments Nat.ltb : simpl never.
#[local] Arguments Byte.to_nat : simpl never.
#[local] Arguments Nat.add : simpl never.
#[local] Arguments Nat.sub : simpl never.
#[local] Arguments length : simpl never.
#[local] Arguments lit : simpl never.
#[local] Arguments Z.add : simpl never.
#[local] Arguments Z.of_nat : simpl never.
#[local] Arguments decode_ascii : simpl never.
#[local] Arguments encode_ascii : simpl never.
#[local] Arguments str_of_int : simpl never.
#[local] Arguments int_of_str : simpl never.
#[local] Arguments split_nul : simpl never.
#[local] Arguments data_len : simpl never.
#[local] Arguments _send_data_loop : simpl never.
#[local] Arguments firstn : simpl never.
#[local] Arguments skipn : simpl never.

(** Unfolds the monad and the straight-line methods of the handler, leaving
    loops, byte tests and list functions as they are. *)
Ltac munfold :=
  cbv beta iota zeta delta
    [bind self update call call_if ret raise out_of_fuel try_except
     outcome final trace fst snd
     file_read file_write file_seek0 close_file_handle close_file byte_of_len
     _send_packet _update_progress _log _cancel_timer _start_timer _finish
     _reset _send_si _send_header _send_data_block _send_eof _send_eot
     _send_rr _send_rf _send_af _send_at _send_nr _send_cancel _send_ca
     state_in existsb orb andb negb YappState_eqb
     send_raw on_progress on_event on_finished on_rx_data state _rx_buf
     _file_handle _filename _file_size _bytes_transferred _download_dir
     _timer _si_retries
     with_state with_rx_buf with_file_handle with_filename with_file_size
     with_bytes_transferred with_download_dir with_timer with_si_retries].

(** ** Data packets in R_DATA *)

Lemma data_step os h second payload rest answers :
  state h = R_DATA ->
  _rx_buf h = STX :: second :: payload ++ rest ->
  length payload = data_len second ->
  _file_handle h = Some (Writer answers) ->
  hd None answers = None ->
  decode_step os h
  = (Ok true,
     with_bytes_transferred (_bytes_transferred h + Z.of_nat (data_len second))
       (with_file_handle (Some (Writer (tl answers))) (with_rx_buf rest h)),
     EWrite payload ::
       if on_progress h
       then [EProgress (_bytes_transferred h + Z.of_nat (data_len second)) (_file_size h)]
       else []).
Proof.
  intros Hst Hbuf Hlen Hfh Hans.
  destruct_handler h. cbn in Hst, Hbuf, Hfh. subst.
  unfold decode_step, _process_buffer_body, _process_receiver_data.
  cbn. fold (data_len second).
  rewrite (ltb_complete _ _ _ _ _ Hlen), (slice_prefix _ _ _ _ _ Hlen),
    (slice_from_prefix _ _ _ _ _ Hlen).
  destruct answers as [|[e|] answers']; cbn in Hans; try discriminate;
    destruct op; reflexivity.
Qed.

(** ** Need more data *)

Lemma need_more_step os h first second partial :
  _rx_buf h = first :: second :: partial ->
  length_prefixed (state h) first = true ->
  length partial < declared_len first second ->
  decode_step os h
  = (Ok false,
     if Byte.eqb first CAN then h
     else if state_in (state h) [S_INIT; S_HEADER; S_EOF; S_EOT; R_WAIT; R_HEADER]
          then with_timer false h else h,
     []).
Proof.
  intros Hbuf Hlp Hlen.
  destruct_handler h. cbn in Hbuf, Hlp. subst buf.
  unfold decode_step, _process_buffer_body. cbn.
  unfold declared_len in Hlen.
  destruct (Byte.eqb first CAN) eqn:Ecan.
  - apply Byte.byte_dec_bl in Ecan. subst first. cbn in Hlen.
    cbn. rewrite (ltb_partial _ _ _ _ Hlen). reflexivity.
  - unfold length_prefixed in Hlp. rewrite Ecan in Hlp.
    destruct st; cbn in Hlp |- *; try discriminate;
      unfold _process_sender_response, _process_receiver_control,
        _process_receiver_data, _process_sender_data_interrupt;
      rewrite ?andb_false_r, ?orb_false_r in Hlp;
      apply Byte.byte_dec_bl in Hlp; subst first; cbn in Hlen |- *;
      destruct tm; cbn; try fold (data_len second);
      rewrite (ltb_partial _ _ _ _ Hlen); reflexivity.
Qed.

(** ** Need more data: nothing is consumed *)





(** ** Data packets whose length byte is 0 *)

(** C5.  In R_DATA, with the file open and its next write succeeding, a Data
    packet whose length byte is 0 is decoded with 256 payload bytes: as long
    as fewer than 2 + 256 bytes are buffered the step waits and changes
    nothing; with the 258 bytes there it consumes exactly them, writes the 256
    payload bytes to the file and adds 256 to [_bytes_transferred]. *)
Theorem data_length_byte_zero_is_256 :
  forall (os : OS) (h : YappHandler) (answers : list (option Exn)),
    state h = R_DATA ->
    _file_handle h = Some (Writer answers) ->
    hd None answers = None ->
    (forall partial : bytes,
        _rx_buf h = STX :: x00 :: partial ->
        length partial < 256 ->
        decode_step os h = (Ok false, h, []))
    /\ (forall payload rest : bytes,
          _rx_buf h = STX :: x00 :: payload ++ rest ->
          length payload = 256 ->
          decode_step os h
          = (Ok true,
             with_bytes_transferred (_bytes_transferred h + 256)
               (with_file_handle (Some (Writer (tl answers)))
                  (with_rx_buf rest h)),
             EWrite payload ::
               if on_progress h
               then [EProgress (_bytes_transferred h + 256) (_file_size h)]
               else [])).
Proof.
  intros os h answers Hst Hfh Hans. split.
  - intros partial Hbuf Hlen.
    rewrite (@need_more_step os h STX x00 partial Hbuf).
    + rewrite Hst. reflexivity.
    + rewrite Hst. reflexivity.
    + exact Hlen.
  - intros payload rest Hbuf Hlen.
    exact (@data_step os h x00 payload rest answers Hst Hbuf Hlen Hfh Hans).
Qed.

(** A closed instance: 256 bytes [A] followed by an Eof packet. *)
Lemma data_length_byte_zero_is_256_witness :
  decode_step example_os
    (receiving (STX :: x00 :: repeat x41 256 ++ EF_packet))
  = (Ok true,
     with_bytes_transferred 256
       (with_rx_buf EF_packet
          (receiving (STX :: x00 :: repeat x41 256 ++ EF_packet))),
     [EWrite (repeat x41 256); EProgress 256 0]).
Proof.
  apply (proj2 (data_length_byte_zero_is_256 example_os
                  (receiving (STX :: x00 :: repeat x41 256 ++ EF_packet)) []
                  eq_refl eq_refl eq_refl)
           (repeat x41 256) EF_packet eq_refl).
  vm_compute. reflexivity.
Defined.

(** ** Starting while a transfer is active *)

Lemma start_send_rejected os h filepath :
  state h <> IDLE ->
  start_send os filepath h
  = (Ok (false, lit "Transfer already in progress"), h, []).
Proof.
  intros Hst. unfold start_send, bind, self.
  destruct (state h); try congruence; reflexivity.
Qed.

Lemma start_receive_rejected os h download_dir :
  state h <> IDLE ->
  start_receive os download_dir h
  = (Ok (false, lit "Transfer already in progress"), h, []).
Proof.
  intros Hst. unfold start_receive, bind, self.
  destruct (state h); try congruence; reflexivity.
Qed.

(** C6.  In every state other than IDLE, [start_send] and [start_receive]
    return [(False, "Transfer already in progress")], call nothing and leave
    the handler, every field of it, as it was. *)
Theorem start_rejected_when_active :
  forall (os : OS) (h : YappHandler) (filepath download_dir : str),
    state h <> IDLE ->
    start_send os filepath h
      = (Ok (false, lit "Transfer already in progress"), h, [])
    /\ start_receive os download_dir h
      = (Ok (false, lit "Transfer already in progress"), h, []).
Proof.
  intros os h filepath download_dir Hst. split.
  - apply start_send_rejected. exact Hst.
  - apply start_receive_rejected. exact Hst.
Qed.

(** A closed instance: a second [start_send] and a [start_receive] on the
    handler that is sending [a.txt]. *)
Lemma start_rejected_when_active_witness :
  start_send example_os (lit "b.txt") sender_started
    = (Ok (false, lit "Transfer already in progress"), sender_started, [])
  /\ start_receive example_os (lit "dl") sender_started
    = (Ok (false, lit "Transfer already in progress"), sender_started, []).
Proof.
  apply (start_rejected_when_active example_os sender_started
           (lit "b.txt") (lit "dl")).
  vm_compute. discriminate.
Defined.

(** ** Cancelling *)

(** C9.  Calling [cancel] twice in a row is the same run as calling it once:
    same outcome, same resulting handler, same packets and callbacks; and
    [cancel] in IDLE, DONE or ERROR changes nothing and calls nothing. *)
Theorem cancel_idempotent :
  forall h : YappHandler,
    (cancel ;; cancel) h = cancel h
    /\ cancel (with_state IDLE h) = (Ok tt, with_state IDLE h, [])
    /\ cancel (with_state DONE h) = (Ok tt, with_state DONE h, [])
    /\ cancel (with_state ERROR h) = (Ok tt, with_state ERROR h, []).
Proof.
  intros h. split; [|repeat split].
  destruct_handler h.
  destruct st, sr, oe, ofn, tm, fh; reflexivity.
Qed.

(** ** Passthrough in IDLE *)

(** C10.  In IDLE, [process_data] hands the bytes, unchanged, to
    [on_rx_data] when that callback is installed, and does nothing else: the
    handler (buffer and state included) is unchanged and nothing is sent. *)
Theorem process_data_idle_passthrough :
  forall (os : OS) (h : YappHandler) (data : bytes),
    state h = IDLE ->
    process_data os data h
      = (Ok tt, h, if on_rx_data h then [ERxData data] else []).
Proof.
  intros os h data Hst.
  unfold process_data, bind, self. rewrite Hst. cbn.
  destruct (on_rx_data h); reflexivity.
Qed.

(** A closed instance: one byte fed to a fresh handler. *)
Lemma process_data_idle_passthrough_witness :
  process_data example_os [x61] example_handler
  = (Ok tt, example_handler, [ERxData [x61]]).
Proof.
  apply (process_data_idle_passthrough example_os example_handler [x61]).
  reflexivity.
Defined.

(** ** The data send loop *)

Lemma firstn_skipn_nil {A} n p (c : list A) :
  0 < n -> firstn n (skipn p c) = [] -> length c - p = 0.
Proof.
  intros Hn H.
  assert (H0 : length (firstn n (skipn p c)) = 0) by (rewrite H; reflexivity).
  rewrite length_firstn, length_skipn in H0. lia.
Qed.

Lemma send_data_loop_fuel_reader fuel :
  forall c p h,
    _file_handle h = Some (Reader c p) ->
    state h = S_DATA ->
    length c - p < fuel ->
    exists t,
      _send_data_loop_fuel fuel h
      = (Ok tt,
         with_timer true
           (with_state S_EOF
              (with_file_handle None
                 (with_bytes_transferred
                    (_bytes_transferred h + Z.of_nat (length c - p)) h))),
         t).
Proof.
  induction fuel as [|fuel IH]; intros c p h Hfh Hst Hfuel; [lia|].
  destruct_handler h. cbn in Hfh, Hst. subst fh st.
  cbn [_send_data_loop_fuel]. unfold MAX_DATA_LEN.
  destruct (firstn 250 (skipn p c)) as [|d ds] eqn:Edata.
  - assert (Hz : length c - p = 0) by (eapply firstn_skipn_nil; [|eassumption]; lia).
    rewrite Hz. munfold. unfold MAX_DATA_LEN. rewrite Edata. munfold. rewrite Z.add_0_r.
    destruct tm; eexists; reflexivity.
  - assert (Hlen : length (d :: ds) <= 250 /\ length (d :: ds) <= length c - p
                   /\ 0 < length (d :: ds)).
    { assert (Hl : length (d :: ds) = Nat.min 250 (length c - p))
        by (rewrite <- Edata, length_firstn, length_skipn; reflexivity).
      change (length (d :: ds)) with (S (length ds)) in *.
      revert Hl. generalize (length c - p). lia. }
    destruct Hlen as (H250 & Hrem & Hpos).
    assert (Hltb : (length (d :: ds) <? 256) = true) by (apply Nat.ltb_lt; lia).
    destruct (Byte.of_nat (length (d :: ds))) as [lb|] eqn:Eb;
      [|apply Byte.of_nat_None_iff in Eb; lia].
    munfold. unfold MAX_DATA_LEN. rewrite Edata. munfold. rewrite Hltb, Eb. munfold.
    match goal with
    | |- context [_send_data_loop_fuel fuel ?h'] =>
        destruct (IH c (p + length (d :: ds)) h' eq_refl eq_refl) as [t Ht];
        [lia|]
    end.
    rewrite Ht. munfold.
    replace (bt + Z.of_nat (length (d :: ds))
             + Z.of_nat (length c - (p + length (d :: ds))))%Z
      with (bt + Z.of_nat (length c - p))%Z by lia.
    eexists; reflexivity.
Qed.

(** What the loop does, by the kind of file object held when it starts. *)
Lemma send_data_loop_cases h :
  state h = S_DATA ->
  match _file_handle h with
  | Some (Reader c p) =>
      exists t,
        _send_data_loop h
        = (Ok tt,
           with_timer true
             (with_state S_EOF
                (with_file_handle None
                   (with_bytes_transferred
                      (_bytes_transferred h + Z.of_nat (length c - p)) h))),
           t)
  | Some (Writer _) =>
      _send_data_loop h = (Raise (UnsupportedOperation (lit "read")), h, [])
  | None =>
      exists t,
        _send_data_loop h = (Ok tt, with_timer true (with_state S_EOF h), t)
  end.
Proof.
  intros Hst. unfold _send_data_loop, bind at 1. cbn [self].
  destruct (_file_handle h) as [[c p|a]|] eqn:Hfh.
  - destruct (@send_data_loop_fuel_reader (S (unread h)) c p h Hfh Hst) as [t Ht].
    { unfold unread. rewrite Hfh. lia. }
    rewrite Ht. eexists; reflexivity.
  - destruct_handler h. cbn in Hst, Hfh. subst. reflexivity.
  - destruct_handler h. cbn in Hst, Hfh. subst.
    destruct tm; eexists; reflexivity.
Qed.

(** ** Termination of the loops *)

Lemma steady_ret {A} (a : A) : steady (ret a).
Proof. intros h. split; [discriminate|reflexivity]. Qed.

Lemma steady_self : steady self.
Proof. intros h. split; [discriminate|reflexivity]. Qed.

Lemma steady_call e : steady (call e).
Proof. intros h. split; [discriminate|reflexivity]. Qed.

Lemma steady_call_if b e : steady (call_if b e).
Proof. intros h. split; [discriminate|reflexivity]. Qed.

Lemma steady_raise {A} e : steady (@raise A e).
Proof. intros h. split; [discriminate|reflexivity]. Qed.

Lemma steady_update f :
  (forall h, _rx_buf (f h) = _rx_buf h) -> steady (update f).
Proof. intros Hf h. split; [discriminate|apply Hf]. Qed.

Lemma steady_bind {A B} (m : M A) (k : A -> M B) :
  steady m -> (forall a, steady (k a)) -> steady (bind m k).
Proof.
  intros Hm Hk h. specialize (Hm h). unfold bind, outcome, final in *.
  destruct (m h) as [[[a|e|] h1] t1]; cbn [fst snd] in *.
  - specialize (Hk a h1). unfold outcome, final in Hk.
    destruct (k a h1) as [[o2 h2] t2]. cbn [fst snd] in *.
    destruct Hk as [Ho Hb]. split; [exact Ho|]. rewrite Hb. apply Hm.
  - split; [discriminate|apply Hm].
  - exfalso. apply (proj1 Hm). reflexivity.
Qed.

Lemma steady_try_except {A} (m : M A) handler :
  steady m -> (forall e, steady (handler e)) -> steady (try_except m handler).
Proof.
  intros Hm Hk h. specialize (Hm h). unfold try_except, outcome, final in *.
  destruct (m h) as [[[a|e|] h1] t1]; cbn [fst snd] in *; try exact Hm.
  specialize (Hk e h1). unfold outcome, final in Hk.
  destruct (handler e h1) as [[o2 h2] t2]. cbn [fst snd] in *.
  destruct Hk as [Ho Hb]. split; [exact Ho|]. rewrite Hb. apply Hm.
Qed.

Create HintDb steady.

Ltac steady_tac :=
  cbv beta zeta;
  repeat first
    [ apply steady_ret | apply steady_self | apply steady_call
    | apply steady_call_if | apply steady_raise
    | solve [auto with steady]
    | apply steady_update; intros []; reflexivity
    | apply steady_bind; [|intros ?]
    | apply steady_try_except; [|intros ?]
    | match goal with
      | |- steady (match ?x with _ => _ end) => destruct x
      end ].

Lemma steady_send_packet d : steady (_send_packet d).
Proof. unfold _send_packet. steady_tac. Qed.
Lemma steady_update_progress : steady _update_progress.
Proof. unfold _update_progress. steady_tac. Qed.
Lemma steady_log ev m : steady (_log ev m).
Proof. unfold _log. steady_tac. Qed.
Lemma steady_cancel_timer : steady _cancel_timer.
Proof. unfold _cancel_timer. steady_tac. Qed.
#[local] Hint Resolve steady_send_packet steady_update_progress steady_log
  steady_cancel_timer : steady.

Lemma steady_start_timer : steady _start_timer.
Proof. unfold _start_timer. steady_tac. Qed.
Lemma steady_close_file_handle : steady close_file_handle.
Proof. unfold close_file_handle. steady_tac. Qed.
Lemma steady_close_file : steady close_file.
Proof.
  intros h. destruct_handler h.
  destruct fh as [[c p|[|[e|] a]]|]; split;
    first [discriminate | reflexivity].
Qed.
Lemma steady_byte_of_len n : steady (byte_of_len n).
Proof. unfold byte_of_len. steady_tac. Qed.
Lemma steady_file_read n : steady (file_read n).
Proof. unfold file_read. steady_tac. Qed.
Lemma steady_file_write d : steady (file_write d).
Proof. unfold file_write. steady_tac. Qed.
Lemma steady_file_seek0 : steady file_seek0.
Proof. unfold file_seek0. steady_tac. Qed.
#[local] Hint Resolve steady_start_timer steady_close_file_handle
  steady_close_file steady_byte_of_len steady_file_read steady_file_write
  steady_file_seek0 : steady.

Lemma steady_finish s m : steady (_finish s m).
Proof. unfold _finish. steady_tac. Qed.
Lemma steady_send_si : steady _send_si.
Proof. unfold _send_si. steady_tac. Qed.
Lemma steady_send_header : steady _send_header.
Proof. unfold _send_header. steady_tac. Qed.
Lemma steady_send_eof : steady _send_eof.
Proof. unfold _send_eof. steady_tac. Qed.
Lemma steady_send_eot : steady _send_eot.
Proof. unfold _send_eot. steady_tac. Qed.
Lemma steady_send_rr : steady _send_rr.
Proof. unfold _send_rr. steady_tac. Qed.
Lemma steady_send_rf : steady _send_rf.
Proof. unfold _send_rf. steady_tac. Qed.
Lemma steady_send_af : steady _send_af.
Proof. unfold _send_af. steady_tac. Qed.
Lemma steady_send_at : steady _send_at.
Proof. unfold _send_at. steady_tac. Qed.
Lemma steady_send_ca : steady _send_ca.
Proof. unfold _send_ca. steady_tac. Qed.
Lemma steady_send_nr r : steady (_send_nr r).
Proof. unfold _send_nr. steady_tac. Qed.
Lemma steady_send_cancel r : steady (_send_cancel r).
Proof. unfold _send_cancel. steady_tac. Qed.
#[local] Hint Resolve steady_finish steady_send_si steady_send_header
  steady_send_eof steady_send_eot steady_send_rr steady_send_rf steady_send_af
  steady_send_at steady_send_ca steady_send_nr steady_send_cancel : steady.

Lemma steady_send_data_loop : steady _send_data_loop.
Proof.
  intros h.
  destruct (YappState_eqb (state h) S_DATA) eqn:Est.
  - assert (Hst : state h = S_DATA) by (destruct (state h); try discriminate; reflexivity).
    pose proof (send_data_loop_cases h Hst) as H.
    destruct (_file_handle h) as [[c p|a]|].
    + destruct H as [t ->]. split; [discriminate|]. destruct h; reflexivity.
    + rewrite H. split; [discriminate|reflexivity].
    + destruct H as [t ->]. split; [discriminate|]. destruct h; reflexivity.
  - unfold _send_data_loop. cbn [_send_data_loop_fuel].
    unfold bind, self. cbv beta iota. rewrite Est.
    split; [discriminate|reflexivity].
Qed.
#[local] Hint Resolve steady_send_data_loop : steady.

Lemma steady_parse_header os p : steady (_parse_header os p).
Proof. unfold _parse_header. steady_tac. Qed.
#[local] Hint Resolve steady_parse_header : steady.

Lemma steady_total {A} (m : M A) : steady m -> total m.
Proof. intros H h. apply H. Qed.

Lemma total_ret {A} (a : A) : total (ret a).
Proof. intros h. discriminate. Qed.

Lemma total_raise {A} e : total (@raise A e).
Proof. intros h. discriminate. Qed.

Lemma total_update f : total (update f).
Proof. intros h. discriminate. Qed.

Lemma total_bind {A B} (m : M A) (k : A -> M B) :
  total m -> (forall a, total (k a)) -> total (bind m k).
Proof.
  intros Hm Hk h. specialize (Hm h). unfold bind, outcome in *.
  destruct (m h) as [[[a|e|] h1] t1]; cbn [fst snd] in *.
  - specialize (Hk a h1). unfold outcome in Hk.
    destruct (k a h1) as [[o2 h2] t2]. exact Hk.
  - discriminate.
  - exfalso. apply Hm. reflexivity.
Qed.

Lemma total_try_except {A} (m : M A) handler :
  total m -> (forall e, total (handler e)) -> total (try_except m handler).
Proof.
  intros Hm Hk h. specialize (Hm h). unfold try_except, outcome in *.
  destruct (m h) as [[[a|e|] h1] t1]; cbn [fst snd] in *; try exact Hm.
  specialize (Hk e h1). unfold outcome in Hk.
  destruct (handler e h1) as [[o2 h2] t2]. exact Hk.
Qed.

Ltac total_tac :=
  cbv beta zeta;
  repeat first
    [ apply total_ret | apply total_raise | apply total_update
    | solve [apply steady_total; auto with steady]
    | apply steady_total; apply steady_self
    | apply total_bind; [|intros ?]
    | apply total_try_except; [|intros ?]
    | match goal with
      | |- total (match ?x with _ => _ end) => destruct x
      end ].

Lemma total_reset : total _reset.
Proof. unfold _reset. total_tac. Qed.

Lemma total_start_send os p : total (start_send os p).
Proof. unfold start_send. total_tac. Qed.

Lemma total_start_receive os d : total (start_receive os d).
Proof. unfold start_receive. total_tac. Qed.

Lemma total_cancel : total cancel.
Proof. unfold cancel. total_tac. Qed.

Lemma total_on_timeout : total _on_timeout.
Proof. unfold _on_timeout. total_tac. Qed.

(** *** Every step that lets the loop go on shortens the buffer *)

Lemma shrinks_ret_false h : shrinks h (ret false).
Proof. intros _. split; discriminate. Qed.

Lemma shrinks_steady_bind {A} h (m : M A) (k : A -> M bool) :
  steady m ->
  (forall a h', _rx_buf h' = _rx_buf h -> shrinks h' (k a)) ->
  shrinks h (bind m k).
Proof.
  intros Hm Hk Hlen. specialize (Hm h). unfold bind, outcome, final in *.
  destruct (m h) as [[[a|e|] h1] t1]; cbn [fst snd] in *.
  - destruct Hm as [_ Hb]. specialize (Hk a h1 Hb).
    unfold shrinks, outcome, final in Hk. rewrite Hb in Hk. specialize (Hk Hlen).
    destruct (k a h1) as [[o2 h2] t2]. exact Hk.
  - split; discriminate.
  - exfalso. apply (proj1 Hm). reflexivity.
Qed.

Lemma shrinks_self_bind h (k : YappHandler -> M bool) :
  shrinks h (k h) -> shrinks h (bind self k).
Proof.
  intros Hk Hlen. specialize (Hk Hlen). unfold bind, self, outcome, final in *.
  destruct (k h) as [[o2 h2] t2]. exact Hk.
Qed.

Lemma shrinks_consume h g (k : unit -> M bool) :
  (2 <= length (_rx_buf h) -> length (_rx_buf (g h)) < length (_rx_buf h)) ->
  steady (k tt) ->
  shrinks h (bind (update g) k).
Proof.
  intros Hg Hk Hlen. specialize (Hk (g h)). specialize (Hg Hlen).
  unfold bind, update, outcome, final in *.
  destruct (k tt (g h)) as [[o2 h2] t2]. cbn [fst snd] in *.
  destruct Hk as [Ho Hb]. split; [exact Ho|]. intros _. rewrite Hb. exact Hg.
Qed.

Lemma length_slice_from_lt {A} n (l : list A) :
  2 <= length l -> length (slice_from (2 + n) l) < length l.
Proof. unfold slice_from. rewrite length_skipn. lia. Qed.

Lemma length_slice_from_1 {A} (l : list A) :
  2 <= length l -> length (slice_from 1 l) < length l.
Proof. unfold slice_from. rewrite length_skipn. lia. Qed.

Ltac shrinks_tac :=
  cbv beta zeta;
  repeat first
    [ apply shrinks_ret_false
    | apply shrinks_self_bind; cbv beta zeta
    | apply shrinks_consume;
      [ cbv beta; cbn [_rx_buf with_rx_buf];
        first [ apply (length_slice_from_lt 0)
              | apply length_slice_from_lt
              | apply length_slice_from_1
              | intros; change (@length byte []) with 0; lia ]
      | steady_tac ]
    | apply shrinks_steady_bind; [solve [auto with steady]|intros ? ? ?]
    | match goal with
      | |- shrinks _ (match ?x with _ => _ end) => destruct x
      end ].

Lemma shrinks_process_sender_response h first second :
  shrinks h (_process_sender_response first second).
Proof. unfold _process_sender_response. shrinks_tac. Qed.

Lemma shrinks_process_receiver_control os h first second :
  shrinks h (_process_receiver_control os first second).
Proof. unfold _process_receiver_control. shrinks_tac. Qed.

Lemma shrinks_process_receiver_data h first second :
  shrinks h (_process_receiver_data first second).
Proof. unfold _process_receiver_data. shrinks_tac. Qed.

Lemma shrinks_process_sender_data_interrupt h first second :
  shrinks h (_process_sender_data_interrupt first second).
Proof. unfold _process_sender_data_interrupt. shrinks_tac. Qed.

Lemma shrinks_process_buffer_body os h first second :
  shrinks h (_process_buffer_body os first second).
Proof.
  unfold _process_buffer_body. shrinks_tac;
    auto using shrinks_process_sender_response,
      shrinks_process_receiver_control, shrinks_process_receiver_data,
      shrinks_process_sender_data_interrupt.
Qed.

(** The loop of [_process_buffer] ends when it is given as many turns as
    there are bytes in the buffer. *)
Lemma process_buffer_fuel_total os fuel :
  forall h,
    length (_rx_buf h) <= fuel ->
    outcome (_process_buffer_fuel os fuel h) <> OutOfFuel.
Proof.
  induction fuel as [|fuel IH]; intros h Hlen.
  - destruct h as [? ? ? ? ? ? [|a [|b l]] ? ? ? ? ? ? ?]; cbn in Hlen;
      try discriminate; change (length (a :: b :: l)) with (S (S (length l))) in Hlen;
      try change (length [a]) with 1 in Hlen; lia.
  - cbn [_process_buffer_fuel]. unfold bind at 1. cbn [self].
    destruct (_rx_buf h) as [|first [|second l]] eqn:Hbuf; try discriminate.
    pose proof (@shrinks_process_buffer_body os h first second) as Hs.
    unfold shrinks in Hs. rewrite Hbuf in Hs.
    change (length (first :: second :: l)) with (S (S (length l))) in Hs, Hlen.
    specialize (Hs ltac:(lia)). destruct Hs as [Hno Hshort].
    unfold bind, outcome, final in *.
    destruct (_process_buffer_body os first second h) as [[[[|]|e|] h1] t1];
      cbn [fst snd] in *; try discriminate.
    + specialize (Hshort eq_refl). specialize (IH h1 ltac:(lia)).
      destruct (_process_buffer_fuel os fuel h1) as [[o2 h2] t2]. exact IH.
    + exfalso. apply Hno. reflexivity.
Qed.

Lemma total_process_buffer os : total (_process_buffer os).
Proof.
  intros h. unfold _process_buffer, bind at 1. cbn [self].
  pose proof (@process_buffer_fuel_total os (S (length (_rx_buf h))) h) as H.
  specialize (H ltac:(lia)). unfold outcome in *.
  destruct (_process_buffer_fuel os (S (length (_rx_buf h))) h) as [[o2 h2] t2].
  exact H.
Qed.

Lemma total_process_data os data : total (process_data os data).
Proof.
  unfold process_data.
  apply total_bind; [apply steady_total, steady_self|intros h].
  destruct (YappState_eqb (state h) IDLE).
  - apply steady_total, steady_call_if.
  - apply total_bind; [apply total_update|intros _; apply total_process_buffer].
Qed.

(** Every call returns or raises: the bounds given to the loops of the model
    are never reached. *)
Lemma run_call_total os c : total (run_call os c).
Proof.
  destruct c; cbn [run_call].
  - apply total_bind; [apply total_start_send|intros; apply total_ret].
  - apply total_bind; [apply total_start_receive|intros; apply total_ret].
  - apply total_process_data.
  - apply total_cancel.
  - apply total_on_timeout.
Qed.

(** ** Timeouts and the SendInit retries *)

Lemma SI_count_app t1 t2 : SI_count (t1 ++ t2) = SI_count t1 + SI_count t2.
Proof.
  unfold SI_count, sent_packets.
  rewrite flat_map_app, filter_app, length_app. reflexivity.
Qed.

Lemma start_send_started os filepath h0 msg h1 t1 :
  start_send os filepath h0 = (Ok (true, msg), h1, t1) ->
  state h1 = S_INIT /\ _si_retries h1 = 0%Z /\ _timer h1 = true.
Proof.
  destruct_handler h0. unfold start_send. munfold.
  destruct st; cbv beta iota; try discriminate.
  destruct (os_path_exists os filepath); cbv beta iota; try discriminate.
  destruct (os_path_getsize os filepath) as [e|n]; munfold;
    [destruct tm, fh; discriminate|].
  destruct (open_rb os filepath) as [e|c]; munfold;
    [destruct tm, fh; discriminate|].
  destruct tm; intros H; inversion H; subst; repeat split.
Qed.

Lemma timeout_retry h :
  state h = S_INIT ->
  (_si_retries h < 5)%Z ->
  exists t,
    _on_timeout h
    = (Ok tt, with_timer true (with_si_retries (_si_retries h + 1) h), t)
    /\ SI_count t = if send_raw h then 1 else 0.
Proof.
  intros Hst Hr. destruct_handler h. cbn in Hst, Hr. subst st.
  apply Z.ltb_lt in Hr.
  unfold _on_timeout, MAX_SI_RETRIES. munfold. rewrite Hr. munfold.
  destruct tm, sr, oe; eexists; split; reflexivity.
Qed.

Lemma timeout_fatal h :
  state h = S_INIT ->
  (5 <= _si_retries h)%Z ->
  exists h' t,
    _on_timeout h = (Ok tt, h', t)
    /\ state h' = ERROR /\ _timer h' = false /\ SI_count t = 0.
Proof.
  intros Hst Hr. destruct_handler h. cbn in Hst, Hr. subst st.
  apply Z.ltb_ge in Hr.
  unfold _on_timeout, MAX_SI_RETRIES. munfold. rewrite Hr. munfold.
  destruct tm, sr, oe, ofn, fh; do 2 eexists; repeat split.
Qed.

Lemma timeout_elsewhere h :
  state h <> S_INIT ->
  outcome (_on_timeout h) = Ok tt
  /\ state (final (_on_timeout h)) <> S_INIT
  /\ _si_retries (final (_on_timeout h)) = _si_retries h
  /\ SI_count (trace (_on_timeout h)) = 0.
Proof.
  intros Hst. destruct_handler h. cbn in Hst.
  unfold _on_timeout. munfold.
  destruct st; try congruence; cbv beta iota;
    destruct tm, fh; repeat split; try discriminate;
    destruct sr, oe, ofn; reflexivity.
Qed.

Lemma timeouts_S h n :
  timeouts (S n) h
  = (let '(o, h1, t1) := _on_timeout h in
     match o with
     | Ok _ => let '(o2, h2, t2) := timeouts n h1 in (o2, h2, t1 ++ t2)
     | Raise e => (Raise e, h1, t1)
     | OutOfFuel => (OutOfFuel, h1, t1)
     end).
Proof.
  cbn [timeouts]. unfold bind.
  destruct (_on_timeout h) as [[[[]|e|] h1] t1]; reflexivity.
Qed.

Lemma timeouts_elsewhere n :
  forall h,
    state h <> S_INIT ->
    SI_count (trace (timeouts n h)) = 0.
Proof.
  induction n as [|n IH]; intros h Hst; [reflexivity|].
  rewrite timeouts_S.
  destruct (timeout_elsewhere h Hst) as (Ho & Hst' & _ & Hc).
  unfold outcome, final, trace in *.
  destruct (_on_timeout h) as [[o h1] t1]. cbn [fst snd] in *. subst o.
  specialize (IH h1 Hst'). destruct (timeouts n h1) as [[o2 h2] t2].
  cbn [fst snd] in *. rewrite SI_count_app, Hc, IH. reflexivity.
Qed.

Lemma timeouts_retrying k :
  forall h,
    state h = S_INIT ->
    (_si_retries h + Z.of_nat k <= 5)%Z ->
    outcome (timeouts k h) = Ok tt
    /\ final (timeouts k h)
       = (if k =? 0 then h
          else with_timer true (with_si_retries (_si_retries h + Z.of_nat k) h))
    /\ SI_count (trace (timeouts k h)) = if send_raw h then k else 0.
Proof.
  induction k as [|k IH]; intros h Hst Hr.
  - repeat split. destruct (send_raw h); reflexivity.
  - rewrite timeouts_S.
    destruct (@timeout_retry h Hst ltac:(lia)) as (t & Ht & Hc). rewrite Ht.
    specialize (IH (with_timer true (with_si_retries (_si_retries h + 1) h))).
    destruct_handler h. cbn in Hst, Hr, Hc, IH |- *. subst st.
    specialize (IH eq_refl ltac:(lia)).
    unfold outcome, final, trace in *.
    destruct (timeouts k _) as [[o2 h2] t2]. cbn [fst snd] in *.
    destruct IH as (-> & -> & Hc2). repeat split.
    + destruct k; cbn [Nat.eqb]; munfold; f_equal; lia.
    + rewrite SI_count_app, Hc, Hc2. destruct sr; reflexivity.
Qed.

Lemma timeouts_bounded n :
  forall h,
    state h = S_INIT ->
    (0 <= _si_retries h <= 5)%Z ->
    (Z.of_nat (SI_count (trace (timeouts n h))) <= 5 - _si_retries h)%Z.
Proof.
  induction n as [|n IH]; intros h Hst Hr.
  - change (SI_count (trace (timeouts 0 h))) with 0. lia.
  - rewrite timeouts_S.
    destruct (Z.eq_dec (_si_retries h) 5) as [E5|N5].
    + destruct (@timeout_fatal h Hst ltac:(lia)) as (h' & t & Ht & Hs' & _ & Hc).
      rewrite Ht.
      pose proof (@timeouts_elsewhere n h' ltac:(congruence)) as He.
      unfold trace in *. destruct (timeouts n h') as [[o2 h2] t2].
      cbn [fst snd] in *. rewrite SI_count_app, Hc, He. lia.
    + destruct (@timeout_retry h Hst ltac:(lia)) as (t & Ht & Hc). rewrite Ht.
      specialize (IH (with_timer true (with_si_retries (_si_retries h + 1) h))).
      destruct_handler h. cbn in Hst, Hr, Hc, IH, N5 |- *.
      specialize (IH Hst ltac:(lia)).
      unfold trace in *. destruct (timeouts n _) as [[o2 h2] t2].
      cbn [fst snd] in *. rewrite SI_count_app, Hc. destruct sr; lia.
Qed.

(** C4.  After a successful [start_send], with no byte ever received: each
    of the first five timeouts (MAX_SI_RETRIES = 5) leaves the machine in
    S_INIT with the timer armed again, having resent SendInit once (when
    [send_raw] is installed) and counted the retry; the sixth timeout ends in
    ERROR, the Failed state, with the timer off and no further SendInit.
    However many timeouts follow, SendInit is resent at most five times, and
    a timeout in a state other than S_INIT resends nothing and counts no
    retry. *)
Theorem SI_retries_are_bounded :
  forall (os : OS) (filepath : str) (h0 h1 : YappHandler) (msg : str)
         (t1 : list Effect),
    start_send os filepath h0 = (Ok (true, msg), h1, t1) ->
    (forall k, k <= 5 ->
       outcome (timeouts k h1) = Ok tt
       /\ state (final (timeouts k h1)) = S_INIT
       /\ _si_retries (final (timeouts k h1)) = Z.of_nat k
       /\ _timer (final (timeouts k h1)) = true
       /\ SI_count (trace (timeouts k h1)) = if send_raw h1 then k else 0)
    /\ (outcome (timeouts 6 h1) = Ok tt
        /\ state (final (timeouts 6 h1)) = ERROR
        /\ _timer (final (timeouts 6 h1)) = false
        /\ SI_count (trace (timeouts 6 h1)) = if send_raw h1 then 5 else 0)
    /\ (forall n, SI_count (trace (timeouts n h1)) <= 5)
    /\ (forall h, state h <> S_INIT ->
          SI_count (trace (_on_timeout h)) = 0
          /\ _si_retries (final (_on_timeout h)) = _si_retries h).
Proof.
  intros os filepath h0 h1 msg t1 Hstart.
  destruct (start_send_started _ _ _ _ _ _ Hstart) as (Hst & Hr & Htm).
  split; [|split; [|split]].
  - intros k Hk.
    destruct (@timeouts_retrying k h1 Hst ltac:(lia)) as (Ho & Hf & Hc).
    rewrite Ho, Hf, Hc. repeat split.
    + destruct k; cbn [Nat.eqb]; [exact Hst|]. destruct h1; exact Hst.
    + destruct k; cbn [Nat.eqb]; [rewrite Hr; reflexivity|].
      destruct h1; cbn in *; lia.
    + destruct k; cbn [Nat.eqb]; [exact Htm|]. destruct h1; reflexivity.
  - destruct (@timeouts_retrying 5 h1 Hst ltac:(lia)) as (Ho & Hf & Hc).
    change 6 with (5 + 1). 
    assert (Hsplit : forall a b h, timeouts (a + b) h
              = (timeouts a ;; timeouts b) h).
    { induction a as [|a IHa]; intros b h.
      - change (0 + b) with b. cbn [timeouts]. unfold bind, ret.
        destruct (timeouts b h) as [[o2 h2] t2]. reflexivity.
      - change (S a + b) with (S (a + b)). cbn [timeouts]. unfold bind in *.
        destruct (_on_timeout h) as [[[[]|e|] h2] t2]; try reflexivity.
        rewrite IHa. destruct (timeouts a h2) as [[[[]|e|] h3] t3]; try reflexivity.
        destruct (timeouts b h3) as [[o4 h4] t4]. rewrite app_assoc. reflexivity. }
    rewrite Hsplit. unfold bind. unfold outcome, final, trace in Ho, Hf, Hc.
    destruct (timeouts 5 h1) as [[o5 h5] t5]. cbn [fst snd] in *. subst o5 h5.
    cbn [Nat.eqb]. rewrite timeouts_S.
    match goal with
    | |- context [_on_timeout ?h] =>
        destruct (@timeout_fatal h) as (h' & t & Ht & Hs' & Htm' & Hc')
    end.
    { destruct h1; exact Hst. }
    { destruct h1; cbn in *; lia. }
    rewrite Ht. cbn [timeouts ret]. unfold outcome, final, trace. cbn [fst snd].
    repeat split; try assumption.
    rewrite !SI_count_app, Hc, Hc'. change (SI_count []) with 0.
    destruct (send_raw h1); reflexivity.
  - intros n. pose proof (@timeouts_bounded n h1 Hst ltac:(lia)). lia.
  - intros h Hne. destruct (timeout_elsewhere h Hne) as (_ & _ & Hr' & Hc').
    split; assumption.
Qed.

(** A closed instance: six timeouts after the start of the sending of
    [a.txt]. *)
Lemma SI_retries_are_bounded_witness :
  outcome (timeouts 6 sender_started) = Ok tt
  /\ state (final (timeouts 6 sender_started)) = ERROR
  /\ _timer (final (timeouts 6 sender_started)) = false
  /\ SI_count (trace (timeouts 6 sender_started))
     = if send_raw sender_started then 5 else 0.
Proof.
  refine (proj1 (proj2 (SI_retries_are_bounded example_os (lit "a.txt")
                          example_handler sender_started (lit "Sending a.txt")
                          (trace (start_send example_os (lit "a.txt")
                                    example_handler))
                          _))).
  vm_compute. reflexivity.
Defined.

(** ** The length byte *)

Lemma to_nat_len_byte n : n <= 255 -> Byte.to_nat (len_byte n) = n.
Proof.
  intros Hn. unfold len_byte.
  assert (Hlt : (n <? 256) = true) by (apply Nat.ltb_lt; lia). rewrite Hlt.
  destruct (Byte.of_nat n) as [b|] eqn:Eb.
  - apply Byte.to_of_nat. exact Eb.
  - apply Byte.of_nat_None_iff in Eb. lia.
Qed.

Lemma data_len_len_byte n : 1 <= n <= 255 -> data_len (len_byte n) = n.
Proof.
  intros Hn. unfold data_len.
  pose proof (to_nat_len_byte n ltac:(lia)) as Hb.
  destruct (Byte.eqb (len_byte n) x00) eqn:E.
  - apply Byte.byte_dec_bl in E. rewrite E in Hb.
    change (Byte.to_nat x00) with 0 in Hb. lia.
  - exact Hb.
Qed.

Lemma byte_of_len_len_byte n : n <= 255 -> Byte.of_nat n = Some (len_byte n).
Proof.
  intros Hn. apply Byte.to_of_nat_iff. apply to_nat_len_byte. exact Hn.
Qed.

(** ** Text packets *)

Lemma text_step os h text rest :
  state h = S_DATA ->
  length text <= 255 ->
  _rx_buf h = wire TX text ++ rest ->
  decode_step os h
  = (Ok true, with_rx_buf rest h,
     if on_event h
     then [ELog RECEIVED (lit "TX: " ++ decode_ascii text)] else []).
Proof.
  intros Hst Hlen Hbuf.
  destruct_handler h. cbn in Hst, Hbuf. subst.
  unfold decode_step, _process_buffer_body, _process_sender_data_interrupt.
  munfold. cbn. rewrite (to_nat_len_byte _ Hlen).
  rewrite (ltb_complete _ _ _ _ _ eq_refl), (slice_prefix _ _ _ _ _ eq_refl),
    (slice_from_prefix _ _ _ _ _ eq_refl).
  destruct oe; reflexivity.
Qed.

Lemma unexpected_DLE_step os h second tail :
  _rx_buf h = DLE :: second :: tail ->
  state_in (state h) [S_INIT; S_HEADER; S_EOF; S_EOT; R_WAIT; R_HEADER; R_DATA]
  = true ->
  decode_step os h
  = (Ok true,
     with_rx_buf (second :: tail)
       (if YappState_eqb (state h) R_DATA then h else with_timer false h),
     []).
Proof.
  intros Hbuf Hst.
  destruct_handler h. cbn in Hst, Hbuf. subst.
  unfold decode_step, _process_buffer_body, _process_sender_response,
    _process_receiver_control, _process_receiver_data.
  destruct st; try discriminate; destruct tm; reflexivity.
Qed.

(** ** The builders put the wire format on the line *)

Lemma send_nr_wire reason h :
  length (encode_ascii reason) <= 255 ->
  _send_nr reason h
  = (Ok tt, h,
     (if send_raw h then [ESend (wire NR (encode_ascii reason))] else [])
     ++ (if on_event h
         then [ELog SENT (lit "NR (Not Ready) " ++ reason)] else [])).
Proof.
  intros Hlen. unfold _send_nr. munfold.
  rewrite (byte_of_len_len_byte _ Hlen). reflexivity.
Qed.

Lemma send_cancel_wire reason h :
  length (encode_ascii reason) <= 255 ->
  _send_cancel reason h
  = (Ok tt, h,
     (if send_raw h then [ESend (wire CN (encode_ascii reason))] else [])
     ++ (if on_event h
         then [ELog SENT (lit "CN (Cancel) " ++ reason)] else [])).
Proof.
  intros Hlen. unfold _send_cancel. munfold.
  rewrite (byte_of_len_len_byte _ Hlen). reflexivity.
Qed.

Lemma send_header_wire h :
  length (header_payload (_filename h) (_file_size h)) <= 255 ->
  sent_packets (trace (_send_header h))
  = (if send_raw h
     then [wire HD (header_payload (_filename h) (_file_size h))] else [])
  /\ outcome (_send_header h) = Ok tt
  /\ state (final (_send_header h)) = S_HEADER.
Proof.
  intros Hlen. destruct_handler h. cbn in Hlen. unfold _send_header. munfold.
  rewrite (byte_of_len_len_byte _ Hlen).
  destruct tm, sr, oe; repeat split.
Qed.

Lemma send_data_block_wire h c p :
  _file_handle h = Some (Reader c p) ->
  p < length c ->
  sent_packets (trace (_send_data_block h))
  = (if send_raw h then [wire DT (firstn MAX_DATA_LEN (skipn p c))] else [])
  /\ outcome (_send_data_block h) = Ok true
  /\ _bytes_transferred (final (_send_data_block h))
     = (_bytes_transferred h
        + Z.of_nat (length (firstn MAX_DATA_LEN (skipn p c))))%Z.
Proof.
  intros Hfh Hp. destruct_handler h. cbn in Hfh. subst fh.
  unfold _send_data_block, wire, MAX_DATA_LEN. munfold. unfold MAX_DATA_LEN.
  assert (Hl : length (firstn 250 (skipn p c)) = Nat.min 250 (length c - p))
    by (rewrite length_firstn, length_skipn; reflexivity).
  destruct (firstn 250 (skipn p c)) as [|d ds] eqn:Edata.
  - change (length (@nil byte)) with 0 in Hl. lia.
  - assert (H255 : length (d :: ds) <= 255) by lia.
    assert (Hltb : (length (d :: ds) <? 256) = true) by (apply Nat.ltb_lt; lia).
    munfold. rewrite Hltb, (byte_of_len_len_byte _ H255). munfold.
    destruct sr, op; repeat split.
Qed.

(** C2 at the failing input.  The packet table of the module frames Text
    as DLE, length, text, and [_process_sender_data_interrupt] decodes it
    so; the handlers of the other states have no branch for it.  A sender
    that waits in S_INIT (a handler just started by [start_send]) and
    receives the Text packet whose text is the two bytes 06 05 raises no
    Text event and goes to ERROR, calling
    [on_finished(False, "Transfer cancelled")]: the DLE and the length byte
    are dropped as unexpected bytes and the text is read as a CancelAck.  In
    each of the seven non-terminal states other than S_DATA the Text packet
    "hi" raises no event at all. *)
Theorem text_packet_aborts_waiting_sender :
  state sender_started = S_INIT
  /\ _rx_buf sender_started = []
  /\ state (final (process_data example_os (wire TX [ACK; x05]) sender_started))
     = ERROR
  /\ finished_calls
       (trace (process_data example_os (wire TX [ACK; x05]) sender_started))
     = [(false, lit "Transfer cancelled")]
  /\ ~ In (ELog RECEIVED (lit "TX: " ++ decode_ascii [ACK; x05]))
          (trace (process_data example_os (wire TX [ACK; x05]) sender_started))
  /\ Forall
       (fun s =>
          state_in s [IDLE; DONE; ERROR; CW_WAIT; S_DATA] = false
          /\ trace (process_data example_os (wire TX [x68; x69])
                      (with_state s example_handler)) = [])
       [S_INIT; S_HEADER; S_EOF; S_EOT; R_WAIT; R_HEADER; R_DATA].
Proof.
  repeat split; try (vm_compute; reflexivity).
  - vm_compute. intros H.
    repeat (destruct H as [H|H]; [discriminate H|]). exact H.
  - repeat constructor; vm_compute; reflexivity.
Qed.

(** ** Finishing *)

(** What [_finish] does, whatever the state it is called in: the timer is
    off, the file is closed when one was open, the state is DONE or ERROR,
    and the event and [on_finished] callbacks are called once each. *)
Lemma finish_run success message h :
  _finish success message h
  = (Ok tt,
     with_state (if success then DONE else ERROR)
       (with_file_handle None (with_timer false h)),
     (match _file_handle h with Some _ => [EClose] | None => [] end)
     ++ (if on_event h
         then [ELog (if success then SUCCESS else EV_ERROR) message] else [])
     ++ (if on_finished h then [EFinished success message] else [])).
Proof.
  destruct_handler h. destruct tm, fh, success, oe, ofn; reflexivity.
Qed.

(** C7 at the failing input.  A handler started by [start_send] that receives
    CancelAck followed by a Cancel packet in one delivery (06 05 18 00) calls
    [on_finished] twice in that one call of [process_data]; and a handler
    cancelled by the user calls it a second time when a Cancel packet arrives
    afterwards.  The test for CAN in [_process_buffer] comes before the
    dispatch on the state, whose last branch discards the input in DONE and
    ERROR. *)
Theorem finished_fires_twice :
  finished_calls
    (trace (process_data example_os (CA_packet ++ [CAN; x00]) sender_started))
  = [(false, lit "Transfer cancelled");
     (false, lit "Cancelled by remote: ")]
  /\ finished_calls
       (snd (run_calls example_os
               [CallStartSend (lit "a.txt"); CallCancel;
                CallProcessData [CAN; x00]]
               example_handler))
     = [(false, lit "Transfer cancelled by user");
        (false, lit "Cancelled by remote: ")].
Proof. split; vm_compute; reflexivity. Qed.

(** ** The transfer counter and the file size *)

(** C1, as stated, fails on the receiver: after [start_receive], SendInit, a
    Header announcing the file "a" of size 1, and a Data packet of two bytes,
    the handler is in R_DATA with [_file_size = 1] and
    [_bytes_transferred = 2]. *)
Lemma receiver_counter_exceeds_file_size :
  state (fst (run_calls example_os
                [CallStartReceive (lit "dl");
                 CallProcessData (wire SI []);
                 CallProcessData (wire HD [x61; x00; x31; x00]);
                 CallProcessData (wire DT [x61; x62])]
                example_handler)) = R_DATA
  /\ (0 < _file_size
            (fst (run_calls example_os
                    [CallStartReceive (lit "dl");
                     CallProcessData (wire SI []);
                     CallProcessData (wire HD [x61; x00; x31; x00]);
                     CallProcessData (wire DT [x61; x62])]
                    example_handler)))%Z
  /\ ~ (_bytes_transferred
          (fst (run_calls example_os
                  [CallStartReceive (lit "dl");
                   CallProcessData (wire SI []);
                   CallProcessData (wire HD [x61; x00; x31; x00]);
                   CallProcessData (wire DT [x61; x62])]
                  example_handler))
        <= _file_size
             (fst (run_calls example_os
                     [CallStartReceive (lit "dl");
                      CallProcessData (wire SI []);
                      CallProcessData (wire HD [x61; x00; x31; x00]);
                      CallProcessData (wire DT [x61; x62])]
                     example_handler)))%Z.
Proof.
  repeat split; try (vm_compute; reflexivity).
  vm_compute. intros H. apply H. reflexivity.
Qed.

Lemma byte_eqb_neq (a b : byte) : a <> b -> Byte.eqb a b = false.
Proof.
  intros Hne. destruct (Byte.eqb a b) eqn:E; [|reflexivity].
  apply Byte.byte_dec_bl in E. contradiction.
Qed.

(** ** Strings and numbers: what the Header carries *)

Lemma decode_encode_ascii (s : str) :
  Forall (fun c => (c < 128)%N) s -> decode_ascii (encode_ascii s) = s.
Proof.
  unfold decode_ascii, encode_ascii. induction 1 as [|c s Hc _ IH]; [reflexivity|].
  cbn [map]. rewrite IH. f_equal.
  apply N.ltb_lt in Hc. rewrite Hc.
  destruct (Byte.of_N c) as [b|] eqn:E.
  - apply Byte.to_of_N in E. rewrite E, Hc. reflexivity.
  - apply Byte.of_N_None_iff in E. apply N.ltb_lt in Hc. lia.
Qed.

Lemma encode_ascii_no_nul (s : str) :
  Forall (fun c => (0 < c < 128)%N) s ->
  Forall (fun b => b <> x00) (encode_ascii s).
Proof.
  unfold encode_ascii. induction 1 as [|c s Hc _ IH]; constructor; [|exact IH].
  destruct Hc as [H0 H128]. apply N.ltb_lt in H128. rewrite H128.
  destruct (Byte.of_N c) as [b|] eqn:E; [|discriminate].
  intros ->. apply Byte.to_of_N in E. cbn in E. lia.
Qed.

Lemma split_nul_cons (c : byte) (r : bytes) :
  split_nul (c :: r)
  = if Byte.eqb c x00 then [] :: split_nul r
    else match split_nul r with
         | p :: ps => (c :: p) :: ps
         | [] => [[c]]
         end.
Proof. reflexivity. Qed.

Lemma split_nul_nonempty (b : bytes) : split_nul b <> [].
Proof.
  induction b as [|c r IH]; [discriminate|]. rewrite split_nul_cons.
  destruct (Byte.eqb c x00); [discriminate|].
  destruct (split_nul r); [contradiction|discriminate].
Qed.

Lemma split_nul_field (a r : bytes) :
  Forall (fun b => b <> x00) a ->
  split_nul (a ++ x00 :: r) = a :: split_nul r.
Proof.
  induction 1 as [|c a Hc _ IH]; [reflexivity|].
  cbn [app]. rewrite split_nul_cons, (byte_eqb_neq _ _ Hc), IH. reflexivity.
Qed.

Lemma is_digit_digit_char d : d < 10 -> is_digit (digit_char d) = true.
Proof.
  intros Hd. unfold is_digit, digit_char.
  apply andb_true_intro. split; apply N.leb_le; lia.
Qed.

Lemma digit_val_digit_char d : digit_val (digit_char d) = Z.of_nat d.
Proof. unfold digit_val, digit_char. lia. Qed.

(** The decimal digits written by [str] are read back by [int]. *)
Lemma scan_digits_fuel fuel :
  forall n s a,
    n < fuel ->
    exists k : Z,
      (0 <= k)%Z
      /\ scan_digits a false (digits_fuel fuel n s)
         = scan_digits (a * 10 ^ k + Z.of_nat n) false s.
Proof.
  induction fuel as [|fuel IH]; intros n s a Hn; [lia|].
  cbn [digits_fuel]. destruct (n <? 10) eqn:E.
  - apply Nat.ltb_lt in E. exists 1%Z. split; [lia|].
    cbn [scan_digits]. rewrite (is_digit_digit_char _ E), digit_val_digit_char.
    replace (a * 10 ^ 1)%Z with (a * 10)%Z by lia. reflexivity.
  - apply Nat.ltb_ge in E.
    assert (Hdiv : n / 10 < fuel).
    { pose proof (Nat.div_lt n 10 ltac:(lia) ltac:(lia)). lia. }
    destruct (IH (n / 10) (digit_char (n mod 10) :: s) a Hdiv) as (k & Hk & Hs).
    exists (k + 1)%Z. split; [lia|]. rewrite Hs. cbn [scan_digits].
    pose proof (Nat.mod_upper_bound n 10 ltac:(lia)) as Hm.
    rewrite (is_digit_digit_char _ Hm), digit_val_digit_char.
    pose proof (Nat.div_mod_eq n 10) as Hdm.
    replace ((a * 10 ^ k + Z.of_nat (n / 10)) * 10 + Z.of_nat (n mod 10))%Z
      with (a * 10 ^ (k + 1) + Z.of_nat n)%Z; [reflexivity|].
    rewrite Z.pow_add_r by lia.
    replace (Z.of_nat n) with (Z.of_nat (10 * (n / 10) + n mod 10))
      by (f_equal; lia).
    lia.
Qed.

Lemma digits_fuel_head fuel :
  forall n s,
    (fuel = 0 -> exists d s', s = d :: s' /\ is_digit d = true) ->
    exists d s', digits_fuel fuel n s = d :: s' /\ is_digit d = true.
Proof.
  induction fuel as [|fuel IH]; intros n s Hs; [apply Hs; reflexivity|].
  cbn [digits_fuel]. destruct (n <? 10) eqn:E.
  - apply Nat.ltb_lt in E. do 2 eexists. split; [reflexivity|].
    apply is_digit_digit_char. exact E.
  - apply IH. intros _. do 2 eexists. split; [reflexivity|].
    apply is_digit_digit_char. apply Nat.mod_upper_bound. lia.
Qed.

Lemma is_digit_not_space c : is_digit c = true -> is_space c = false.
Proof.
  unfold is_digit, is_space. intros H. apply andb_prop in H. destruct H as [H1 H2].
  apply N.leb_le in H1, H2.
  apply orb_false_intro.
  - apply andb_false_intro2. apply N.leb_gt. lia.
  - apply N.eqb_neq. lia.
Qed.

Lemma digit_cases d :
  is_digit d = true ->
  (d = 48 \/ d = 49 \/ d = 50 \/ d = 51 \/ d = 52 \/ d = 53 \/ d = 54
   \/ d = 55 \/ d = 56 \/ d = 57)%N.
Proof.
  unfold is_digit. intros H. apply andb_prop in H. destruct H as [H1 H2].
  apply N.leb_le in H1, H2. lia.
Qed.

Lemma int_of_str_digits d s' :
  is_digit d = true ->
  int_of_str (d :: s')
  = match scan_digits 0 false (d :: s') with
    | Some (n, rest) => if forallb is_space rest then Some n else None
    | None => None
    end
  /\ int_of_str (45%N :: d :: s')
     = match scan_digits 0 false (d :: s') with
       | Some (n, rest) => if forallb is_space rest then Some (- n)%Z else None
       | None => None
       end.
Proof.
  intros H. apply digit_cases in H.
  repeat (destruct H as [H|H]; [subst d; split; reflexivity|]).
  subst d; split; reflexivity.
Qed.

Lemma int_of_str_of_nat n : int_of_str (str_of_nat n) = Some (Z.of_nat n).
Proof.
  unfold str_of_nat.
  destruct (digits_fuel_head (S n) n [] ltac:(discriminate)) as (d & s' & Hd & Hdig).
  destruct (scan_digits_fuel (S n) n [] 0 ltac:(lia)) as (k & _ & Hscan).
  rewrite Hd in *. rewrite (proj1 (int_of_str_digits d s' Hdig)), Hscan.
  cbn; f_equal; lia.
Qed.

Lemma int_of_str_of_int z : int_of_str (str_of_int z) = Some z.
Proof.
  unfold str_of_int. destruct (z <? 0)%Z eqn:E.
  - apply Z.ltb_lt in E. unfold str_of_nat.
    destruct (digits_fuel_head (S (Z.to_nat (- z))) (Z.to_nat (- z)) []
                ltac:(discriminate)) as (d & s' & Hd & Hdig).
    destruct (scan_digits_fuel (S (Z.to_nat (- z))) (Z.to_nat (- z)) [] 0
                ltac:(lia)) as (k & _ & Hscan).
    rewrite Hd in *. rewrite (proj2 (int_of_str_digits d s' Hdig)), Hscan.
    cbn; f_equal; lia.
  - apply Z.ltb_ge in E. rewrite int_of_str_of_nat. f_equal. lia.
Qed.

Lemma digits_fuel_chars fuel :
  forall n s,
    Forall (fun c => (0 < c < 128)%N) s ->
    Forall (fun c => (0 < c < 128)%N) (digits_fuel fuel n s).
Proof.
  induction fuel as [|fuel IH]; intros n s Hs; [exact Hs|].
  cbn [digits_fuel]. destruct (n <? 10) eqn:E.
  - apply Nat.ltb_lt in E. constructor; [unfold digit_char; lia|exact Hs].
  - apply IH. constructor; [|exact Hs].
    pose proof (Nat.mod_upper_bound n 10 ltac:(lia)). unfold digit_char. lia.
Qed.

Lemma str_of_int_chars z : Forall (fun c => (0 < c < 128)%N) (str_of_int z).
Proof.
  unfold str_of_int, str_of_nat. destruct (z <? 0)%Z.
  - constructor; [lia|]. apply digits_fuel_chars. constructor.
  - apply digits_fuel_chars. constructor.
Qed.

Lemma Forall_lt_128 (s : str) :
  Forall (fun c => (0 < c < 128)%N) s -> Forall (fun c => (c < 128)%N) s.
Proof. apply Forall_impl. intros c [_ H]. exact H. Qed.

(** The fields of the payload built by [_send_header]. *)
Lemma split_nul_header_payload name size :
  Forall (fun c => (0 < c < 128)%N) name ->
  split_nul (header_payload name size)
  = [encode_ascii name; encode_ascii (str_of_int size); []].
Proof.
  intros Hname. unfold header_payload. cbn [app].
  rewrite split_nul_field by (apply encode_ascii_no_nul; exact Hname).
  rewrite split_nul_field
    by (apply encode_ascii_no_nul; apply str_of_int_chars).
  reflexivity.
Qed.

Lemma encode_decode_ascii (p : bytes) :
  seven_bit p -> encode_ascii (decode_ascii p) = p.
Proof.
  unfold seven_bit, decode_ascii, encode_ascii.
  induction 1 as [|c p Hc _ IH]; [reflexivity|].
  cbn [map]. rewrite IH. f_equal.
  apply N.ltb_lt in Hc. rewrite Hc. cbv beta iota.
  rewrite Hc, Byte.of_to_N. reflexivity.
Qed.

(** ** The round trip of the packets *)

#[local] Arguments _parse_header : simpl never.

Ltac literal_len :=
  match goal with
  | |- context [Byte.of_nat (length (encode_ascii (lit ?s)))] =>
      let v := eval vm_compute in (Byte.of_nat (length (encode_ascii (lit s)))) in
      change (Byte.of_nat (length (encode_ascii (lit s)))) with v
  end.

Ltac data_loop_step :=
  match goal with
  | |- context [_send_data_loop ?h'] =>
      let f := eval cbv beta iota delta [_file_handle] in (_file_handle h') in
      tryif is_var f then destruct f as [[? ?|?]|] else idtac
  end;
  match goal with
  | |- context [_send_data_loop ?h'] =>
      let Hl := fresh "Hl" in
      let t := fresh "t" in
      pose proof (send_data_loop_cases h' eq_refl) as Hl;
      cbv beta iota delta [_file_handle] in Hl;
      match type of Hl with
      | ex _ => destruct Hl as [t Hl]
      | _ => idtac
      end;
      rewrite Hl; clear Hl
  end.

Ltac slice_step :=
  match goal with
  | |- context [slice_from 2 (?a :: ?b :: ?r)] =>
      change (slice_from 2 (a :: b :: r)) with r
  | |- context [slice_from 1 (?a :: ?r)] =>
      change (slice_from 1 (a :: r)) with r
  end.

Ltac stuck_step :=
  first
    [ literal_len
    | slice_step
    | data_loop_step
    | match goal with
      | |- context [match Byte.of_nat ?n with _ => _ end] =>
          destruct (Byte.of_nat n) eqn:?
      | |- context [match split_nul ?p with _ => _ end] =>
          destruct (split_nul p) as [|? [|? ?]] eqn:?
      | |- context [match int_of_str ?s with _ => _ end] =>
          destruct (int_of_str s) eqn:?
      | |- context [match open_wb ?o ?p with _ => _ end] =>
          destruct (open_wb o p) eqn:?
      | |- context [match decode_ascii ?p with _ => _ end] =>
          destruct (decode_ascii p) eqn:?
      | |- context [match ?x with Some _ => _ | None => _ end] =>
          is_var x; destruct x as [[? ?|?]|]
      | |- context [match ?x with Some _ => _ | None => _ end] =>
          is_var x; destruct x
      | |- context [match ?x with [] => _ | _ :: _ => _ end] =>
          is_var x; destruct x
      end ].

Ltac run := repeat (munfold; cbn; try stuck_step).

Ltac in_trace := cbn [In app]; repeat first [left; reflexivity | right].

Ltac unfold_step :=
  unfold decode_step, _process_buffer_body, _process_sender_response,
    _process_receiver_control, _process_receiver_data,
    _process_sender_data_interrupt.

(** The size that [_parse_header] takes from the second field: the decimal
    number it holds, or 0 when [int] rejects it. *)
Lemma header_step os h payload rest p0 p1 ps :
  state_in (state h) [R_WAIT; R_HEADER] = true ->
  length payload <= 255 ->
  _rx_buf h = wire HD payload ++ rest ->
  split_nul payload = p0 :: p1 :: ps ->
  decode_step os h
  = (let h1 :=
       with_file_size (match int_of_str (decode_ascii p1) with
                       | Some n => n
                       | None => 0%Z
                       end)
         (with_filename (decode_ascii p0)
            (with_timer false (with_rx_buf rest h))) in
     let received :=
       logged h RECEIVED (lit "HD (Header) file=" ++ _filename h1
                          ++ lit " size=" ++ str_of_int (_file_size h1)) in
     match _filename h1 with
     | [] =>
         (Ok true, finished false h1,
          received
          ++ sent h (wire NR (encode_ascii (lit "Invalid filename")))
               (lit "NR (Not Ready) Invalid filename")
          ++ finish_calls false (lit "Invalid filename in header") h)
     | _ :: _ =>
         match open_wb os (os_path_join os (_download_dir h) (_filename h1)) with
         | inr answers =>
             (Ok true,
              with_state R_DATA
                (with_bytes_transferred 0
                   (with_file_handle (Some (Writer answers)) h1)),
              received
              ++ sent h RF_packet (lit "RF (Receive File)")
              ++ logged h INFO (lit "Receiving " ++ _filename h1 ++ lit "..."))
         | inl e =>
             match Byte.of_nat
                     (length (encode_ascii (lit "Cannot create file: "
                                            ++ exn_str e))) with
             | Some _ =>
                 (Ok true, finished false h1,
                  received
                  ++ sent h (wire NR (encode_ascii (lit "Cannot create file: "
                                                    ++ exn_str e)))
                       (lit "NR (Not Ready) Cannot create file: " ++ exn_str e)
                  ++ finish_calls false
                       (lit "Cannot create file: " ++ exn_str e) h)
             | None =>
                 (Raise (ValueError (lit "bytes must be in range(0, 256)")),
                  h1, received)
             end
         end
     end).
Proof.
  intros Hst Hlen Hbuf Hsplit.
  destruct_handler h. cbn in Hst, Hbuf |- *. subst buf.
  destruct st; try discriminate Hst; destruct tm;
    unfold_step; munfold; cbn;
    rewrite (to_nat_len_byte _ Hlen);
    rewrite (ltb_complete _ _ _ _ _ eq_refl), (slice_prefix _ _ _ _ _ eq_refl),
      (slice_from_prefix _ _ _ _ _ eq_refl);
    unfold _parse_header; rewrite Hsplit; munfold;
    destruct (int_of_str (decode_ascii p1)); munfold;
    (destruct (decode_ascii p0) eqn:Ename;
     [ literal_len; munfold; destruct fh, sr, oe, ofn; reflexivity
     | munfold;
       destruct (open_wb os _) as [e|answers];
       [ munfold;
         destruct (Byte.of_nat _) eqn:Eb;
         [ munfold; unfold wire, len_byte;
           pose proof Eb as Hb; apply Byte.to_of_nat in Hb;
           pose proof (Byte.to_nat_bounded b) as Hbd;
           rewrite <- Hb;
           replace (Byte.to_nat b <? 256) with true
             by (symmetry; apply Nat.ltb_lt; lia);
           rewrite Byte.of_to_nat;
           destruct fh, sr, oe, ofn; reflexivity
         | destruct oe; reflexivity ]
       | munfold; destruct sr, oe; reflexivity ] ]).
Qed.

Lemma round_trip_no_payload os k :
  match k with
  | SI | RR | RF | AF | AT | CA | RT | EF | ET => round_trip os k []
  | _ => True
  end.
Proof.
  destruct k; try exact I; intros h rest Hdec Hoe _ Hbuf;
    destruct_handler h; cbn in Hdec, Hoe, Hbuf; subst;
    destruct st; try discriminate;
    destruct tm;
    unfold recognised, received_message; unfold_step; run;
    (split; [in_trace|reflexivity]).
Qed.

Lemma round_trip_CN os payload :
  length payload <= 255 -> seven_bit payload -> round_trip os CN payload.
Proof.
  intros Hlen H7 h rest _ Hoe _ Hbuf.
  destruct_handler h. cbn in Hoe, Hbuf. subst.
  unfold recognised; unfold_step. munfold. cbn.
  rewrite (to_nat_len_byte _ Hlen).
  rewrite (ltb_complete _ _ _ _ _ eq_refl), (slice_prefix _ _ _ _ _ eq_refl),
    (slice_from_prefix _ _ _ _ _ eq_refl).
  destruct tm; run;
    (split;
     [exists (decode_ascii payload);
      split; [in_trace|apply encode_decode_ascii; exact H7]
     |reflexivity]).
Qed.

Lemma round_trip_NR os payload :
  length payload <= 255 ->
  seven_bit payload ->
  starts_with_R payload = false ->
  round_trip os NR payload.
Proof.
  intros Hlen H7 HR h rest Hdec Hoe _ Hbuf.
  destruct_handler h. cbn in Hdec, Hoe, Hbuf. subst.
  unfold recognised.
  destruct st; try discriminate; destruct tm; unfold_step; munfold; cbn;
    rewrite (to_nat_len_byte _ Hlen);
    rewrite (ltb_complete _ _ _ _ _ eq_refl), (slice_prefix _ _ _ _ _ eq_refl),
      (slice_from_prefix _ _ _ _ _ eq_refl);
    pose proof (encode_decode_ascii payload H7) as Hed;
    (destruct payload as [|c payload']; [|cbn in HR; rewrite HR]);
    run;
    (split;
     [eexists; split; [in_trace|exact Hed]
     |reflexivity]).
Qed.

Lemma round_trip_RE os payload :
  length payload <= 255 ->
  starts_with_R payload = true ->
  round_trip os RE payload.
Proof.
  intros Hlen HR h rest Hdec Hoe _ Hbuf.
  destruct_handler h. cbn in Hdec, Hoe, Hbuf. subst.
  unfold recognised, received_message.
  destruct st; try discriminate; destruct tm; unfold_step; munfold; cbn;
    rewrite (to_nat_len_byte _ Hlen);
    rewrite (ltb_complete _ _ _ _ _ eq_refl), (slice_prefix _ _ _ _ _ eq_refl),
      (slice_from_prefix _ _ _ _ _ eq_refl);
    (destruct payload as [|c payload']; [discriminate|]); cbn in HR;
    rewrite HR; run; (split; [in_trace|reflexivity]).
Qed.

Lemma round_trip_HD os name size :
  Forall (fun c => (0 < c < 128)%N) name ->
  length (header_payload name size) <= 255 ->
  round_trip os HD (header_payload name size).
Proof.
  intros Hname Hlen h rest Hdec Hoe _ Hbuf.
  pose proof (split_nul_header_payload name size Hname) as Hsplit.
  pose proof (decode_encode_ascii name (Forall_lt_128 name Hname)) as Hdn.
  pose proof (decode_encode_ascii (str_of_int size)
                (Forall_lt_128 _ (str_of_int_chars size))) as Hds.
  rewrite (header_step os h _ rest _ _ _ Hdec Hlen Hbuf Hsplit).
  rewrite Hdn, Hds, int_of_str_of_int.
  unfold recognised, logged.
  destruct_handler h. cbn in Hoe. subst oe.
  cbn [on_event _filename _file_size _download_dir with_file_size
       with_filename with_timer with_rx_buf].
  destruct name as [|c name']; cbv beta iota zeta.
  - munfold. split; [split; [left; reflexivity|reflexivity]|reflexivity].
  - destruct (open_wb os _) as [e|answers].
    + destruct (Byte.of_nat _);
        munfold; (split; [split; [left; reflexivity|reflexivity]|reflexivity]).
    + munfold. split; [split; [left; reflexivity|reflexivity]|reflexivity].
Qed.

Lemma round_trip_DT os payload :
  length payload <= 255 -> payload <> [] -> round_trip os DT payload.
Proof.
  intros Hlen Hne h rest Hdec Hoe Hw Hbuf.
  destruct (Hw eq_refl) as (answers & Hfh & Hans).
  assert (Hst : state h = R_DATA)
    by (cbn in Hdec; destruct (state h); try discriminate; reflexivity).
  assert (Hl : length payload = data_len (len_byte (length payload))).
  { symmetry. apply data_len_len_byte. destruct payload; [congruence|].
    change (length (b :: payload)) with (S (length payload)) in *. lia. }
  rewrite (data_step os h _ payload rest answers Hst Hbuf Hl Hfh Hans).
  split; [left; reflexivity|destruct h; reflexivity].
Qed.

Lemma round_trip_TX os payload :
  length payload <= 255 -> seven_bit payload -> round_trip os TX payload.
Proof.
  intros Hlen H7 h rest Hdec Hoe _ Hbuf.
  assert (Hst : state h = S_DATA)
    by (cbn in Hdec; destruct (state h); try discriminate; reflexivity).
  rewrite (text_step os h payload rest Hst Hlen Hbuf), Hoe.
  split; [|destruct h; reflexivity].
  exists (decode_ascii payload).
  split; [left; reflexivity|apply encode_decode_ascii; exact H7].
Qed.

(** C3, as amended.  For every packet kind and every payload of at most 255
    bytes that is shaped for the kind (none for the kinds that carry none;
    for Header the payload that the encoder builds from an ASCII name
    without NUL and a size; a Data payload not empty; Cancel, NotReady and
    Text payloads of 7-bit ASCII, the one of NotReady not starting with [R];
    a Resume payload starting with [R]): in every state that decodes the
    kind, a decode step on a buffer that starts with the wire bytes of the
    packet recognises the same kind, consumes exactly the bytes of the
    packet and recovers the payload: the Data payload is what is written to
    the file, the text reported for Cancel, NotReady and Text encodes to the
    payload, and the name and size held after a Header encode to the
    payload.  For Resume the kind alone is recognised. *)
Theorem codec_round_trip :
  forall (os : OS) (k : Kind) (payload : bytes),
    length payload <= 255 ->
    shaped k payload ->
    round_trip os k payload.
Proof.
  intros os k payload Hlen Hshape.
  destruct k; cbn in Hshape; subst;
    try exact (round_trip_no_payload os SI);
    try exact (round_trip_no_payload os RR);
    try exact (round_trip_no_payload os RF);
    try exact (round_trip_no_payload os AF);
    try exact (round_trip_no_payload os AT);
    try exact (round_trip_no_payload os CA);
    try exact (round_trip_no_payload os RT);
    try exact (round_trip_no_payload os EF);
    try exact (round_trip_no_payload os ET).
  - destruct Hshape as (name & size & Hname & ->).
    apply round_trip_HD; assumption.
  - apply round_trip_DT; assumption.
  - destruct Hshape as [H7 HR]. apply round_trip_NR; assumption.
  - apply round_trip_RE; assumption.
  - apply round_trip_CN; assumption.
  - apply round_trip_TX; assumption.
Qed.

(** A closed instance: the Cancel packet with the reason "hi", followed by
    one byte, received while sending. *)
Lemma codec_round_trip_witness :
  recognised CN [x68; x69]
    (trace (decode_step example_os
              (with_rx_buf (wire CN [x68; x69] ++ [x01]) sender_started)))
    (final (decode_step example_os
              (with_rx_buf (wire CN [x68; x69] ++ [x01]) sender_started)))
  /\ _rx_buf (final (decode_step example_os
                       (with_rx_buf (wire CN [x68; x69] ++ [x01])
                          sender_started)))
     = [x01].
Proof.
  apply (codec_round_trip example_os CN [x68; x69]).
  - vm_compute. lia.
  - repeat constructor.
  - reflexivity.
  - reflexivity.
  - discriminate.
  - reflexivity.
Defined.

(** C3, as stated, fails.  The NotReady packet whose reason is "R" is
    decoded as a Resume request; the Data packet with an empty payload
    (length byte 0) is taken for the start of a packet of 256 bytes; the
    Cancel packet whose reason is the byte 80 is reported with the
    replacement character, which does not encode to that byte; a Header
    payload without NUL sets neither name nor size; and the payload of a
    Resume request is discarded: two requests that differ in their payload
    are the same run. *)
Lemma round_trip_counterexample :
  ~ round_trip example_os NR [x52]
  /\ ~ round_trip example_os DT []
  /\ ~ round_trip example_os CN [x80]
  /\ ~ round_trip example_os HD [x61]
  /\ decode_step example_os
       (with_rx_buf (wire RE [x52; x61]) (with_state S_HEADER sender_started))
     = decode_step example_os
         (with_rx_buf (wire RE [x52; x62]) (with_state S_HEADER sender_started)).
Proof.
  split; [|split; [|split; [|split]]].
  - intros H.
    specialize (H (with_rx_buf (wire NR [x52]) sender_started) []
                  eq_refl eq_refl ltac:(discriminate) eq_refl).
    destruct H as [(text & H & _) _]. vm_compute in H.
    repeat (destruct H as [H|H]; [discriminate H|]). exact H.
  - intros H.
    specialize (H (with_rx_buf (wire DT [])
                     (with_file_handle (Some (Writer []))
                        (with_state R_DATA example_handler))) []
                  eq_refl eq_refl
                  ltac:(intros _; exists []; split; reflexivity) eq_refl).
    destruct H as [H _]. vm_compute in H. exact H.
  - intros H.
    specialize (H (with_rx_buf (wire CN [x80]) sender_started) []
                  eq_refl eq_refl ltac:(discriminate) eq_refl).
    destruct H as [(text & H & He) _]. vm_compute in H.
    repeat (destruct H as [H|H];
            [first [discriminate H
                   |inversion H; subst text; vm_compute in He; discriminate He]
            |]).
    exact H.
  - intros H.
    specialize (H (with_rx_buf (wire HD [x61])
                     (with_state R_WAIT example_handler)) []
                  eq_refl eq_refl ltac:(discriminate) eq_refl).
    destruct H as [[_ H] _]. vm_compute in H. discriminate H.
  - vm_compute. reflexivity.
Qed.

(** ** The invariant of a sending session *)

Section Keeps.

Variable P : YappHandler -> Prop.

Lemma keeps_ret {A} (a : A) : keeps P (ret a).
Proof. intros h Hh. exact Hh. Qed.

Lemma keeps_self : keeps P self.
Proof. intros h Hh. exact Hh. Qed.

Lemma keeps_call e : keeps P (call e).
Proof. intros h Hh. exact Hh. Qed.

Lemma keeps_call_if b e : keeps P (call_if b e).
Proof. intros h Hh. exact Hh. Qed.

Lemma keeps_raise {A} e : keeps P (@raise A e).
Proof. intros h Hh. exact Hh. Qed.

Lemma keeps_update f : (forall h, P h -> P (f h)) -> keeps P (update f).
Proof. intros Hf h Hh. apply Hf. exact Hh. Qed.

Lemma keeps_bind {A B} (m : M A) (k : A -> M B) :
  keeps P m -> (forall a, keeps P (k a)) -> keeps P (bind m k).
Proof.
  intros Hm Hk h Hh. specialize (Hm h Hh). unfold bind, final in *.
  destruct (m h) as [[[a|e|] h1] t1]; cbn [fst snd] in *; try exact Hm.
  specialize (Hk a h1 Hm). unfold final in Hk.
  destruct (k a h1) as [[o2 h2] t2]. exact Hk.
Qed.

Lemma keeps_try_except {A} (m : M A) handler :
  keeps P m -> (forall e, keeps P (handler e)) -> keeps P (try_except m handler).
Proof.
  intros Hm Hk h Hh. specialize (Hm h Hh). unfold try_except, final in *.
  destruct (m h) as [[[a|e|] h1] t1]; cbn [fst snd] in *; try exact Hm.
  specialize (Hk e h1 Hm). unfold final in Hk.
  destruct (handler e h1) as [[o2 h2] t2]. exact Hk.
Qed.

(** The loop of [_process_buffer] keeps what every turn keeps. *)
Lemma keeps_process_buffer_fuel os :
  (forall first second, keeps P (_process_buffer_body os first second)) ->
  forall fuel, keeps P (_process_buffer_fuel os fuel).
Proof.
  intros Hbody fuel. induction fuel as [|fuel IH]; intros h Hh.
  - cbn [_process_buffer_fuel]. unfold bind, self, out_of_fuel, final.
    cbv beta iota. destruct (_rx_buf h) as [|a [|b l]]; exact Hh.
  - cbn [_process_buffer_fuel]. unfold bind at 1. unfold self. cbv beta iota.
    destruct (_rx_buf h) as [|first [|second l]];
      [exact Hh|exact Hh|].
    specialize (Hbody first second h Hh). unfold bind, final in *.
    destruct (_process_buffer_body os first second h) as [[[[|]|e|] h1] t1];
      cbn [fst snd] in *; try exact Hbody.
    specialize (IH h1 Hbody). unfold final in IH.
    destruct (_process_buffer_fuel os fuel h1) as [[o2 h2] t2]. exact IH.
Qed.

End Keeps.

Create HintDb keeps.

Ltac keeps_tac :=
  cbv beta zeta;
  repeat first
    [ apply keeps_ret | apply keeps_self | apply keeps_call
    | apply keeps_call_if | apply keeps_raise
    | solve [auto with keeps]
    | apply keeps_bind; [|intros ?]
    | apply keeps_try_except; [|intros ?]
    | match goal with
      | |- keeps _ (match ?x with _ => _ end) => destruct x
      end ].

Lemma session_cancel_timer : keeps sender_session _cancel_timer.
Proof. unfold _cancel_timer. keeps_tac. Qed.

Lemma session_start_timer : keeps sender_session _start_timer.
Proof.
  unfold _start_timer. keeps_tac.
Qed.

Lemma session_log ev m : keeps sender_session (_log ev m).
Proof. unfold _log. keeps_tac. Qed.

Lemma session_send_packet d : keeps sender_session (_send_packet d).
Proof. unfold _send_packet. keeps_tac. Qed.

Lemma session_byte_of_len n : keeps sender_session (byte_of_len n).
Proof. unfold byte_of_len. keeps_tac. Qed.

#[local] Hint Resolve session_cancel_timer session_start_timer session_log
  session_send_packet session_byte_of_len : keeps.

Lemma session_rx_buf_update b :
  keeps sender_session (update (with_rx_buf b)).
Proof. apply keeps_self. Qed.

Lemma session_rx_buf_consume n :
  keeps sender_session
    (update (fun h => with_rx_buf (slice_from n (_rx_buf h)) h)).
Proof. apply keeps_self. Qed.

Lemma session_drop_file_handle :
  keeps sender_session (update (with_file_handle None)).
Proof.
  apply keeps_update. intros h [Hst Hfh]. destruct_handler h.
  cbn in Hst, Hfh. split; [exact Hst|]. cbn.
  destruct fh as [[c p|a]|];
    [destruct Hfh as (-> & -> & ->); lia|contradiction|exact Hfh].
Qed.

Lemma session_close_file_handle : keeps sender_session close_file_handle.
Proof.
  unfold close_file_handle. keeps_tac. apply session_drop_file_handle.
Qed.

Lemma session_close_file : keeps sender_session close_file.
Proof.
  intros h [Hst Hfh]. destruct_handler h. cbn in Hst, Hfh.
  destruct fh as [[c p|a]|]; [|contradiction|split; assumption].
  destruct Hfh as (-> & -> & ->). split; [exact Hst|]. cbn. lia.
Qed.

Lemma session_set_state s :
  state_in s [S_INIT; S_HEADER; S_EOF; S_EOT; DONE; ERROR] = true ->
  keeps sender_session (update (with_state s)).
Proof.
  intros Hs. apply keeps_update. intros h [Hst Hfh]. destruct_handler h.
  split; [exact Hs|exact Hfh].
Qed.

#[local] Hint Resolve session_rx_buf_update session_rx_buf_consume
  session_close_file_handle session_close_file : keeps.

Lemma session_finish s m : keeps sender_session (_finish s m).
Proof.
  unfold _finish. keeps_tac. destruct s; apply session_set_state; reflexivity.
Qed.

Lemma session_send_header : keeps sender_session _send_header.
Proof. unfold _send_header. keeps_tac. apply session_set_state; reflexivity. Qed.

Lemma session_send_eot : keeps sender_session _send_eot.
Proof. unfold _send_eot. keeps_tac. apply session_set_state; reflexivity. Qed.

Lemma session_send_si : keeps sender_session _send_si.
Proof. unfold _send_si. keeps_tac. Qed.

Lemma session_send_ca : keeps sender_session _send_ca.
Proof. unfold _send_ca. keeps_tac. Qed.

Lemma session_send_cancel r : keeps sender_session (_send_cancel r).
Proof. unfold _send_cancel. keeps_tac. Qed.

Lemma session_file_seek0 : keeps sender_session file_seek0.
Proof.
  intros h [Hst Hfh]. destruct_handler h. cbn in Hst, Hfh.
  destruct fh as [[c p|a]|]; try contradiction.
  - destruct Hfh as (-> & -> & ->). split; [exact Hst|repeat split].
  - split; [exact Hst|exact Hfh].
Qed.

Lemma session_reset_counter :
  keeps sender_session (update (with_bytes_transferred 0)).
Proof.
  apply keeps_update. intros h [Hst Hfh]. destruct_handler h.
  cbn in Hst, Hfh. split; [exact Hst|]. cbn.
  destruct fh as [[c p|a]|];
    [destruct Hfh as (-> & -> & ->); repeat split|contradiction|lia].
Qed.

#[local] Hint Resolve session_finish session_send_header session_send_eot
  session_send_si session_send_ca session_send_cancel session_file_seek0
  session_reset_counter : keeps.

(** Once in S_DATA, the loop sends the whole file and leaves S_DATA: the
    counter ends at the size of the file. *)
Lemma session_data_phase_log msg :
  keeps sender_session
    (update (with_state S_DATA) ;; _log INFO msg ;; _send_data_loop).
Proof.
  intros h [Hst Hfh]. destruct_handler h. cbn in Hst, Hfh.
  destruct fh as [[c p|a]|]; [destruct Hfh as (-> & -> & ->)|contradiction|];
    munfold; data_loop_step; (split; [reflexivity|cbn; lia]).
Qed.

Lemma session_data_phase_plain :
  keeps sender_session (update (with_state S_DATA) ;; _send_data_loop).
Proof.
  intros h [Hst Hfh]. destruct_handler h. cbn in Hst, Hfh.
  destruct fh as [[c p|a]|]; [destruct Hfh as (-> & -> & ->)|contradiction|];
    munfold; data_loop_step; (split; [reflexivity|cbn; lia]).
Qed.

#[local] Hint Resolve session_data_phase_log session_data_phase_plain : keeps.

Lemma session_process_sender_response first second :
  keeps sender_session (_process_sender_response first second).
Proof. unfold _process_sender_response. keeps_tac. Qed.

Lemma final_bind_self {A} (k : YappHandler -> M A) h :
  final (bind self k h) = final (k h h).
Proof.
  unfold bind, self, final. destruct (k h h) as [[o h2] t2]. reflexivity.
Qed.

Lemma session_process_buffer_body os first second :
  keeps sender_session (_process_buffer_body os first second).
Proof.
  intros h Hh. unfold _process_buffer_body.
  destruct (Byte.eqb first CAN).
  - revert h Hh. change (keeps sender_session
      (h <- self ;;
       if length (_rx_buf h) <? 2 + Byte.to_nat second then ret false
       else
         update (with_rx_buf (slice_from (2 + Byte.to_nat second) (_rx_buf h))) ;;
         _log RECEIVED
           (lit "CN (Cancel) "
            ++ decode_ascii (slice 2 (2 + Byte.to_nat second) (_rx_buf h))) ;;
         _send_ca ;;
         _finish false
           (lit "Cancelled by remote: "
            ++ decode_ascii (slice 2 (2 + Byte.to_nat second) (_rx_buf h))) ;;
         ret false)).
    keeps_tac.
  - rewrite final_bind_self.
    pose proof (session_process_sender_response first second h Hh) as Hs.
    destruct Hh as [Hst Hfh]. destruct_handler h. cbn in Hst, Hfh.
    destruct st; try discriminate; cbn; try exact Hs;
      (split; [reflexivity|exact Hfh]).
Qed.

Lemma session_process_data os data :
  keeps sender_session (process_data os data).
Proof.
  unfold process_data, _process_buffer.
  apply keeps_bind; [apply keeps_self|intros h0].
  destruct (YappState_eqb (state h0) IDLE); [apply keeps_call_if|].
  apply keeps_bind; [apply keeps_self|intros _].
  apply keeps_bind; [apply keeps_self|intros h1].
  apply keeps_process_buffer_fuel. intros first second.
  apply session_process_buffer_body.
Qed.

Lemma session_cancel : keeps sender_session cancel.
Proof. unfold cancel. keeps_tac. Qed.

Lemma session_on_timeout : keeps sender_session _on_timeout.
Proof. unfold _on_timeout. keeps_tac. Qed.

Lemma session_start_send os filepath :
  keeps sender_session (start_send os filepath).
Proof.
  intros h Hh. rewrite start_send_rejected; [exact Hh|].
  destruct Hh as [Hst _]. intros E. rewrite E in Hst. discriminate.
Qed.

Lemma session_start_receive os download_dir :
  keeps sender_session (start_receive os download_dir).
Proof.
  intros h Hh. rewrite start_receive_rejected; [exact Hh|].
  destruct Hh as [Hst _]. intros E. rewrite E in Hst. discriminate.
Qed.

Lemma session_run_call os c : keeps sender_session (run_call os c).
Proof.
  destruct c; cbn [run_call].
  - apply keeps_bind; [apply session_start_send|intros; apply keeps_ret].
  - apply keeps_bind; [apply session_start_receive|intros; apply keeps_ret].
  - apply session_process_data.
  - apply session_cancel.
  - apply session_on_timeout.
Qed.

Lemma session_run_calls os cs :
  forall h, sender_session h -> sender_session (fst (run_calls os cs h)).
Proof.
  induction cs as [|c cs IH]; intros h Hh; [exact Hh|].
  cbn [run_calls]. specialize (IH _ (session_run_call os c h Hh)).
  destruct (run_calls os cs (final (run_call os c h))) as [h' t']. exact IH.
Qed.

Lemma session_bound h :
  sender_session h -> (0 <= _bytes_transferred h <= _file_size h)%Z.
Proof.
  intros [_ Hfh]. destruct (_file_handle h) as [[c p|a]|];
    [destruct Hfh as (_ & -> & ->); lia|contradiction|exact Hfh].
Qed.

Lemma start_send_session os filepath h0 msg h1 t1 content :
  start_send os filepath h0 = (Ok (true, msg), h1, t1) ->
  open_rb os filepath = inr content ->
  os_path_getsize os filepath = inr (Z.of_nat (length content)) ->
  sender_session h1.
Proof.
  intros Hstart Hopen Hsize. destruct_handler h0. revert Hstart.
  unfold start_send. munfold. rewrite Hopen, Hsize.
  destruct st; cbv beta iota; try discriminate.
  destruct (os_path_exists os filepath); cbv beta iota; try discriminate.
  munfold.
  destruct tm; intros Hstart; inversion Hstart; subst; split; repeat split.
Qed.

(** C1, as amended.  In a sending session, that is after a successful
    [start_send] on a file whose content has the size that the file system
    reports for it, and whatever calls follow ([process_data] with any bytes,
    [cancel], timer expiries, further [start_send] and [start_receive]), each
    of which returns or raises, [_bytes_transferred] is never negative and
    never exceeds [_file_size]. *)
Theorem sender_counter_within_file_size :
  forall (os : OS) (filepath : str) (h0 h1 : YappHandler) (msg : str)
         (t1 : list Effect) (content : bytes) (calls : list Call),
    start_send os filepath h0 = (Ok (true, msg), h1, t1) ->
    open_rb os filepath = inr content ->
    os_path_getsize os filepath = inr (Z.of_nat (length content)) ->
    (0 <= _bytes_transferred (fst (run_calls os calls h1))
       <= _file_size (fst (run_calls os calls h1)))%Z
    /\ forall c h, outcome (run_call os c h) <> OutOfFuel.
Proof.
  intros os filepath h0 h1 msg t1 content calls Hstart Hopen Hsize. split.
  - apply session_bound, session_run_calls.
    eapply start_send_session; eassumption.
  - intros c h. apply run_call_total.
Qed.

(** A closed instance: the file [a.txt] of ten bytes, sent to a peer that
    answers ReceiveReady, ReceiveFile, AckEof and AckEot. *)
Lemma sender_counter_within_file_size_witness :
  (0 <= _bytes_transferred
          (fst (run_calls example_os
                  [CallProcessData RR_packet; CallProcessData RF_packet;
                   CallProcessData AF_packet; CallProcessData AT_packet]
                  sender_started))
     <= _file_size
          (fst (run_calls example_os
                  [CallProcessData RR_packet; CallProcessData RF_packet;
                   CallProcessData AF_packet; CallProcessData AT_packet]
                  sender_started)))%Z.
Proof.
  refine (proj1 (sender_counter_within_file_size example_os (lit "a.txt")
                   example_handler sender_started (lit "Sending a.txt")
                   (trace (start_send example_os (lit "a.txt") example_handler))
                   [x61; x62; x63; x64; x65; x66; x67; x68; x69; x6a]
                   [CallProcessData RR_packet; CallProcessData RF_packet;
                    CallProcessData AF_packet; CallProcessData AT_packet]
                   _ _ _)).
  - vm_compute. reflexivity.
  - reflexivity.
  - reflexivity.
Defined.
(** ** The loop of [_process_buffer], step by step *)

Lemma process_buffer_fuel_S os n h :
  _process_buffer_fuel os (S n) h
  = match decode_step os h with
    | (Ok true, h1, t1) =>
        let '(o, h2, t2) := _process_buffer_fuel os n h1 in (o, h2, t1 ++ t2)
    | (Ok false, h1, t1) => (Ok tt, h1, t1)
    | (Raise e, h1, t1) => (Raise e, h1, t1)
    | (OutOfFuel, h1, t1) => (OutOfFuel, h1, t1)
    end.
Proof.
  cbn [_process_buffer_fuel]. unfold decode_step, bind, self, ret.
  destruct (_rx_buf h) as [|first [|second l]]; try reflexivity.
  destruct (_process_buffer_body os first second h) as [[[[|]|e|] h1] t1];
    try reflexivity.
  - destruct (_process_buffer_fuel os n h1) as [[o2 h2] t2]. reflexivity.
  - rewrite app_nil_r. reflexivity.
Qed.

Lemma decode_step_shrinks os h b h1 t1 :
  decode_step os h = (Ok b, h1, t1) ->
  b = true ->
  length (_rx_buf h1) < length (_rx_buf h).
Proof.
  intros E ->. unfold decode_step, bind, self, ret in E.
  destruct (_rx_buf h) as [|first [|second l]] eqn:Hbuf; try discriminate.
  pose proof (shrinks_process_buffer_body os h first second) as Hs.
  unfold shrinks, outcome, final in Hs. rewrite Hbuf in Hs.
  destruct (_process_buffer_body os first second h) as [[o h'] t'].
  cbn [fst snd] in Hs. inversion E; subst.
  apply Hs; [|reflexivity].
  change (length (first :: second :: l)) with (S (S (length l))). lia.
Qed.

(** The number of turns given to the loop does not matter once it reaches
    the length of the buffer. *)
Lemma process_buffer_fuel_enough os n :
  forall m h,
    length (_rx_buf h) <= n ->
    length (_rx_buf h) <= m ->
    _process_buffer_fuel os n h = _process_buffer_fuel os m h.
Proof.
  induction n as [|n IH]; intros m h Hn Hm.
  - destruct (_rx_buf h) as [|a l] eqn:Hbuf;
      [|change (length (a :: l)) with (S (length l)) in Hn; lia].
    destruct m; cbn [_process_buffer_fuel]; unfold bind, self;
      rewrite Hbuf; reflexivity.
  - destruct m as [|m].
    + destruct (_rx_buf h) as [|a l] eqn:Hbuf;
        [|change (length (a :: l)) with (S (length l)) in Hm; lia].
      cbn [_process_buffer_fuel]; unfold bind, self; rewrite Hbuf; reflexivity.
    + rewrite !process_buffer_fuel_S.
      destruct (decode_step os h) as [[[[|]|e|] h1] t1] eqn:E; try reflexivity.
      pose proof (decode_step_shrinks os h true h1 t1 E eq_refl) as Hlt.
      rewrite (IH m h1) by lia. reflexivity.
Qed.

Lemma process_buffer_unfold os h :
  _process_buffer os h
  = match decode_step os h with
    | (Ok true, h1, t1) =>
        let '(o, h2, t2) := _process_buffer os h1 in (o, h2, t1 ++ t2)
    | (Ok false, h1, t1) => (Ok tt, h1, t1)
    | (Raise e, h1, t1) => (Raise e, h1, t1)
    | (OutOfFuel, h1, t1) => (OutOfFuel, h1, t1)
    end.
Proof.
  assert (Hpb : forall h', _process_buffer os h'
                 = _process_buffer_fuel os (S (length (_rx_buf h'))) h').
  { intros h'. unfold _process_buffer, bind, self.
    destruct (_process_buffer_fuel os (S (length (_rx_buf h'))) h')
      as [[o2 h2] t2]. reflexivity. }
  rewrite Hpb, process_buffer_fuel_S.
  destruct (decode_step os h) as [[[[|]|e|] h1] t1] eqn:E; try reflexivity.
  pose proof (decode_step_shrinks os h true h1 t1 E eq_refl) as Hlt.
  rewrite Hpb.
  rewrite (process_buffer_fuel_enough os (length (_rx_buf h))
             (S (length (_rx_buf h1))) h1) by lia.
  reflexivity.
Qed.

Lemma process_data_active os data h :
  state h <> IDLE ->
  process_data os data h
  = _process_buffer os (with_rx_buf (_rx_buf h ++ data) h).
Proof.
  intros Hst. unfold process_data, bind, self, update.
  destruct (state h); try congruence; cbn [YappState_eqb];
    destruct (_process_buffer os _) as [[o2 h2] t2]; reflexivity.
Qed.

Lemma process_buffer_short os h :
  length (_rx_buf h) < 2 -> _process_buffer os h = (Ok tt, h, []).
Proof.
  intros Hlen. rewrite process_buffer_unfold. unfold decode_step, bind, self, ret.
  destruct (_rx_buf h) as [|a [|b l]]; try reflexivity.
  change (length (a :: b :: l)) with (S (S (length l))) in Hlen. lia.
Qed.

(** ** Progress of the loop *)

(** X1.  A turn of the loop of [_process_buffer] that lets the loop go on has
    removed at least one byte from the receive buffer; hence the loop ends,
    and [process_data] returns or raises whatever bytes it is given. *)
Theorem decode_step_consumes :
  forall (os : OS) (h h1 : YappHandler) (t1 : list Effect),
    decode_step os h = (Ok true, h1, t1) ->
    length (_rx_buf h1) < length (_rx_buf h)
    /\ forall data h', outcome (process_data os data h') <> OutOfFuel.
Proof.
  intros os h h1 t1 E. split.
  - exact (decode_step_shrinks os h true h1 t1 E eq_refl).
  - intros data h'. apply total_process_data.
Qed.

(** A closed instance: a Data packet of one byte and one more byte, in
    R_DATA. *)
Lemma decode_step_consumes_witness :
  length (_rx_buf (final (decode_step example_os
                            (receiving (wire DT [x61] ++ [x00])))))
  < length (_rx_buf (receiving (wire DT [x61] ++ [x00]))).
Proof.
  refine (proj1 (decode_step_consumes example_os
                   (receiving (wire DT [x61] ++ [x00]))
                   (final (decode_step example_os
                             (receiving (wire DT [x61] ++ [x00]))))
                   (trace (decode_step example_os
                             (receiving (wire DT [x61] ++ [x00]))))
                   _)).
  vm_compute. reflexivity.
Defined.

(** ** Cancel from the remote station *)

Lemma cancel_step os h reason rest :
  length reason <= 255 ->
  _rx_buf h = wire CN reason ++ rest ->
  decode_step os h
  = (Ok false,
     with_state ERROR
       (with_file_handle None (with_timer false (with_rx_buf rest h))),
     (if on_event h
      then [ELog RECEIVED (lit "CN (Cancel) " ++ decode_ascii reason)] else [])
     ++ (if send_raw h then [ESend CA_packet] else [])
     ++ (if on_event h then [ELog SENT (lit "CA (Cancel Ack)")] else [])
     ++ (match _file_handle h with Some _ => [EClose] | None => [] end)
     ++ (if on_event h
         then [ELog EV_ERROR
                 (lit "Cancelled by remote: " ++ decode_ascii reason)]
         else [])
     ++ (if on_finished h
         then [EFinished false
                 (lit "Cancelled by remote: " ++ decode_ascii reason)]
         else [])).
Proof.
  intros Hlen Hbuf. destruct_handler h. cbn in Hbuf. subst.
  unfold_step. munfold. cbn.
  rewrite (to_nat_len_byte _ Hlen).
  rewrite (ltb_complete _ _ _ _ _ eq_refl), (slice_prefix _ _ _ _ _ eq_refl),
    (slice_from_prefix _ _ _ _ _ eq_refl).
  destruct tm, fh, sr, oe, ofn; reflexivity.
Qed.

(** X2.  A complete Cancel packet at the head of the input is honoured in
    every state but IDLE, before any dispatch on the state: CancelAck is
    sent, the file is closed, the timer is off, the machine is in ERROR and
    [on_finished(False, "Cancelled by remote: <reason>")] is called; the
    method returns at once, so the bytes that follow the packet stay in the
    receive buffer unread. *)
Theorem remote_cancel :
  forall (os : OS) (h : YappHandler) (reason rest : bytes),
    length reason <= 255 ->
    state h <> IDLE ->
    _rx_buf h = [] ->
    process_data os (wire CN reason ++ rest) h
    = (Ok tt,
       with_state ERROR
         (with_file_handle None (with_timer false (with_rx_buf rest h))),
       (if on_event h
        then [ELog RECEIVED (lit "CN (Cancel) " ++ decode_ascii reason)]
        else [])
       ++ (if send_raw h then [ESend CA_packet] else [])
       ++ (if on_event h then [ELog SENT (lit "CA (Cancel Ack)")] else [])
       ++ (match _file_handle h with Some _ => [EClose] | None => [] end)
       ++ (if on_event h
           then [ELog EV_ERROR
                   (lit "Cancelled by remote: " ++ decode_ascii reason)]
           else [])
       ++ (if on_finished h
           then [EFinished false
                   (lit "Cancelled by remote: " ++ decode_ascii reason)]
           else [])).
Proof.
  intros os h reason rest Hlen Hst Hbuf.
  rewrite (process_data_active os _ h Hst), process_buffer_unfold.
  rewrite (cancel_step os _ reason rest Hlen)
    by (destruct h; cbn in *; subst; reflexivity).
  destruct h; cbn in *; subst; reflexivity.
Qed.

(** A closed instance: the Cancel packet "hi" and one more byte, received
    while sending [a.txt]. *)
Lemma remote_cancel_witness :
  process_data example_os (wire CN [x68; x69] ++ [x01]) sender_started
  = (Ok tt,
     with_state ERROR
       (with_file_handle None
          (with_timer false (with_rx_buf [x01] sender_started))),
     (if on_event sender_started
      then [ELog RECEIVED (lit "CN (Cancel) " ++ decode_ascii [x68; x69])]
      else [])
     ++ (if send_raw sender_started then [ESend CA_packet] else [])
     ++ (if on_event sender_started
         then [ELog SENT (lit "CA (Cancel Ack)")] else [])
     ++ (match _file_handle sender_started with
         | Some _ => [EClose]
         | None => []
         end)
     ++ (if on_event sender_started
         then [ELog EV_ERROR
                 (lit "Cancelled by remote: " ++ decode_ascii [x68; x69])]
         else [])
     ++ (if on_finished sender_started
         then [EFinished false
                 (lit "Cancelled by remote: " ++ decode_ascii [x68; x69])]
         else [])).
Proof.
  refine (remote_cancel example_os sender_started [x68; x69] [x01] _ _ _).
  - vm_compute. lia.
  - vm_compute. discriminate.
  - vm_compute. reflexivity.
Defined.

(** ** Cancelling, resetting, timing out *)

(** X3.  [cancel] acts exactly when [is_active] holds: then it sends a Cancel
    packet with the reason "Cancelled by user", closes the file, stops the
    timer, goes to ERROR and calls
    [on_finished(False, "Transfer cancelled by user")]; the handler is not
    active afterwards. *)
Theorem cancel_when_active :
  forall h : YappHandler,
    is_active h = true ->
    cancel h
    = (Ok tt, finished false h,
       sent h (wire CN (encode_ascii (lit "Cancelled by user")))
         (lit "CN (Cancel) Cancelled by user")
       ++ finish_calls false (lit "Transfer cancelled by user") h)
    /\ is_active (final (cancel h)) = false.
Proof.
  intros h Hact. destruct_handler h. unfold is_active in Hact. cbn in Hact.
  destruct st; try discriminate Hact;
    destruct tm, fh, sr, oe, ofn; split; reflexivity.
Qed.

(** A closed instance: cancelling the sending of [a.txt]. *)
Lemma cancel_when_active_witness :
  cancel sender_started
  = (Ok tt, finished false sender_started,
     sent sender_started (wire CN (encode_ascii (lit "Cancelled by user")))
       (lit "CN (Cancel) Cancelled by user")
     ++ finish_calls false (lit "Transfer cancelled by user") sender_started)
  /\ is_active (final (cancel sender_started)) = false.
Proof.
  refine (cancel_when_active sender_started _).
  vm_compute. reflexivity.
Defined.

(** X4.  [reset_to_idle] puts the handler back as its constructor made it,
    whatever the state: IDLE, empty buffer, no file, no name, size and
    counter 0, retries 0, timer off; only the callbacks and the download
    directory stay.  It closes the file when one is open and calls nothing
    else, in particular not [on_finished]. *)
Theorem reset_to_idle_restores_constructor :
  forall h : YappHandler,
    reset_to_idle h
    = (Ok tt,
       with_download_dir (_download_dir h)
         (__init__ (send_raw h) (on_progress h) (on_event h) (on_finished h)
            (on_rx_data h)),
       closed h).
Proof.
  intros h. destruct_handler h. destruct tm, fh; reflexivity.
Qed.

(** X5.  When the timer expires in a state other than IDLE, and not in
    S_INIT with retries left, the handler reports the timeout, sends a Cancel
    packet with the reason "Timeout", and finishes in ERROR with
    [on_finished(False, "Timeout: no response from remote station")]; in IDLE
    the expiry does nothing. *)
Theorem timeout_aborts :
  forall h : YappHandler,
    (state h = IDLE -> _on_timeout h = (Ok tt, h, []))
    /\ (state h <> IDLE ->
        (state h = S_INIT -> (MAX_SI_RETRIES <= _si_retries h)%Z) ->
        _on_timeout h
        = (Ok tt, finished false h,
           logged h EV_ERROR (lit "Timeout - no response from remote")
           ++ sent h (wire CN (encode_ascii (lit "Timeout")))
                (lit "CN (Cancel) Timeout")
           ++ finish_calls false
                (lit "Timeout: no response from remote station") h)).
Proof.
  intros h. destruct_handler h. split.
  - cbn. intros ->. unfold _on_timeout. munfold. reflexivity.
  - cbn. intros Hne Hr. unfold _on_timeout.
    destruct st; try congruence;
      try (specialize (Hr eq_refl); apply Z.ltb_ge in Hr; munfold; rewrite Hr);
      destruct tm, fh, sr, oe, ofn; reflexivity.
Qed.

(** A closed instance: the timer expires on a receiver in R_DATA. *)
Lemma timeout_aborts_witness :
  _on_timeout (receiving [])
  = (Ok tt, finished false (receiving []),
     logged (receiving []) EV_ERROR (lit "Timeout - no response from remote")
     ++ sent (receiving []) (wire CN (encode_ascii (lit "Timeout")))
          (lit "CN (Cancel) Timeout")
     ++ finish_calls false
          (lit "Timeout: no response from remote station") (receiving [])).
Proof.
  refine (proj2 (timeout_aborts (receiving [])) _ _).
  - vm_compute. discriminate.
  - vm_compute. discriminate.
Defined.

(** ** Input that no state expects *)

(** X6.  In DONE, ERROR and CW_WAIT the handler discards what it receives: as
    soon as the buffer holds two bytes that do not start with CAN, the whole
    buffer is dropped, nothing is sent or reported, and the state stays. *)
Theorem terminal_states_discard :
  forall (os : OS) (h : YappHandler) (data : bytes) (first second : byte)
         (rest : bytes),
    state_in (state h) [DONE; ERROR; CW_WAIT] = true ->
    _rx_buf h ++ data = first :: second :: rest ->
    first <> CAN ->
    process_data os data h = (Ok tt, with_rx_buf [] h, []).
Proof.
  intros os h data first second rest Hst Hbuf Hcan.
  apply byte_eqb_neq in Hcan.
  destruct_handler h. cbn in Hst, Hbuf.
  unfold process_data, _process_buffer. munfold.
  destruct st; try discriminate Hst; cbv beta iota; rewrite Hbuf;
    cbn [ _process_buffer_fuel]; unfold _process_buffer_body; munfold;
    rewrite Hcan; reflexivity.
Qed.

(** A closed instance: two bytes delivered to a handler in ERROR. *)
Lemma terminal_states_discard_witness :
  process_data example_os [x61; x62] (with_state ERROR example_handler)
  = (Ok tt, with_rx_buf [] (with_state ERROR example_handler), []).
Proof.
  refine (terminal_states_discard example_os (with_state ERROR example_handler)
            [x61; x62] x61 x62 [] _ _ _).
  - vm_compute. reflexivity.
  - vm_compute. reflexivity.
  - vm_compute. discriminate.
Defined.

(** X7.  A byte that opens no packet in the state the handler is in is
    dropped alone: in the sender states that wait for an answer, a first byte
    other than ACK, NAK and CAN; in R_WAIT and R_HEADER, a first byte other
    than SOH and CAN that is not the start of SendInit or EndOfTransmission;
    in R_DATA, a first byte other than STX and CAN that is not the start of
    EndOfFile or EndOfTransmission.  The step removes that one byte, sends
    and reports nothing, and stays in its state (outside R_DATA the timer has
    been stopped and is not started again). *)
Theorem unexpected_byte_dropped :
  forall (os : OS) (h : YappHandler) (first second : byte) (rest : bytes),
    _rx_buf h = first :: second :: rest ->
    first <> CAN ->
    (state_in (state h) [S_INIT; S_HEADER; S_EOF; S_EOT] = true
     /\ first <> ACK /\ first <> NAK)
    \/ (state_in (state h) [R_WAIT; R_HEADER] = true
        /\ first <> SOH
        /\ (first = ENQ \/ first = EOT -> second <> x01))
    \/ (state h = R_DATA
        /\ first <> STX
        /\ (first = ETX \/ first = EOT -> second <> x01)) ->
    decode_step os h
    = (Ok true,
       with_rx_buf (second :: rest)
         (if YappState_eqb (state h) R_DATA then h else with_timer false h),
       []).
Proof.
  intros os h first second rest Hbuf Hcan Hcases.
  apply byte_eqb_neq in Hcan.
  assert (Hpair : forall c : byte,
             (first = c -> second <> x01) ->
             Byte.eqb first c && Byte.eqb second x01 = false).
  { intros c Hc. destruct (Byte.eqb first c) eqn:E; [|reflexivity].
    apply Byte.byte_dec_bl in E. cbn. apply byte_eqb_neq. auto. }
  destruct_handler h. cbn in Hbuf, Hcases. subst buf.
  destruct Hcases as [(Hst & Hack & Hnak)|[(Hst & Hsoh & Hsub)|(Hst & Hstx & Hsub)]].
  - apply byte_eqb_neq in Hack, Hnak.
    unfold decode_step, _process_buffer_body. munfold. rewrite Hcan.
    destruct st; try discriminate Hst; cbv beta iota;
      unfold _process_sender_response; munfold; rewrite Hack, Hnak;
      destruct tm; reflexivity.
  - apply byte_eqb_neq in Hsoh.
    pose proof (Hpair ENQ (fun E => Hsub (or_introl E))) as Henq.
    pose proof (Hpair EOT (fun E => Hsub (or_intror E))) as Heot.
    unfold decode_step, _process_buffer_body. munfold. rewrite Hcan.
    destruct st; try discriminate Hst; cbv beta iota;
      unfold _process_receiver_control; munfold;
      fold (andb (Byte.eqb first ENQ) (Byte.eqb second x01));
      fold (andb (Byte.eqb first EOT) (Byte.eqb second x01));
      rewrite Henq, Hsoh, Heot; destruct tm; reflexivity.
  - subst st. apply byte_eqb_neq in Hstx.
    pose proof (Hpair ETX (fun E => Hsub (or_introl E))) as Hetx.
    pose proof (Hpair EOT (fun E => Hsub (or_intror E))) as Heot.
    unfold decode_step, _process_buffer_body. munfold. rewrite Hcan.
    unfold _process_receiver_data; munfold;
      fold (andb (Byte.eqb first ETX) (Byte.eqb second x01));
      fold (andb (Byte.eqb first EOT) (Byte.eqb second x01));
      rewrite Hstx, Hetx, Heot, Hcan; reflexivity.
Qed.

(** A closed instance: the letters "ab" in front of an EndOfFile packet, in
    R_DATA. *)
Lemma unexpected_byte_dropped_witness :
  decode_step example_os (receiving (x61 :: x62 :: EF_packet))
  = (Ok true,
     with_rx_buf (x62 :: EF_packet)
       (if YappState_eqb (state (receiving (x61 :: x62 :: EF_packet))) R_DATA
        then receiving (x61 :: x62 :: EF_packet)
        else with_timer false (receiving (x61 :: x62 :: EF_packet))),
     []).
Proof.
  refine (unexpected_byte_dropped example_os
            (receiving (x61 :: x62 :: EF_packet)) x61 x62 EF_packet _ _ _).
  - vm_compute. reflexivity.
  - vm_compute. discriminate.
  - right. right. split; [reflexivity|]. split.
    + vm_compute. discriminate.
    + intros [H|H]; vm_compute in H; discriminate H.
Defined.

(** ** The sender and the answers of the receiver *)

(** X8.  In S_INIT, ReceiveReady makes the sender send the Header packet
    (file name, NUL, size in decimal, NUL, behind SOH and the length byte) as
    long as that payload fits in 255 bytes: the state becomes S_HEADER and
    the timer is armed. *)
Theorem receive_ready_sends_header :
  forall (os : OS) (h : YappHandler) (rest : bytes),
    state h = S_INIT ->
    _rx_buf h = RR_packet ++ rest ->
    length (header_payload (_filename h) (_file_size h)) <= 255 ->
    decode_step os h
    = (Ok true,
       with_timer true (with_state S_HEADER (with_rx_buf rest h)),
       logged h RECEIVED (lit "RR (Receive Ready)")
       ++ sent h (wire HD (header_payload (_filename h) (_file_size h)))
            (lit "HD (Header) file=" ++ _filename h ++ lit " size="
             ++ str_of_int (_file_size h))).
Proof.
  intros os h rest Hst Hbuf Hlen.
  destruct_handler h. cbn in Hst, Hbuf, Hlen. subst.
  destruct tm; unfold_step; munfold; cbn; munfold;
    rewrite (byte_of_len_len_byte _ Hlen); destruct sr, oe; reflexivity.
Qed.

(** A closed instance: ReceiveReady answers the SendInit for [a.txt]. *)
Lemma receive_ready_sends_header_witness :
  sent_packets
    (trace (decode_step example_os (with_rx_buf RR_packet sender_started)))
  = [wire HD (header_payload (lit "a.txt") 10)]
  /\ state (final (decode_step example_os
                     (with_rx_buf RR_packet sender_started))) = S_HEADER.
Proof.
  rewrite (receive_ready_sends_header example_os
             (with_rx_buf RR_packet sender_started) []
             ltac:(vm_compute; reflexivity) ltac:(vm_compute; reflexivity)
             ltac:(vm_compute; lia)).
  split; vm_compute; reflexivity.
Defined.

(** X9.  When the name and the size of the file make a Header payload of
    more than 255 bytes, building the packet fails: ReceiveReady in S_INIT
    makes [process_data] raise [ValueError]; nothing is sent, the answer is
    consumed, the sender stays in S_INIT and its timer, stopped when the
    answer came in, is not started again. *)
Theorem oversize_header_raises :
  forall (os : OS) (h : YappHandler) (rest : bytes),
    state h = S_INIT ->
    _rx_buf h = [] ->
    255 < length (header_payload (_filename h) (_file_size h)) ->
    process_data os (RR_packet ++ rest) h
    = (Raise (ValueError (lit "bytes must be in range(0, 256)")),
       with_timer false (with_rx_buf rest h),
       logged h RECEIVED (lit "RR (Receive Ready)")).
Proof.
  intros os h rest Hst Hbuf Hlen.
  rewrite (process_data_active os _ h) by (rewrite Hst; discriminate).
  rewrite process_buffer_unfold.
  destruct_handler h. cbn in Hst, Hbuf, Hlen. subst.
  destruct (Byte.of_nat (length (header_payload fname fsz))) eqn:E.
  - apply Byte.to_of_nat in E. pose proof (Byte.to_nat_bounded b). lia.
  - destruct tm; unfold_step; munfold; cbn; munfold; rewrite E;
      destruct oe; reflexivity.
Qed.

(** A closed instance: a file whose name has 300 characters. *)
Lemma oversize_header_raises_witness :
  outcome (process_data example_os (RR_packet ++ [])
             (with_filename (repeat 97%N 300) sender_started))
  = Raise (ValueError (lit "bytes must be in range(0, 256)"))
  /\ state (final (process_data example_os (RR_packet ++ [])
                     (with_filename (repeat 97%N 300) sender_started)))
     = S_INIT
  /\ _timer (final (process_data example_os (RR_packet ++ [])
                      (with_filename (repeat 97%N 300) sender_started)))
     = false.
Proof.
  rewrite (oversize_header_raises example_os
             (with_filename (repeat 97%N 300) sender_started) []
             ltac:(vm_compute; reflexivity) ltac:(vm_compute; reflexivity)
             ltac:(vm_compute; lia)).
  repeat split.
Defined.

(** X10.  The closing handshake of the sender: AckEndOfFile in S_EOF makes
    it send EndOfTransmission and wait in S_EOT with the timer armed;
    AckEndOfTransmission in S_EOT ends the transfer in DONE with
    [on_finished(True, "File sent successfully: <name>")]. *)
Theorem sender_closing_handshake :
  forall (os : OS) (h : YappHandler) (rest : bytes),
    (state h = S_EOF ->
     _rx_buf h = AF_packet ++ rest ->
     decode_step os h
     = (Ok true,
        with_timer true (with_state S_EOT (with_rx_buf rest h)),
        logged h RECEIVED (lit "AF (Ack End of File)")
        ++ sent h ET_packet (lit "ET (End of Transmission)")))
    /\ (state h = S_EOT ->
        _rx_buf h = AT_packet ++ rest ->
        decode_step os h
        = (Ok true,
           finished true (with_rx_buf rest h),
           logged h RECEIVED (lit "AT (Ack End of Transmission)")
           ++ finish_calls true
                (lit "File sent successfully: " ++ _filename h) h)).
Proof.
  intros os h rest. destruct_handler h. cbn.
  split; intros -> ->; destruct tm; unfold_step; munfold; cbn; munfold;
    destruct fh, sr, oe, ofn; reflexivity.
Qed.

(** A closed instance: AckEndOfFile received in S_EOF. *)
Lemma sender_closing_handshake_witness :
  decode_step example_os
    (with_rx_buf (AF_packet ++ []) (with_state S_EOF sender_started))
  = (Ok true,
     with_timer true
       (with_state S_EOT
          (with_rx_buf []
             (with_rx_buf (AF_packet ++ []) (with_state S_EOF sender_started)))),
     logged (with_rx_buf (AF_packet ++ []) (with_state S_EOF sender_started))
       RECEIVED (lit "AF (Ack End of File)")
     ++ sent (with_rx_buf (AF_packet ++ []) (with_state S_EOF sender_started))
          ET_packet (lit "ET (End of Transmission)")).
Proof.
  refine (proj1 (sender_closing_handshake example_os
                   (with_rx_buf (AF_packet ++ [])
                      (with_state S_EOF sender_started)) []) _ _).
  - vm_compute. reflexivity.
  - vm_compute. reflexivity.
Defined.

(** The sender states in which an acknowledgement makes the sender act:
    ReceiveReady in S_INIT; ReceiveFile (and the YappC request, taken for
    it) in S_INIT and S_HEADER; AckEndOfFile in S_EOF; AckEndOfTransmission
    in S_EOT. *)
Lemma stray_ack_step os h k rest :
  state_in (state h) [S_INIT; S_HEADER; S_EOF; S_EOT] = true ->
  match k with
  | RR => state h <> S_INIT
  | RF | RT => state h <> S_INIT /\ state h <> S_HEADER
  | AF => state h <> S_EOF
  | AT => state h <> S_EOT
  | _ => False
  end ->
  _rx_buf h = wire k [] ++ rest ->
  decode_step os h
  = (Ok true, with_timer false (with_rx_buf rest h),
     logged h RECEIVED (received_message k [])).
Proof.
  intros Hst Hk Hbuf. destruct_handler h. cbn in Hst, Hk, Hbuf. subst buf.
  destruct k; try contradiction;
    destruct st; try discriminate Hst; try tauto; try congruence;
    destruct tm; unfold_step; munfold; cbn; munfold; destruct oe; reflexivity.
Qed.

(** X11.  An acknowledgement that the sender does not expect in its state
    (ReceiveReady after S_INIT, ReceiveFile or the YappC request after
    S_HEADER, AckEndOfFile outside S_EOF, AckEndOfTransmission outside S_EOT)
    is consumed and reported, and nothing else: no packet, no change of
    state.  The timer, stopped when the bytes came in, is not started again. *)
Theorem stray_acknowledgement_ignored :
  forall (os : OS) (h : YappHandler) (k : Kind) (rest : bytes),
    state_in (state h) [S_INIT; S_HEADER; S_EOF; S_EOT] = true ->
    match k with
    | RR => state h <> S_INIT
    | RF | RT => state h <> S_INIT /\ state h <> S_HEADER
    | AF => state h <> S_EOF
    | AT => state h <> S_EOT
    | _ => False
    end ->
    _rx_buf h = wire k [] ++ rest ->
    decode_step os h
    = (Ok true, with_timer false (with_rx_buf rest h),
       logged h RECEIVED (received_message k []))
    /\ _timer (final (decode_step os h)) = false.
Proof.
  intros os h k rest Hst Hk Hbuf.
  rewrite (stray_ack_step os h k rest Hst Hk Hbuf).
  split; [reflexivity|destruct h; reflexivity].
Qed.

(** A closed instance: a second ReceiveReady, received in S_HEADER. *)
Lemma stray_acknowledgement_ignored_witness :
  state (final (decode_step example_os
                  (with_rx_buf (wire RR [] ++ [])
                     (with_state S_HEADER sender_started)))) = S_HEADER
  /\ sent_packets
       (trace (decode_step example_os
                 (with_rx_buf (wire RR [] ++ [])
                    (with_state S_HEADER sender_started)))) = []
  /\ _timer (final (decode_step example_os
                      (with_rx_buf (wire RR [] ++ [])
                         (with_state S_HEADER sender_started)))) = false.
Proof.
  destruct (stray_acknowledgement_ignored example_os
              (with_rx_buf (wire RR [] ++ [])
                 (with_state S_HEADER sender_started)) RR []
              ltac:(vm_compute; reflexivity) ltac:(vm_compute; discriminate)
              ltac:(vm_compute; reflexivity)) as [E Ht].
  rewrite E. repeat split.
Defined.

(** X12.  A sender that waits for an answer gives up on NotReady and on
    CancelAck: NotReady (a NAK packet whose reason does not start with [R])
    ends the transfer in ERROR with
    [on_finished(False, "Remote not ready: <reason>")], CancelAck with
    [on_finished(False, "Transfer cancelled")]; the file is closed and the
    timer is off. *)
Theorem sender_gives_up :
  forall (os : OS) (h : YappHandler) (reason rest : bytes),
    state_in (state h) [S_INIT; S_HEADER; S_EOF; S_EOT] = true ->
    (length reason <= 255 ->
     starts_with_R reason = false ->
     _rx_buf h = wire NR reason ++ rest ->
     decode_step os h
     = (Ok true, finished false (with_rx_buf rest h),
        logged h RECEIVED (lit "NR (Not Ready) " ++ decode_ascii reason)
        ++ finish_calls false
             (lit "Remote not ready: " ++ decode_ascii reason) h))
    /\ (_rx_buf h = CA_packet ++ rest ->
        decode_step os h
        = (Ok true, finished false (with_rx_buf rest h),
           logged h RECEIVED (lit "CA (Cancel Ack)")
           ++ finish_calls false (lit "Transfer cancelled") h)).
Proof.
  intros os h reason rest Hst. destruct_handler h. cbn in Hst |- *. split.
  - intros Hlen HR ->.
    destruct st; try discriminate Hst; destruct tm; unfold_step; munfold; cbn;
      rewrite (to_nat_len_byte _ Hlen);
      rewrite (ltb_complete _ _ _ _ _ eq_refl), (slice_prefix _ _ _ _ _ eq_refl),
        (slice_from_prefix _ _ _ _ _ eq_refl);
      (destruct reason as [|c reason']; [|cbn in HR; rewrite HR]);
      munfold; destruct fh, oe, ofn; reflexivity.
  - intros ->.
    destruct st; try discriminate Hst; destruct tm; unfold_step; munfold; cbn;
      munfold; destruct fh, oe, ofn; reflexivity.
Qed.

(** A closed instance: NotReady with the reason "no", received in S_INIT. *)
Lemma sender_gives_up_witness :
  finished_calls
    (trace (decode_step example_os
              (with_rx_buf (wire NR [x6e; x6f] ++ []) sender_started)))
  = [(false, lit "Remote not ready: no")]
  /\ state (final (decode_step example_os
                     (with_rx_buf (wire NR [x6e; x6f] ++ []) sender_started)))
     = ERROR.
Proof.
  rewrite (proj1 (sender_gives_up example_os
                    (with_rx_buf (wire NR [x6e; x6f] ++ []) sender_started)
                    [x6e; x6f] [] ltac:(vm_compute; reflexivity))
             ltac:(vm_compute; lia) ltac:(vm_compute; reflexivity)
             ltac:(vm_compute; reflexivity)).
  split; vm_compute; reflexivity.
Defined.

(** X13.  A Resume request (a NAK packet whose payload starts with [R]) is
    not honoured.  In S_HEADER the sender rewinds the file, sets the counter
    back to 0 and sends the Header again, staying in S_HEADER with the timer
    armed; in the other waiting states the request is only reported. *)
Theorem resume_restarts_from_header :
  forall (os : OS) (h : YappHandler) (payload rest : bytes) (c : bytes)
         (p : nat),
    length payload <= 255 ->
    starts_with_R payload = true ->
    _rx_buf h = wire RE payload ++ rest ->
    (state h = S_HEADER ->
     _file_handle h = Some (Reader c p) ->
     length (header_payload (_filename h) (_file_size h)) <= 255 ->
     decode_step os h
     = (Ok true,
        with_timer true
          (with_bytes_transferred 0
             (with_file_handle (Some (Reader c 0)) (with_rx_buf rest h))),
        logged h RECEIVED (lit "RE (Resume) - not supported, restarting")
        ++ [ESeek]
        ++ sent h (wire HD (header_payload (_filename h) (_file_size h)))
             (lit "HD (Header) file=" ++ _filename h ++ lit " size="
              ++ str_of_int (_file_size h))))
    /\ (state_in (state h) [S_INIT; S_EOF; S_EOT] = true ->
        decode_step os h
        = (Ok true, with_timer false (with_rx_buf rest h),
           logged h RECEIVED (lit "RE (Resume) - not supported, restarting"))).
Proof.
  intros os h payload rest c p Hlen HR Hbuf.
  destruct_handler h. cbn in Hbuf |- *. subst buf. split.
  - intros -> -> Hhd. cbn in Hhd.
    destruct tm; unfold_step; munfold; cbn;
      rewrite (to_nat_len_byte _ Hlen);
      rewrite (ltb_complete _ _ _ _ _ eq_refl), (slice_prefix _ _ _ _ _ eq_refl),
        (slice_from_prefix _ _ _ _ _ eq_refl);
      (destruct payload as [|c0 payload']; [discriminate HR|]); cbn in HR;
      rewrite HR; munfold; rewrite (byte_of_len_len_byte _ Hhd);
      destruct sr, oe; reflexivity.
  - intros Hst.
    destruct st; try discriminate Hst; destruct tm; unfold_step; munfold; cbn;
      rewrite (to_nat_len_byte _ Hlen);
      rewrite (ltb_complete _ _ _ _ _ eq_refl), (slice_prefix _ _ _ _ _ eq_refl),
        (slice_from_prefix _ _ _ _ _ eq_refl);
      (destruct payload as [|c0 payload']; [discriminate HR|]); cbn in HR;
      rewrite HR; munfold; destruct oe; reflexivity.
Qed.

(** A closed instance: a Resume request received in S_HEADER after the
    Header of [a.txt]. *)
Lemma resume_restarts_from_header_witness :
  sent_packets
    (trace (decode_step example_os
              (with_rx_buf (wire RE [x52] ++ [])
                 (with_state S_HEADER sender_started))))
  = [wire HD (header_payload (lit "a.txt") 10)]
  /\ _bytes_transferred
       (final (decode_step example_os
                 (with_rx_buf (wire RE [x52] ++ [])
                    (with_state S_HEADER sender_started)))) = 0%Z.
Proof.
  rewrite (proj1 (resume_restarts_from_header example_os
                    (with_rx_buf (wire RE [x52] ++ [])
                       (with_state S_HEADER sender_started))
                    [x52] []
                    [x61; x62; x63; x64; x65; x66; x67; x68; x69; x6a] 0
                    ltac:(vm_compute; lia) ltac:(vm_compute; reflexivity)
                    ltac:(vm_compute; reflexivity))
             ltac:(vm_compute; reflexivity) ltac:(vm_compute; reflexivity)
             ltac:(vm_compute; lia)).
  split; vm_compute; reflexivity.
Defined.

(** ** The file, cut in blocks *)

Lemma blocks_fuel_enough fuel :
  forall d fuel',
    length d <= fuel -> length d <= fuel' ->
    blocks_fuel fuel d = blocks_fuel fuel' d.
Proof.
  induction fuel as [|fuel IH]; intros d fuel' H1 H2.
  - destruct d; [|cbn in H1; change (length (b :: d)) with (S (length d)) in H1; lia].
    destruct fuel'; reflexivity.
  - destruct fuel' as [|fuel'].
    + destruct d; [reflexivity|].
      change (length (b :: d)) with (S (length d)) in H2; lia.
    + cbn [blocks_fuel].
      destruct (firstn MAX_DATA_LEN d) as [|b bs] eqn:E; [reflexivity|].
      f_equal. 
      assert (Hd : length d <> 0).
      { intros Hz. apply length_zero_iff_nil in Hz. subst d.
        unfold MAX_DATA_LEN in E. discriminate E. }
      apply IH; rewrite length_skipn; unfold MAX_DATA_LEN; lia.
Qed.

Lemma blocks_unfold d :
  blocks d
  = match firstn MAX_DATA_LEN d with
    | [] => []
    | b :: bs => (b :: bs) :: blocks (skipn MAX_DATA_LEN d)
    end.
Proof.
  unfold blocks. destruct d as [|x d'] eqn:Ed; [reflexivity|].
  change (length (x :: d')) with (S (length d')). cbn [blocks_fuel].
  destruct (firstn MAX_DATA_LEN (x :: d')) as [|b bs]; [reflexivity|].
  f_equal. apply blocks_fuel_enough.
  - rewrite length_skipn. change (length (x :: d')) with (S (length d')).
    unfold MAX_DATA_LEN. lia.
  - lia.
Qed.

Lemma blocks_fuel_concat fuel :
  forall d, length d <= fuel -> concat (blocks_fuel fuel d) = d.
Proof.
  induction fuel as [|fuel IH]; intros d Hd.
  - destruct d; [reflexivity|].
    change (length (b :: d)) with (S (length d)) in Hd; lia.
  - cbn [blocks_fuel].
    destruct (firstn MAX_DATA_LEN d) as [|b bs] eqn:E.
    + destruct d; [reflexivity|discriminate E].
    + cbn [concat]. rewrite IH.
      * rewrite <- E. apply firstn_skipn.
      * assert (Hnz : length d <> 0).
        { intros Hz. apply length_zero_iff_nil in Hz. subst d. discriminate E. }
        rewrite length_skipn. unfold MAX_DATA_LEN. lia.
Qed.

Lemma blocks_fuel_sizes fuel :
  forall d,
    Forall (fun b => 1 <= length b <= MAX_DATA_LEN) (blocks_fuel fuel d).
Proof.
  induction fuel as [|fuel IH]; intros d; [constructor|].
  cbn [blocks_fuel].
  destruct (firstn MAX_DATA_LEN d) as [|b bs] eqn:E; constructor.
  - rewrite <- E. split.
    + rewrite E. change (length (b :: bs)) with (S (length bs)). lia.
    + rewrite length_firstn. lia.
  - apply IH.
Qed.

Lemma skipn_length_firstn {A} n (l : list A) :
  skipn (length (firstn n l)) l = skipn n l.
Proof.
  rewrite length_firstn.
  destruct (Nat.le_ge_cases n (length l)) as [H|H].
  - rewrite Nat.min_l by exact H. reflexivity.
  - rewrite Nat.min_r by exact H.
    rewrite skipn_all. symmetry. apply skipn_all2. exact H.
Qed.

Lemma block_calls_ext h h' bt bs :
  send_raw h = send_raw h' ->
  on_progress h = on_progress h' ->
  _file_size h = _file_size h' ->
  block_calls h bt bs = block_calls h' bt bs.
Proof.
  intros H1 H2 H3. revert bt.
  induction bs as [|b bs IH]; intros bt; [reflexivity|].
  cbn [block_calls]. rewrite H1, H2, H3, IH. reflexivity.
Qed.

Ltac block_calls_same :=
  match goal with
  | |- context [block_calls ?h1 ?b ?l] =>
      match goal with
      | |- context [block_calls ?h2 b l] =>
          lazymatch h1 with h2 => fail | _ => idtac end;
          rewrite (block_calls_ext h1 h2 b l eq_refl eq_refl eq_refl)
      end
  end.

(** The loop of [_send_data_loop], with the calls it makes. *)
Lemma send_data_loop_fuel_calls fuel :
  forall c p h,
    _file_handle h = Some (Reader c p) ->
    state h = S_DATA ->
    length c - p < fuel ->
    _send_data_loop_fuel fuel h
    = (Ok tt,
       with_timer true
         (with_state S_EOF
            (with_file_handle None
               (with_bytes_transferred
                  (_bytes_transferred h + Z.of_nat (length c - p)) h))),
       block_calls h (_bytes_transferred h) (blocks (skipn p c))
       ++ [EClose] ++ sent h EF_packet (lit "EF (End of File)")).
Proof.
  induction fuel as [|fuel IH]; intros c p h Hfh Hst Hfuel; [lia|].
  destruct_handler h. cbn in Hfh, Hst. subst fh st.
  cbn [_send_data_loop_fuel]. rewrite blocks_unfold. unfold MAX_DATA_LEN.
  destruct (firstn 250 (skipn p c)) as [|d ds] eqn:Edata.
  - assert (Hz : length c - p = 0) by (eapply firstn_skipn_nil; [|eassumption]; lia).
    rewrite Hz. munfold. unfold MAX_DATA_LEN. rewrite Edata. munfold.
    rewrite Z.add_0_r.
    destruct tm, sr, oe; reflexivity.
  - assert (Hlen : length (d :: ds) <= 250 /\ length (d :: ds) <= length c - p
                   /\ 0 < length (d :: ds)).
    { assert (Hl : length (d :: ds) = Nat.min 250 (length c - p))
        by (rewrite <- Edata, length_firstn, length_skipn; reflexivity).
      change (length (d :: ds)) with (S (length ds)) in *.
      revert Hl. generalize (length c - p). lia. }
    destruct Hlen as (H250 & Hrem & Hpos).
    assert (Hltb : (length (d :: ds) <? 256) = true) by (apply Nat.ltb_lt; lia).
    assert (H255 : length (d :: ds) <= 255) by lia.
    assert (Hskip : skipn 250 (skipn p c) = skipn (p + length (d :: ds)) c).
    { rewrite <- Edata, Nat.add_comm, <- skipn_skipn.
      symmetry. apply skipn_length_firstn. }
    munfold. unfold MAX_DATA_LEN. rewrite Edata. munfold.
    rewrite Hltb, (byte_of_len_len_byte _ H255). munfold.
    match goal with
    | |- context [_send_data_loop_fuel fuel ?h'] =>
        rewrite (IH c (p + length (d :: ds)) h' eq_refl eq_refl ltac:(lia))
    end.
    munfold. rewrite Hskip.
    replace (bt + Z.of_nat (length (d :: ds))
             + Z.of_nat (length c - (p + length (d :: ds))))%Z
      with (bt + Z.of_nat (length c - p))%Z by lia.
    cbn [block_calls].
    block_calls_same.
    unfold sent, logged, wire. munfold.
    destruct sr, op; reflexivity.
Qed.

Lemma receive_file_step os h k rest c p :
  k = RF \/ k = RT ->
  state_in (state h) [S_INIT; S_HEADER] = true ->
  _file_handle h = Some (Reader c p) ->
  _rx_buf h = wire k [] ++ rest ->
  decode_step os h
  = (Ok true,
     with_timer true
       (with_state S_EOF
          (with_file_handle None
             (with_bytes_transferred
                (_bytes_transferred h + Z.of_nat (length c - p))
                (with_rx_buf rest h)))),
     logged h RECEIVED (received_message k [])
     ++ (match k with RF => logged h INFO (lit "Sending data...") | _ => [] end)
     ++ block_calls h (_bytes_transferred h) (blocks (skipn p c))
     ++ [EClose] ++ sent h EF_packet (lit "EF (End of File)")).
Proof.
  intros Hk Hst Hfh Hbuf.
  destruct_handler h. cbn in Hst, Hfh, Hbuf. subst fh buf.
  destruct Hk; subst k;
    destruct st; try discriminate Hst; destruct tm;
    unfold_step; munfold; cbn; munfold; unfold _send_data_loop; munfold;
    match goal with
    | |- context [_send_data_loop_fuel ?f ?h'] =>
        rewrite (send_data_loop_fuel_calls f c p h' eq_refl eq_refl
                   ltac:(unfold unread; cbn; lia))
    end;
    munfold; block_calls_same;
    unfold sent, logged; munfold; destruct oe; cbn [app];
    rewrite ?app_nil_r; reflexivity.
Qed.

(** X14.  ReceiveFile (or the YappC request, which is taken for it) in
    S_INIT or S_HEADER makes the sender send the whole rest of the file at
    once: one Data packet per block read, each followed by a progress call,
    then the file is closed and EndOfFile is sent; the sender waits in S_EOF
    with the timer armed and the counter advanced by the bytes sent.  The
    blocks have between 1 and 250 bytes and, put end to end, are the bytes of
    the file from the read position on. *)
Theorem receive_file_sends_the_file :
  forall (os : OS) (h : YappHandler) (k : Kind) (rest c : bytes) (p : nat),
    k = RF \/ k = RT ->
    state_in (state h) [S_INIT; S_HEADER] = true ->
    _file_handle h = Some (Reader c p) ->
    _rx_buf h = wire k [] ++ rest ->
    decode_step os h
    = (Ok true,
       with_timer true
         (with_state S_EOF
            (with_file_handle None
               (with_bytes_transferred
                  (_bytes_transferred h + Z.of_nat (length c - p))
                  (with_rx_buf rest h)))),
       logged h RECEIVED (received_message k [])
       ++ (match k with RF => logged h INFO (lit "Sending data...") | _ => [] end)
       ++ block_calls h (_bytes_transferred h) (blocks (skipn p c))
       ++ [EClose] ++ sent h EF_packet (lit "EF (End of File)"))
    /\ concat (blocks (skipn p c)) = skipn p c
    /\ Forall (fun b => 1 <= length b <= MAX_DATA_LEN) (blocks (skipn p c)).
Proof.
  intros os h k rest c p Hk Hst Hfh Hbuf. split; [|split].
  - apply receive_file_step; assumption.
  - apply blocks_fuel_concat. lia.
  - apply blocks_fuel_sizes.
Qed.

(** A closed instance: ReceiveFile received after the Header of [a.txt]; the
    ten bytes of the file leave in one Data packet, followed by EndOfFile. *)
Lemma receive_file_sends_the_file_witness :
  sent_packets
    (trace (decode_step example_os
              (with_rx_buf (wire RF [] ++ [])
                 (with_state S_HEADER sender_started))))
  = [wire DT [x61; x62; x63; x64; x65; x66; x67; x68; x69; x6a]; EF_packet]
  /\ state (final (decode_step example_os
                     (with_rx_buf (wire RF [] ++ [])
                        (with_state S_HEADER sender_started)))) = S_EOF.
Proof.
  destruct (receive_file_sends_the_file example_os
              (with_rx_buf (wire RF [] ++ [])
                 (with_state S_HEADER sender_started))
              RF [] [x61; x62; x63; x64; x65; x66; x67; x68; x69; x6a] 0
              (or_introl eq_refl) ltac:(vm_compute; reflexivity)
              ltac:(vm_compute; reflexivity) ltac:(vm_compute; reflexivity))
    as (E & _ & _).
  rewrite E. split; vm_compute; reflexivity.
Defined.

(** ** The receiver *)

(** X15.  In R_WAIT and R_HEADER the receiver answers SendInit with
    ReceiveReady and waits for the Header in R_HEADER, the timer armed;
    EndOfTransmission is answered with AckEndOfTransmission and ends the
    session in DONE with [on_finished(True, "Transfer complete (no files)")],
    also when a file has just been received. *)
Theorem receiver_control_packets :
  forall (os : OS) (h : YappHandler) (rest : bytes),
    state_in (state h) [R_WAIT; R_HEADER] = true ->
    (_rx_buf h = SI_packet ++ rest ->
     decode_step os h
     = (Ok true,
        with_timer true (with_state R_HEADER (with_rx_buf rest h)),
        logged h RECEIVED (lit "SI (Send Init)")
        ++ sent h RR_packet (lit "RR (Receive Ready)")))
    /\ (_rx_buf h = ET_packet ++ rest ->
        decode_step os h
        = (Ok true,
           finished true (with_rx_buf rest h),
           logged h RECEIVED (lit "ET (End of Transmission)")
           ++ sent h AT_packet (lit "AT (Ack End of Transmission)")
           ++ finish_calls true (lit "Transfer complete (no files)") h)).
Proof.
  intros os h rest Hst. destruct_handler h. cbn in Hst |- *.
  split; intros ->;
    destruct st; try discriminate Hst; destruct tm;
    unfold_step; munfold; cbn; munfold;
    destruct fh, sr, oe, ofn; reflexivity.
Qed.

(** A closed instance: SendInit received by a waiting receiver. *)
Lemma receiver_control_packets_witness :
  decode_step example_os
    (with_rx_buf (SI_packet ++ []) (with_state R_WAIT example_handler))
  = (Ok true,
     with_timer true
       (with_state R_HEADER
          (with_rx_buf []
             (with_rx_buf (SI_packet ++ [])
                (with_state R_WAIT example_handler)))),
     logged (with_rx_buf (SI_packet ++ []) (with_state R_WAIT example_handler))
       RECEIVED (lit "SI (Send Init)")
     ++ sent (with_rx_buf (SI_packet ++ []) (with_state R_WAIT example_handler))
          RR_packet (lit "RR (Receive Ready)")).
Proof.
  refine (proj1 (receiver_control_packets example_os
                   (with_rx_buf (SI_packet ++ [])
                      (with_state R_WAIT example_handler)) [] _) _).
  - vm_compute. reflexivity.
  - vm_compute. reflexivity.
Defined.

(** ** Headers *)

(** X16.  A Header whose payload has at least two NUL-separated fields, the
    first not empty, is accepted in R_WAIT and R_HEADER when the file
    [os.path.join(download_dir, name)] can be opened for writing: the name
    is the first field decoded, the size the decimal number of the second
    field (0 when it is no number), the counter is 0, ReceiveFile is sent
    and the receiver is in R_DATA.  The timer, stopped when the packet came
    in, is not armed in R_DATA. *)
Theorem header_accepted :
  forall (os : OS) (h : YappHandler) (payload rest p0 p1 : bytes)
         (ps : list bytes) (answers : list (option Exn)),
    state_in (state h) [R_WAIT; R_HEADER] = true ->
    length payload <= 255 ->
    _rx_buf h = wire HD payload ++ rest ->
    split_nul payload = p0 :: p1 :: ps ->
    p0 <> [] ->
    open_wb os (os_path_join os (_download_dir h) (decode_ascii p0))
    = inr answers ->
    let size := match int_of_str (decode_ascii p1) with
                | Some n => n
                | None => 0%Z
                end in
    decode_step os h
    = (Ok true,
       with_state R_DATA
         (with_bytes_transferred 0
            (with_file_handle (Some (Writer answers))
               (with_file_size size
                  (with_filename (decode_ascii p0)
                     (with_timer false (with_rx_buf rest h)))))),
       logged h RECEIVED (lit "HD (Header) file=" ++ decode_ascii p0
                          ++ lit " size=" ++ str_of_int size)
       ++ sent h RF_packet (lit "RF (Receive File)")
       ++ logged h INFO (lit "Receiving " ++ decode_ascii p0 ++ lit "...")).
Proof.
  intros os h payload rest p0 p1 ps answers Hst Hlen Hbuf Hsplit Hne Hopen size.
  rewrite (header_step os h payload rest p0 p1 ps Hst Hlen Hbuf Hsplit).
  destruct h; cbn in *. 
  destruct p0 as [|c p0']; [congruence|].
  change (decode_ascii (c :: p0'))
    with ((if (Byte.to_N c <? 128)%N then Byte.to_N c else 65533%N)
          :: decode_ascii p0') in *.
  cbv beta iota zeta. rewrite Hopen. reflexivity.
Qed.

(** A closed instance: the Header "a", NUL, "12", NUL. *)
Lemma header_accepted_witness :
  state (final (decode_step example_os
                  (with_rx_buf (wire HD [x61; x00; x31; x32; x00] ++ [])
                     (with_state R_HEADER example_handler)))) = R_DATA
  /\ _filename (final (decode_step example_os
                         (with_rx_buf (wire HD [x61; x00; x31; x32; x00] ++ [])
                            (with_state R_HEADER example_handler))))
     = lit "a"
  /\ _file_size (final (decode_step example_os
                          (with_rx_buf (wire HD [x61; x00; x31; x32; x00] ++ [])
                             (with_state R_HEADER example_handler))))
     = 12%Z.
Proof.
  rewrite (header_accepted example_os
             (with_rx_buf (wire HD [x61; x00; x31; x32; x00] ++ [])
                (with_state R_HEADER example_handler))
             [x61; x00; x31; x32; x00] [] [x61] [x31; x32] [[]] []
             ltac:(vm_compute; reflexivity) ltac:(vm_compute; lia)
             ltac:(vm_compute; reflexivity) ltac:(vm_compute; reflexivity)
             ltac:(discriminate) ltac:(vm_compute; reflexivity)).
  repeat split.
Defined.

(** X17.  A Header is refused, with a NotReady packet and the session
    finished in ERROR, when its first field is empty (reason "Invalid
    filename") and when the file cannot be opened (reason "Cannot create
    file: <error>", as long as that text fits in a packet). *)
Theorem header_rejected :
  forall (os : OS) (h : YappHandler) (payload rest p0 p1 : bytes)
         (ps : list bytes),
    state_in (state h) [R_WAIT; R_HEADER] = true ->
    length payload <= 255 ->
    _rx_buf h = wire HD payload ++ rest ->
    split_nul payload = p0 :: p1 :: ps ->
    let size := match int_of_str (decode_ascii p1) with
                | Some n => n
                | None => 0%Z
                end in
    let h1 := with_file_size size
                (with_filename (decode_ascii p0)
                   (with_timer false (with_rx_buf rest h))) in
    let received :=
      logged h RECEIVED (lit "HD (Header) file=" ++ decode_ascii p0
                         ++ lit " size=" ++ str_of_int size) in
    (p0 = [] ->
     decode_step os h
     = (Ok true, finished false h1,
        received
        ++ sent h (wire NR (encode_ascii (lit "Invalid filename")))
             (lit "NR (Not Ready) Invalid filename")
        ++ finish_calls false (lit "Invalid filename in header") h))
    /\ (forall e : Exn,
          p0 <> [] ->
          open_wb os (os_path_join os (_download_dir h) (decode_ascii p0))
          = inl e ->
          length (encode_ascii (lit "Cannot create file: " ++ exn_str e))
          <= 255 ->
          decode_step os h
          = (Ok true, finished false h1,
             received
             ++ sent h (wire NR (encode_ascii (lit "Cannot create file: "
                                               ++ exn_str e)))
                  (lit "NR (Not Ready) Cannot create file: " ++ exn_str e)
             ++ finish_calls false
                  (lit "Cannot create file: " ++ exn_str e) h)).
Proof.
  intros os h payload rest p0 p1 ps Hst Hlen Hbuf Hsplit size h1 received.
  subst size h1 received.
  rewrite (header_step os h payload rest p0 p1 ps Hst Hlen Hbuf Hsplit).
  split.
  - intros ->. destruct h; reflexivity.
  - intros e Hne Hopen Hmsg.
    destruct h; cbn in *.
    destruct p0 as [|c p0']; [congruence|].
    change (decode_ascii (c :: p0'))
      with ((if (Byte.to_N c <? 128)%N then Byte.to_N c else 65533%N)
            :: decode_ascii p0') in *.
    cbv beta iota zeta. rewrite Hopen.
    rewrite (byte_of_len_len_byte _ Hmsg). reflexivity.
Qed.

(** A closed instance: a Header whose name is empty. *)
Lemma header_rejected_witness :
  sent_packets
    (trace (decode_step example_os
              (with_rx_buf (wire HD [x00; x31; x00] ++ [])
                 (with_state R_HEADER example_handler))))
  = [wire NR (encode_ascii (lit "Invalid filename"))]
  /\ finished_calls
       (trace (decode_step example_os
                 (with_rx_buf (wire HD [x00; x31; x00] ++ [])
                    (with_state R_HEADER example_handler))))
     = [(false, lit "Invalid filename in header")].
Proof.
  rewrite (proj1 (header_rejected example_os
                    (with_rx_buf (wire HD [x00; x31; x00] ++ [])
                       (with_state R_HEADER example_handler))
                    [x00; x31; x00] [] [] [x31] [[]]
                    ltac:(vm_compute; reflexivity) ltac:(vm_compute; lia)
                    ltac:(vm_compute; reflexivity)
                    ltac:(vm_compute; reflexivity))
             eq_refl).
  split; vm_compute; reflexivity.
Defined.

(** X18.  The Header that [_send_header] builds for a file name of ASCII
    characters other than NUL and a size is read back by the receiver with
    the same name and the same size: the payload has the fields name, size
    in decimal and an empty third one, and a receiver in R_WAIT or R_HEADER
    that can open the file ends in R_DATA with that name and that size. *)
Theorem header_round_trip :
  forall (os : OS) (h : YappHandler) (name : str) (size : Z) (rest : bytes)
         (answers : list (option Exn)),
    name <> [] ->
    Forall (fun c => (0 < c < 128)%N) name ->
    length (header_payload name size) <= 255 ->
    state_in (state h) [R_WAIT; R_HEADER] = true ->
    _rx_buf h = wire HD (header_payload name size) ++ rest ->
    open_wb os (os_path_join os (_download_dir h) name) = inr answers ->
    split_nul (header_payload name size)
    = [encode_ascii name; encode_ascii (str_of_int size); []]
    /\ decode_step os h
       = (Ok true,
          with_state R_DATA
            (with_bytes_transferred 0
               (with_file_handle (Some (Writer answers))
                  (with_file_size size
                     (with_filename name
                        (with_timer false (with_rx_buf rest h)))))),
          logged h RECEIVED (lit "HD (Header) file=" ++ name
                             ++ lit " size=" ++ str_of_int size)
          ++ sent h RF_packet (lit "RF (Receive File)")
          ++ logged h INFO (lit "Receiving " ++ name ++ lit "...")).
Proof.
  intros os h name size rest answers Hne Hname Hlen Hst Hbuf Hopen.
  pose proof (split_nul_header_payload name size Hname) as Hsplit.
  split; [exact Hsplit|].
  pose proof (decode_encode_ascii name (Forall_lt_128 name Hname)) as Hdn.
  pose proof (decode_encode_ascii (str_of_int size)
                (Forall_lt_128 _ (str_of_int_chars size))) as Hds.
  rewrite (header_step os h _ rest _ _ _ Hst Hlen Hbuf Hsplit).
  rewrite Hdn, Hds, int_of_str_of_int.
  destruct h; cbn in *.
  destruct name as [|c name']; [congruence|].
  cbv beta iota zeta. rewrite Hopen. reflexivity.
Qed.

(** A closed instance: the Header of [a.txt], ten bytes, as the sender
    builds it. *)
Lemma header_round_trip_witness :
  _filename (final (decode_step example_os
                      (with_rx_buf
                         (wire HD (header_payload (lit "a.txt") 10) ++ [])
                         (with_state R_HEADER example_handler))))
  = lit "a.txt"
  /\ _file_size (final (decode_step example_os
                          (with_rx_buf
                             (wire HD (header_payload (lit "a.txt") 10) ++ [])
                             (with_state R_HEADER example_handler))))
     = 10%Z.
Proof.
  destruct (header_round_trip example_os
              (with_rx_buf (wire HD (header_payload (lit "a.txt") 10) ++ [])
                 (with_state R_HEADER example_handler))
              (lit "a.txt") 10 [] []
              ltac:(discriminate)
              ltac:(vm_compute; repeat constructor)
              ltac:(vm_compute; lia)
              ltac:(vm_compute; reflexivity)
              ltac:(vm_compute; reflexivity)
              ltac:(vm_compute; reflexivity)) as [_ E].
  rewrite E. split; reflexivity.
Defined.

(** ** Receiving the data *)

Lemma data_stream_cons p ps rest :
  data_stream (p :: ps) ++ rest
  = STX :: len_byte (length p) :: p ++ (data_stream ps ++ rest).
Proof.
  unfold data_stream. cbn [map concat wire app].
  rewrite <- app_assoc. reflexivity.
Qed.

Lemma with_unchanged h :
  with_bytes_transferred (_bytes_transferred h)
    (with_file_handle (_file_handle h) (with_rx_buf (_rx_buf h) h)) = h.
Proof. destruct h; reflexivity. Qed.

(** A buffer that starts with Data packets: their payloads are written in
    order, then the rest of the buffer is processed. *)
Lemma receive_stream os payloads :
  forall h rest answers,
    state h = R_DATA ->
    _file_handle h = Some (Writer answers) ->
    Forall (fun a => a = None) (firstn (length payloads) answers) ->
    Forall (fun p => 1 <= length p <= 255) payloads ->
    _rx_buf h = data_stream payloads ++ rest ->
    _process_buffer os h
    = (let '(o, h', t) :=
         _process_buffer os
           (with_bytes_transferred
              (_bytes_transferred h + Z.of_nat (length (concat payloads)))
              (with_file_handle
                 (Some (Writer (skipn (length payloads) answers)))
                 (with_rx_buf rest h))) in
       (o, h',
        receipt (on_progress h) (_bytes_transferred h) (_file_size h) payloads
        ++ t)).
Proof.
  induction payloads as [|p ps IH]; intros h rest answers Hst Hfh Hans Hlen Hbuf.
  - change (data_stream [] ++ rest) with rest in Hbuf.
    change (length (concat [])) with 0. change (Z.of_nat 0) with 0%Z.
    rewrite Z.add_0_r. change (skipn _ answers) with answers.
    rewrite <- Hfh, <- Hbuf, with_unchanged.
    destruct (_process_buffer os h) as [[o h'] t]. reflexivity.
  - rewrite data_stream_cons in Hbuf.
    inversion Hlen as [|? ? Hp Hps]; subst.
    assert (Hl : length p = data_len (len_byte (length p)))
      by (symmetry; apply data_len_len_byte; exact Hp).
    change (length (p :: ps)) with (S (length ps)) in Hans.
    assert (Hhd : hd None answers = None /\
                  Forall (fun a => a = None) (firstn (length ps) (tl answers))).
    { destruct answers as [|a answers']; [split; [reflexivity|]|].
      - change (tl []) with (@nil (option Exn)).
        destruct (length ps); constructor.
      - change (firstn (S (length ps)) (a :: answers'))
          with (a :: firstn (length ps) answers') in Hans.
        inversion Hans; subst. split; [reflexivity|assumption]. }
    destruct Hhd as [Hhd Htl].
    rewrite process_buffer_unfold.
    rewrite (data_step os h _ p _ answers Hst Hbuf Hl Hfh Hhd).
    rewrite <- Hl.
    match goal with
    | |- context [_process_buffer os ?h1] =>
        rewrite (IH h1 rest (tl answers))
    end; [|destruct h; exact Hst|destruct h; reflexivity|exact Htl|exact Hps
         |destruct h; reflexivity].
    replace (skipn (length (p :: ps)) answers)
      with (skipn (length ps) (tl answers))
      by (destruct answers; [destruct (length ps)|]; reflexivity).
    change (concat (p :: ps)) with (p ++ concat ps). rewrite length_app.
    destruct h; munfold.
    replace (_bytes_transferred0 + Z.of_nat (length p + length (concat ps)))%Z
      with (_bytes_transferred0 + Z.of_nat (length p)
            + Z.of_nat (length (concat ps)))%Z by lia.
    match goal with
    | |- context [_process_buffer os ?h1] =>
        destruct (_process_buffer os h1) as [[o h'] t]
    end.
    cbn [receipt]. destruct on_progress0; reflexivity.
Qed.

Lemma written_receipt progress bt total payloads :
  written (receipt progress bt total payloads) = payloads.
Proof.
  revert bt. induction payloads as [|p ps IH]; intros bt; [reflexivity|].
  cbn [receipt]. unfold written in *. cbn [flat_map app].
  rewrite flat_map_app, IH. destruct progress; reflexivity.
Qed.

(** X19.  In R_DATA with the file open and its writes succeeding, a delivery
    made of Data packets (payloads of 1 to 255 bytes), followed by at most
    one more byte, writes the payloads to the file in the order of arrival,
    reports the progress after each and adds their lengths to the counter;
    nothing is sent back, the state stays R_DATA and the odd byte waits in
    the buffer. *)
Theorem data_packets_written_in_order :
  forall (os : OS) (h : YappHandler) (payloads : list bytes) (rest : bytes)
         (answers : list (option Exn)),
    state h = R_DATA ->
    _rx_buf h = [] ->
    _file_handle h = Some (Writer answers) ->
    Forall (fun a => a = None) (firstn (length payloads) answers) ->
    Forall (fun p => 1 <= length p <= 255) payloads ->
    length rest < 2 ->
    process_data os (data_stream payloads ++ rest) h
    = (Ok tt,
       with_bytes_transferred
         (_bytes_transferred h + Z.of_nat (length (concat payloads)))
         (with_file_handle (Some (Writer (skipn (length payloads) answers)))
            (with_rx_buf rest h)),
       receipt (on_progress h) (_bytes_transferred h) (_file_size h) payloads)
    /\ written (receipt (on_progress h) (_bytes_transferred h) (_file_size h)
                  payloads) = payloads.
Proof.
  intros os h payloads rest answers Hst Hbuf Hfh Hans Hlen Hrest.
  split; [|apply written_receipt].
  rewrite (process_data_active os _ h) by (rewrite Hst; discriminate).
  rewrite Hbuf. change ([] ++ data_stream payloads ++ rest)
    with (data_stream payloads ++ rest).
  rewrite (receive_stream os payloads _ rest answers);
    [|destruct h; exact Hst|destruct h; exact Hfh|exact Hans|exact Hlen
     |destruct h; reflexivity].
  rewrite process_buffer_short by (destruct h; exact Hrest).
  rewrite app_nil_r. destruct h; reflexivity.
Qed.

(** A closed instance: two Data packets, "ab" and "c", in one delivery. *)
Lemma data_packets_written_in_order_witness :
  process_data example_os (data_stream [[x61; x62]; [x63]] ++ [])
    (receiving [])
  = (Ok tt,
     with_bytes_transferred
       (_bytes_transferred (receiving [])
        + Z.of_nat (length (concat [[x61; x62]; [x63]])))
       (with_file_handle
          (Some (Writer (skipn (length [[x61; x62]; [x63]]) [])))
          (with_rx_buf [] (receiving []))),
     receipt (on_progress (receiving [])) (_bytes_transferred (receiving []))
       (_file_size (receiving [])) [[x61; x62]; [x63]])
  /\ written (receipt (on_progress (receiving []))
                (_bytes_transferred (receiving []))
                (_file_size (receiving [])) [[x61; x62]; [x63]])
     = [[x61; x62]; [x63]].
Proof.
  refine (data_packets_written_in_order example_os (receiving [])
            [[x61; x62]; [x63]] [] [] _ _ _ _ _ _).
  - vm_compute. reflexivity.
  - vm_compute. reflexivity.
  - vm_compute. reflexivity.
  - vm_compute. constructor.
  - repeat constructor; vm_compute; lia.
  - vm_compute. lia.
Defined.



(** X21.  In R_DATA, when the file closes without error, EndOfFile closes
    it, is answered with AckEndOfFile and takes the receiver back to
    R_HEADER, the timer armed, for a next file; EndOfTransmission closes it,
    is answered with AckEndOfTransmission and ends the session in DONE with
    [on_finished(True, "Received <name> (<n> bytes)")], [n] being the bytes
    counted.  When [close] raises, the exception leaves the method: the
    packet has been consumed and reported, but nothing is sent back, the
    receiver stays in R_DATA and the file object stays in its field. *)
Theorem receiver_end_of_file :
  forall (os : OS) (h : YappHandler) (rest : bytes),
    state h = R_DATA ->
    (close_answer h = None ->
     (_rx_buf h = EF_packet ++ rest ->
      decode_step os h
      = (Ok true,
         with_timer true
           (with_state R_HEADER (with_file_handle None (with_rx_buf rest h))),
         logged h RECEIVED (lit "EF (End of File)")
         ++ closed h
         ++ sent h AF_packet (lit "AF (Ack End of File)")
         ++ logged h SUCCESS
              (lit "File received: " ++ _filename h ++ lit " ("
               ++ str_of_int (_bytes_transferred h) ++ lit " bytes)")))
     /\ (_rx_buf h = ET_packet ++ rest ->
         decode_step os h
         = (Ok true, finished true (with_rx_buf rest h),
            logged h RECEIVED (lit "ET (End of Transmission)")
            ++ closed h
            ++ sent h AT_packet (lit "AT (Ack End of Transmission)")
            ++ finish_calls true
                 (lit "Received " ++ _filename h ++ lit " ("
                  ++ str_of_int (_bytes_transferred h) ++ lit " bytes)")
                 (with_file_handle None h))))
    /\ (forall (e : Exn) (answers : list (option Exn)),
          _file_handle h = Some (Writer (Some e :: answers)) ->
          (_rx_buf h = EF_packet ++ rest ->
           decode_step os h
           = (Raise e,
              with_file_handle (Some (Writer answers)) (with_rx_buf rest h),
              logged h RECEIVED (lit "EF (End of File)") ++ [EClose]))
          /\ (_rx_buf h = ET_packet ++ rest ->
              decode_step os h
              = (Raise e,
                 with_file_handle (Some (Writer answers)) (with_rx_buf rest h),
                 logged h RECEIVED (lit "ET (End of Transmission)")
                 ++ [EClose]))).
Proof.
  intros os h rest Hst. destruct_handler h. cbn in Hst |- *. subst st.
  split.
  - intros Hclose.
    destruct fh as [[c p|[|[e'|] a]]|]; try discriminate Hclose;
      (split; intros ->; destruct tm; unfold_step; munfold; cbn; munfold;
       destruct sr, oe, ofn; reflexivity).
  - intros e answers ->.
    split; intros ->; destruct tm; unfold_step; munfold; cbn; munfold;
      destruct oe; reflexivity.
Qed.

(** A closed instance: EndOfFile received in R_DATA, the file closing
    without error. *)
Lemma receiver_end_of_file_witness :
  state (final (decode_step example_os (receiving (EF_packet ++ []))))
  = R_HEADER
  /\ sent_packets (trace (decode_step example_os (receiving (EF_packet ++ []))))
     = [AF_packet]
  /\ _file_handle (final (decode_step example_os (receiving (EF_packet ++ []))))
     = None.
Proof.
  rewrite (proj1 (proj1 (receiver_end_of_file example_os
                           (receiving (EF_packet ++ [])) []
                           ltac:(vm_compute; reflexivity))
                    ltac:(vm_compute; reflexivity))
             ltac:(vm_compute; reflexivity)).
  repeat split.
Defined.

(** ** Starting a transfer *)

Lemma start_send_ok os h filepath n content :
  state h = IDLE ->
  os_path_exists os filepath = true ->
  os_path_getsize os filepath = inr n ->
  open_rb os filepath = inr content ->
  start_send os filepath h
  = (Ok (true, lit "Sending " ++ os_path_basename os filepath),
     with_timer true
       (with_rx_buf []
          (with_state S_INIT
             (with_si_retries 0
                (with_bytes_transferred 0
                   (with_file_handle (Some (Reader content 0))
                      (with_file_size n
                         (with_filename (os_path_basename os filepath)
                            h))))))),
     logged h INFO
       (lit "Starting send: " ++ os_path_basename os filepath
        ++ lit " (" ++ str_of_int n ++ lit " bytes)")
     ++ sent h SI_packet (lit "SI (Send Init)")).
Proof.
  intros Hst Hex Hsz Hop. destruct_handler h. cbn in Hst. subst st.
  unfold start_send. munfold. rewrite Hex, Hsz. munfold. rewrite Hop.
  destruct tm; munfold; destruct sr, oe; reflexivity.
Qed.

Lemma start_receive_ok os h download_dir :
  state h = IDLE ->
  os_makedirs os download_dir = None ->
  start_receive os download_dir h
  = (Ok (true, lit "Waiting for file transfer"),
     with_timer true
       (with_state R_WAIT
          (with_file_size 0
             (with_filename []
                (with_bytes_transferred 0
                   (with_rx_buf []
                      (with_download_dir download_dir h)))))),
     logged h INFO (lit "Waiting for sender (SI)...")).
Proof.
  intros Hst Hmk. destruct_handler h. cbn in Hst. subst st.
  unfold start_receive. munfold. rewrite Hmk.
  destruct tm; munfold; destruct oe; reflexivity.
Qed.

(** X22.  [start_send] in IDLE: a path that does not exist is refused with
    "File not found: <path>" and nothing changes; when the size cannot be
    read or the file cannot be opened the handler is reset and the answer is
    [(False, "Error: <error>")]; otherwise the file is open at its start,
    name and size are recorded, counter and retries are 0, the buffer is
    empty, SendInit is sent, the timer is armed and the state is S_INIT. *)
Theorem start_send_outcomes :
  forall (os : OS) (h : YappHandler) (filepath : str),
    state h = IDLE ->
    (os_path_exists os filepath = false ->
     start_send os filepath h
     = (Ok (false, lit "File not found: " ++ filepath), h, []))
    /\ (forall e : Exn,
          os_path_exists os filepath = true ->
          os_path_getsize os filepath = inl e
          \/ (exists n, os_path_getsize os filepath = inr n)
             /\ open_rb os filepath = inl e ->
          start_send os filepath h
          = (Ok (false, lit "Error: " ++ exn_str e),
             with_download_dir (_download_dir h)
               (__init__ (send_raw h) (on_progress h) (on_event h)
                  (on_finished h) (on_rx_data h)),
             closed h))
    /\ (forall (n : Z) (content : bytes),
          os_path_exists os filepath = true ->
          os_path_getsize os filepath = inr n ->
          open_rb os filepath = inr content ->
          start_send os filepath h
          = (Ok (true, lit "Sending " ++ os_path_basename os filepath),
             with_timer true
               (with_rx_buf []
                  (with_state S_INIT
                     (with_si_retries 0
                        (with_bytes_transferred 0
                           (with_file_handle (Some (Reader content 0))
                              (with_file_size n
                                 (with_filename (os_path_basename os filepath)
                                    h))))))),
             logged h INFO
               (lit "Starting send: " ++ os_path_basename os filepath
                ++ lit " (" ++ str_of_int n ++ lit " bytes)")
             ++ sent h SI_packet (lit "SI (Send Init)"))).
Proof.
  intros os h filepath Hst. destruct_handler h. cbn in Hst. subst st.
  split; [|split].
  - intros Hex. unfold start_send. munfold. rewrite Hex. reflexivity.
  - intros e Hex [Hsz|[[n Hsz] Hop]];
      unfold start_send; munfold; rewrite Hex, Hsz; munfold;
      rewrite ?Hop; munfold; destruct tm, fh; reflexivity.
  - intros n content Hex Hsz Hop.
    apply start_send_ok; [reflexivity|assumption..].
Qed.

(** A closed instance: the start of the sending of [a.txt]. *)
Lemma start_send_outcomes_witness :
  start_send example_os (lit "a.txt") example_handler
  = (Ok (true, lit "Sending " ++ os_path_basename example_os (lit "a.txt")),
     with_timer true
       (with_rx_buf []
          (with_state S_INIT
             (with_si_retries 0
                (with_bytes_transferred 0
                   (with_file_handle
                      (Some (Reader [x61; x62; x63; x64; x65; x66; x67; x68;
                                     x69; x6a] 0))
                      (with_file_size 10
                         (with_filename
                            (os_path_basename example_os (lit "a.txt"))
                            example_handler))))))),
     logged example_handler INFO
       (lit "Starting send: " ++ os_path_basename example_os (lit "a.txt")
        ++ lit " (" ++ str_of_int 10 ++ lit " bytes)")
     ++ sent example_handler SI_packet (lit "SI (Send Init)")).
Proof.
  refine (proj2 (proj2 (start_send_outcomes example_os example_handler
                          (lit "a.txt") _))
            10%Z [x61; x62; x63; x64; x65; x66; x67; x68; x69; x6a] _ _ _);
    vm_compute; reflexivity.
Defined.

(** X23.  [start_receive] in IDLE: when the download directory cannot be
    made the exception leaves the method and nothing has changed; otherwise
    the directory is recorded, buffer, counter, name and size are cleared,
    the timer is armed and the receiver waits for SendInit in R_WAIT. *)
Theorem start_receive_outcomes :
  forall (os : OS) (h : YappHandler) (download_dir : str),
    state h = IDLE ->
    (forall e : Exn,
        os_makedirs os download_dir = Some e ->
        start_receive os download_dir h = (Raise e, h, []))
    /\ (os_makedirs os download_dir = None ->
        start_receive os download_dir h
        = (Ok (true, lit "Waiting for file transfer"),
           with_timer true
             (with_state R_WAIT
                (with_file_size 0
                   (with_filename []
                      (with_bytes_transferred 0
                         (with_rx_buf []
                            (with_download_dir download_dir h)))))),
           logged h INFO (lit "Waiting for sender (SI)..."))).
Proof.
  intros os h download_dir Hst. destruct_handler h. cbn in Hst. subst st.
  split.
  - intros e Hmk. unfold start_receive. munfold. rewrite Hmk. reflexivity.
  - intros Hmk. apply start_receive_ok; [reflexivity|assumption].
Qed.

(** A closed instance: a receiver started on the directory [dl]. *)
Lemma start_receive_outcomes_witness :
  start_receive example_os (lit "dl") example_handler
  = (Ok (true, lit "Waiting for file transfer"),
     with_timer true
       (with_state R_WAIT
          (with_file_size 0
             (with_filename []
                (with_bytes_transferred 0
                   (with_rx_buf []
                      (with_download_dir (lit "dl") example_handler)))))),
     logged example_handler INFO (lit "Waiting for sender (SI)...")).
Proof.
  refine (proj2 (start_receive_outcomes example_os example_handler (lit "dl") _)
            _); vm_compute; reflexivity.
Defined.

(** X24.  In S_DATA the sender accepts Text packets only: any other first
    byte (but CAN) makes it drop the whole buffer, send a Cancel packet with
    the reason "Unexpected data during send" and finish in ERROR with
    [on_finished(False, "Protocol error: unexpected data during send")]. *)
Theorem unexpected_data_during_send :
  forall (os : OS) (h : YappHandler) (first second : byte) (rest : bytes),
    state h = S_DATA ->
    _rx_buf h = first :: second :: rest ->
    first <> CAN ->
    first <> DLE ->
    decode_step os h
    = (Ok true, finished false (with_rx_buf [] h),
       sent h (wire CN (encode_ascii (lit "Unexpected data during send")))
         (lit "CN (Cancel) Unexpected data during send")
       ++ finish_calls false
            (lit "Protocol error: unexpected data during send") h).
Proof.
  intros os h first second rest Hst Hbuf Hcan Hdle.
  apply byte_eqb_neq in Hcan, Hdle.
  destruct_handler h. cbn in Hst, Hbuf. subst.
  destruct tm; unfold_step; munfold; rewrite Hcan; munfold; rewrite Hdle;
    munfold; literal_len; munfold; destruct fh, sr, oe, ofn; reflexivity.
Qed.

(** A closed instance: the letters "ab" received in S_DATA. *)
Lemma unexpected_data_during_send_witness :
  decode_step example_os
    (with_rx_buf [x61; x62] (with_state S_DATA example_handler))
  = (Ok true,
     finished false
       (with_rx_buf []
          (with_rx_buf [x61; x62] (with_state S_DATA example_handler))),
     sent (with_rx_buf [x61; x62] (with_state S_DATA example_handler))
       (wire CN (encode_ascii (lit "Unexpected data during send")))
       (lit "CN (Cancel) Unexpected data during send")
     ++ finish_calls false
          (lit "Protocol error: unexpected data during send")
          (with_rx_buf [x61; x62] (with_state S_DATA example_handler))).
Proof.
  refine (unexpected_data_during_send example_os
            (with_rx_buf [x61; x62] (with_state S_DATA example_handler))
            x61 x62 [] _ _ _ _).
  - vm_compute. reflexivity.
  - vm_compute. reflexivity.
  - vm_compute. discriminate.
  - vm_compute. discriminate.
Defined.

(** ** A whole transfer between two handlers *)

(** What the observers of a trace see of the calls of each method. *)
Lemma sent_packets_app t1 t2 :
  sent_packets (t1 ++ t2) = sent_packets t1 ++ sent_packets t2.
Proof. apply flat_map_app. Qed.

Lemma written_app t1 t2 : written (t1 ++ t2) = written t1 ++ written t2.
Proof. apply flat_map_app. Qed.

Lemma finished_calls_app t1 t2 :
  finished_calls (t1 ++ t2) = finished_calls t1 ++ finished_calls t2.
Proof. apply flat_map_app. Qed.

Lemma observe_logged h ev msg :
  sent_packets (logged h ev msg) = []
  /\ written (logged h ev msg) = []
  /\ finished_calls (logged h ev msg) = [].
Proof. unfold logged. destruct (on_event h); repeat split. Qed.

Lemma observe_sent h pkt msg :
  sent_packets (sent h pkt msg) = (if send_raw h then [pkt] else [])
  /\ written (sent h pkt msg) = []
  /\ finished_calls (sent h pkt msg) = [].
Proof.
  unfold sent, logged. destruct (send_raw h), (on_event h); repeat split.
Qed.

Lemma observe_closed h :
  sent_packets (closed h) = []
  /\ written (closed h) = []
  /\ finished_calls (closed h) = [].
Proof. unfold closed. destruct (_file_handle h); repeat split. Qed.

Lemma observe_finish_calls success msg h :
  sent_packets (finish_calls success msg h) = []
  /\ written (finish_calls success msg h) = []
  /\ finished_calls (finish_calls success msg h)
     = (if on_finished h then [(success, msg)] else []).
Proof.
  unfold finish_calls, closed, logged.
  destruct (_file_handle h), (on_event h), (on_finished h); repeat split.
Qed.

Lemma observe_block_calls h bt bs :
  sent_packets (block_calls h bt bs)
  = (if send_raw h then map (wire DT) bs else [])
  /\ finished_calls (block_calls h bt bs) = [].
Proof.
  revert bt. induction bs as [|b bs IH]; intros bt.
  - destruct (send_raw h); split; reflexivity.
  - cbn [block_calls]. destruct (IH (bt + Z.of_nat (length b))%Z) as [IH1 IH2].
    rewrite !sent_packets_app, !finished_calls_app, IH1, IH2.
    destruct (send_raw h), (on_progress h); split; reflexivity.
Qed.

Lemma observe_receipt progress bt total payloads :
  sent_packets (receipt progress bt total payloads) = []
  /\ finished_calls (receipt progress bt total payloads) = [].
Proof.
  revert bt. induction payloads as [|p ps IH]; intros bt; [split; reflexivity|].
  cbn [receipt]. destruct (IH (bt + Z.of_nat (length p))%Z) as [IH1 IH2].
  change (EWrite p :: ?x) with ([EWrite p] ++ x).
  rewrite !sent_packets_app, !finished_calls_app, IH1, IH2.
  destruct progress; split; reflexivity.
Qed.

Lemma observe_close t :
  sent_packets (EClose :: t) = sent_packets t
  /\ written (EClose :: t) = written t
  /\ finished_calls (EClose :: t) = finished_calls t.
Proof. repeat split. Qed.

(** One packet alone in a delivery. *)
Lemma process_data_step os h data b h1 t1 :
  state h <> IDLE ->
  _rx_buf h = [] ->
  decode_step os (with_rx_buf data h) = (Ok b, h1, t1) ->
  length (_rx_buf h1) < 2 ->
  process_data os data h = (Ok tt, h1, t1).
Proof.
  intros Hst Hbuf Hstep Hshort.
  rewrite (process_data_active os data h Hst), Hbuf. cbn [app].
  rewrite process_buffer_unfold, Hstep.
  destruct b; [|reflexivity].
  rewrite (process_buffer_short os h1 Hshort), app_nil_r. reflexivity.
Qed.

(** The eight deliveries of a transfer, each packet (or run of packets)
    alone on the line. *)
Lemma round_send_init os h :
  state_in (state h) [R_WAIT; R_HEADER] = true ->
  _rx_buf h = [] ->
  process_data os SI_packet h
  = (Ok tt, with_timer true (with_state R_HEADER h),
     logged h RECEIVED (lit "SI (Send Init)")
     ++ sent h RR_packet (lit "RR (Receive Ready)")).
Proof.
  intros Hst Hbuf. destruct_handler h. cbn in Hst, Hbuf. subst buf.
  apply process_data_step with (b := true);
    [destruct st; discriminate|reflexivity| |cbv; lia].
  destruct st; try discriminate Hst; destruct tm;
    unfold_step; munfold; cbn; munfold; destruct sr, oe; reflexivity.
Qed.

Lemma round_receive_ready os h :
  state h = S_INIT ->
  _rx_buf h = [] ->
  length (header_payload (_filename h) (_file_size h)) <= 255 ->
  process_data os RR_packet h
  = (Ok tt, with_timer true (with_state S_HEADER h),
     logged h RECEIVED (lit "RR (Receive Ready)")
     ++ sent h (wire HD (header_payload (_filename h) (_file_size h)))
          (lit "HD (Header) file=" ++ _filename h ++ lit " size="
           ++ str_of_int (_file_size h))).
Proof.
  intros Hst Hbuf Hlen. destruct_handler h. cbn in Hst, Hbuf, Hlen. subst.
  apply process_data_step with (b := true);
    [discriminate|reflexivity| |cbv; lia].
  destruct tm; unfold_step; munfold; cbn; munfold;
    rewrite (byte_of_len_len_byte _ Hlen); destruct sr, oe; reflexivity.
Qed.

Lemma round_header os h name size answers :
  state_in (state h) [R_WAIT; R_HEADER] = true ->
  _rx_buf h = [] ->
  name <> [] ->
  Forall (fun c => (0 < c < 128)%N) name ->
  length (header_payload name size) <= 255 ->
  open_wb os (os_path_join os (_download_dir h) name) = inr answers ->
  process_data os (wire HD (header_payload name size)) h
  = (Ok tt,
     with_state R_DATA
       (with_bytes_transferred 0
          (with_file_handle (Some (Writer answers))
             (with_file_size size
                (with_filename name (with_timer false h))))),
     logged h RECEIVED (lit "HD (Header) file=" ++ name
                        ++ lit " size=" ++ str_of_int size)
     ++ sent h RF_packet (lit "RF (Receive File)")
     ++ logged h INFO (lit "Receiving " ++ name ++ lit "...")).
Proof.
  intros Hst Hbuf Hne Hname Hlen Hopen.
  pose proof (split_nul_header_payload name size Hname) as Hsplit.
  pose proof (decode_encode_ascii name (Forall_lt_128 name Hname)) as Hdn.
  pose proof (decode_encode_ascii (str_of_int size)
                (Forall_lt_128 _ (str_of_int_chars size))) as Hds.
  apply process_data_step with (b := true).
  - destruct (state h); discriminate.
  - exact Hbuf.
  - assert (Hst' : state_in
                      (state (with_rx_buf (wire HD (header_payload name size)) h))
                      [R_WAIT; R_HEADER] = true)
      by (destruct h; exact Hst).
    assert (Hbuf' : _rx_buf (with_rx_buf (wire HD (header_payload name size)) h)
                    = wire HD (header_payload name size) ++ [])
      by (destruct h; cbn; rewrite app_nil_r; reflexivity).
    rewrite (header_step os _ _ [] _ _ _ Hst' Hlen Hbuf' Hsplit).
    clear Hst' Hbuf'.
    rewrite Hdn, Hds, int_of_str_of_int.
    destruct h; cbn in *. subst.
    destruct name as [|c name']; [congruence|].
    cbv beta iota zeta. rewrite Hopen. reflexivity.
  - destruct h; cbn in Hbuf; subst; cbv; lia.
Qed.

Lemma round_receive_file os h c :
  state h = S_HEADER ->
  _rx_buf h = [] ->
  _file_handle h = Some (Reader c 0) ->
  process_data os RF_packet h
  = (Ok tt,
     with_timer true
       (with_state S_EOF
          (with_file_handle None
             (with_bytes_transferred
                (_bytes_transferred h + Z.of_nat (length c)) h))),
     logged h RECEIVED (lit "RF (Receive File)")
     ++ logged h INFO (lit "Sending data...")
     ++ block_calls h (_bytes_transferred h) (blocks c)
     ++ [EClose] ++ sent h EF_packet (lit "EF (End of File)")).
Proof.
  intros Hst Hbuf Hfh.
  apply process_data_step with (b := true).
  - rewrite Hst. discriminate.
  - exact Hbuf.
  - rewrite (receive_file_step os _ RF [] c 0 (or_introl eq_refl));
      [|destruct h; cbn in *; subst; reflexivity
       |destruct h; exact Hfh|destruct h; reflexivity].
    rewrite Nat.sub_0_r. change (skipn 0 c) with c.
    destruct h; cbn in *; subst. munfold. block_calls_same. reflexivity.
  - destruct h; cbn in Hbuf; subst; cbv; lia.
Qed.

Lemma Forall_None_firstn n (answers : list (option Exn)) :
  Forall (fun a => a = None) answers ->
  Forall (fun a => a = None) (firstn n answers).
Proof.
  intros H. revert n. induction H as [|a l Ha _ IH]; intros [|n];
    try constructor; [exact Ha|apply IH].
Qed.

Lemma Forall_None_skipn n (answers : list (option Exn)) :
  Forall (fun a => a = None) answers ->
  Forall (fun a => a = None) (skipn n answers).
Proof.
  intros H. rewrite <- (firstn_skipn n answers) in H.
  apply Forall_app in H. exact (proj2 H).
Qed.

Lemma round_data os h bs answers :
  state h = R_DATA ->
  _rx_buf h = [] ->
  _file_handle h = Some (Writer answers) ->
  Forall (fun a => a = None) answers ->
  Forall (fun b => 1 <= length b <= MAX_DATA_LEN) bs ->
  process_data os (data_stream bs ++ EF_packet) h
  = (Ok tt,
     with_timer true
       (with_state R_HEADER
          (with_file_handle None
             (with_bytes_transferred
                (_bytes_transferred h + Z.of_nat (length (concat bs))) h))),
     receipt (on_progress h) (_bytes_transferred h) (_file_size h) bs
     ++ logged h RECEIVED (lit "EF (End of File)")
     ++ [EClose]
     ++ sent h AF_packet (lit "AF (Ack End of File)")
     ++ logged h SUCCESS
          (lit "File received: " ++ _filename h ++ lit " ("
           ++ str_of_int (_bytes_transferred h
                          + Z.of_nat (length (concat bs)))
           ++ lit " bytes)")).
Proof.
  intros Hst Hbuf Hfh Hans Hbs.
  rewrite (process_data_active os _ h) by (rewrite Hst; discriminate).
  rewrite Hbuf. cbn [app].
  rewrite (receive_stream os bs _ EF_packet answers);
    [|destruct h; exact Hst|destruct h; exact Hfh
     |apply Forall_None_firstn; exact Hans
     |eapply Forall_impl; [|exact Hbs]; unfold MAX_DATA_LEN; cbv beta;
      intros; lia
     |destruct h; reflexivity].
  rewrite process_buffer_unfold.
  pose proof (Forall_None_skipn (length bs) answers Hans) as Hleft.
  destruct_handler h. cbn in Hst, Hbuf, Hfh. subst.
  munfold.
  destruct (skipn (length bs) answers) as [|a left];
    [|inversion Hleft; subst a];
  match goal with
  | |- context [decode_step os ?h1] =>
      assert (E : decode_step os h1
                  = (Ok true,
                     with_timer true
                       (with_state R_HEADER
                          (with_file_handle None (with_rx_buf [] h1))),
                     logged h1 RECEIVED (lit "EF (End of File)")
                     ++ [EClose]
                     ++ sent h1 AF_packet (lit "AF (Ack End of File)")
                     ++ logged h1 SUCCESS
                          (lit "File received: " ++ _filename h1 ++ lit " ("
                           ++ str_of_int (_bytes_transferred h1)
                           ++ lit " bytes)")))
        by (destruct tm; unfold_step; munfold; cbn; munfold;
            destruct sr, oe; reflexivity);
      rewrite E; clear E
  end;
  rewrite process_buffer_short by (cbv; lia);
  rewrite app_nil_r; reflexivity.
Qed.

Lemma round_ack_end_of_file os h :
  state h = S_EOF ->
  _rx_buf h = [] ->
  process_data os AF_packet h
  = (Ok tt, with_timer true (with_state S_EOT h),
     logged h RECEIVED (lit "AF (Ack End of File)")
     ++ sent h ET_packet (lit "ET (End of Transmission)")).
Proof.
  intros Hst Hbuf. destruct_handler h. cbn in Hst, Hbuf. subst.
  apply process_data_step with (b := true);
    [discriminate|reflexivity| |cbv; lia].
  destruct tm; unfold_step; munfold; cbn; munfold;
    destruct sr, oe; reflexivity.
Qed.

Lemma round_end_of_transmission os h :
  state h = R_HEADER ->
  _rx_buf h = [] ->
  process_data os ET_packet h
  = (Ok tt, finished true h,
     logged h RECEIVED (lit "ET (End of Transmission)")
     ++ sent h AT_packet (lit "AT (Ack End of Transmission)")
     ++ finish_calls true (lit "Transfer complete (no files)") h).
Proof.
  intros Hst Hbuf. destruct_handler h. cbn in Hst, Hbuf. subst.
  apply process_data_step with (b := true);
    [discriminate|reflexivity| |cbv; lia].
  destruct tm; unfold_step; munfold; cbn; munfold;
    destruct fh, sr, oe, ofn; reflexivity.
Qed.

Lemma round_ack_end_of_transmission os h :
  state h = S_EOT ->
  _rx_buf h = [] ->
  process_data os AT_packet h
  = (Ok tt, finished true h,
     logged h RECEIVED (lit "AT (Ack End of Transmission)")
     ++ finish_calls true (lit "File sent successfully: " ++ _filename h) h).
Proof.
  intros Hst Hbuf. destruct_handler h. cbn in Hst, Hbuf. subst.
  apply process_data_step with (b := true);
    [discriminate|reflexivity| |cbv; lia].
  destruct tm; unfold_step; munfold; cbn; munfold;
    destruct fh, oe, ofn; reflexivity.
Qed.

Lemma exchange_S fuel os_a os_b a b incoming :
  incoming <> [] ->
  exchange (S fuel) os_a os_b a b incoming
  = (let r := process_data os_a incoming a in
     let '((b', tb), (a', ta)) :=
       exchange fuel os_b os_a b (final r) (line (trace r)) in
     ((a', trace r ++ ta), (b', tb))).
Proof. destruct incoming; [congruence|reflexivity]. Qed.

Lemma exchange_nil fuel os_a os_b a b :
  exchange fuel os_a os_b a b [] = ((a, []), (b, [])).
Proof. destruct fuel; reflexivity. Qed.

Lemma data_stream_line bs :
  concat (map (wire DT) bs ++ [EF_packet]) = data_stream bs ++ EF_packet.
Proof.
  unfold data_stream. rewrite concat_app. cbn [concat]. rewrite app_nil_r.
  reflexivity.
Qed.

Lemma data_stream_nonempty bs : data_stream bs ++ EF_packet <> [].
Proof.
  unfold data_stream. intros H. apply app_eq_nil in H. destruct H as [_ H].
  discriminate H.
Qed.

Ltac observe :=
  unfold line;
  repeat progress
  rewrite ?sent_packets_app, ?written_app, ?finished_calls_app,
    ?(proj1 (observe_close _)),
    ?(proj1 (proj2 (observe_close _))),
    ?(proj2 (proj2 (observe_close _))),
    ?(proj1 (observe_logged _ _ _)),
    ?(proj1 (proj2 (observe_logged _ _ _))),
    ?(proj2 (proj2 (observe_logged _ _ _))),
    ?(proj1 (observe_sent _ _ _)),
    ?(proj1 (proj2 (observe_sent _ _ _))),
    ?(proj2 (proj2 (observe_sent _ _ _))),
    ?(proj1 (observe_finish_calls _ _ _)),
    ?(proj1 (proj2 (observe_finish_calls _ _ _))),
    ?(proj2 (proj2 (observe_finish_calls _ _ _))),
    ?(proj1 (observe_block_calls _ _ _)),
    ?(proj2 (observe_block_calls _ _ _)),
    ?(proj1 (observe_receipt _ _ _ _)),
    ?(proj2 (observe_receipt _ _ _ _)),
    ?written_receipt.

Lemma blocks_concat d : concat (blocks d) = d.
Proof. apply blocks_fuel_concat. lia. Qed.

Ltac settle :=
  munfold; observe; munfold; cbn [concat app]; rewrite ?app_nil_r.

(** X25.  Two handlers back to back carry a file across.  A receiver started
    with [start_receive] and a sender started with [start_send] on an
    existing file, both with [send_raw] installed, the file name being made
    of ASCII characters other than NUL and the Header fitting in a packet,
    the receiver being able to create and write the file: after the eight
    deliveries SendInit, ReceiveReady, Header, ReceiveFile, Data and
    EndOfFile, AckEndOfFile, EndOfTransmission, AckEndOfTransmission both
    are in DONE with their files closed and their timers off; the receiver
    has written, in blocks of 1 to 250 bytes, exactly the content of the
    file, under the name and with the size of the sender; both counters are
    the length of the content; and each [on_finished] has been called once,
    with success, the receiver's message being
    "Transfer complete (no files)". *)
Theorem two_handlers_transfer_the_file :
  forall (os_s os_r : OS) (s r : YappHandler) (filepath dir : str)
         (content : bytes) (size : Z) (answers : list (option Exn))
         (fuel : nat),
    state s = IDLE ->
    state r = IDLE ->
    send_raw s = true ->
    send_raw r = true ->
    os_path_exists os_s filepath = true ->
    os_path_getsize os_s filepath = inr size ->
    open_rb os_s filepath = inr content ->
    os_path_basename os_s filepath <> [] ->
    Forall (fun c => (0 < c < 128)%N) (os_path_basename os_s filepath) ->
    length (header_payload (os_path_basename os_s filepath) size) <= 255 ->
    os_makedirs os_r dir = None ->
    open_wb os_r (os_path_join os_r dir (os_path_basename os_s filepath))
    = inr answers ->
    Forall (fun a => a = None) answers ->
    8 <= fuel ->
    let '((r1, tr), (s1, ts)) :=
      transfer fuel os_s os_r filepath dir s r in
    (state s1 = DONE /\ state r1 = DONE)
    /\ (_file_handle s1 = None /\ _file_handle r1 = None)
    /\ (_timer s1 = false /\ _timer r1 = false)
    /\ (concat (written tr) = content
        /\ Forall (fun b => 1 <= length b <= MAX_DATA_LEN) (written tr))
    /\ (_filename r1 = os_path_basename os_s filepath /\ _file_size r1 = size)
    /\ (_bytes_transferred s1 = Z.of_nat (length content)
        /\ _bytes_transferred r1 = Z.of_nat (length content))
    /\ finished_calls ts
       = (if on_finished s
          then [(true, lit "File sent successfully: "
                       ++ os_path_basename os_s filepath)]
          else [])
    /\ finished_calls tr
       = (if on_finished r
          then [(true, lit "Transfer complete (no files)")] else []).
Proof.
  intros os_s os_r s r filepath dir content size answers fuel
    Hs Hr Hss Hsr Hex Hsz Hop Hne Hname Hlen Hmk Hwb Hans Hfuel.
  do 8 (destruct fuel as [|fuel]; [lia|]). clear Hfuel.
  unfold transfer.
  rewrite (start_send_ok os_s s filepath size content Hs Hex Hsz Hop).
  rewrite (start_receive_ok os_r r dir Hr Hmk).
  set (name := os_path_basename os_s filepath) in *.
  destruct_handler s.
  destruct r as [sr' op' oe' ofn' orx' st' buf' fh' fname' fsz' bt' dd' tm' sir'].
  cbn in Hs, Hr, Hss, Hsr. subst.
  settle.
  (* SendInit reaches the receiver *)
  rewrite exchange_S by discriminate.
  rewrite round_send_init by reflexivity.
  settle.
  (* ReceiveReady reaches the sender *)
  rewrite exchange_S by discriminate.
  rewrite round_receive_ready by (try reflexivity; exact Hlen).
  settle.
  (* the Header reaches the receiver *)
  rewrite exchange_S by discriminate.
  rewrite (round_header os_r _ name size answers)
    by first [reflexivity | assumption].
  settle.
  (* ReceiveFile reaches the sender *)
  rewrite exchange_S by discriminate.
  rewrite (round_receive_file os_s _ content) by reflexivity.
  settle.
  rewrite data_stream_line.
  (* the data and EndOfFile reach the receiver *)
  rewrite exchange_S by apply data_stream_nonempty.
  rewrite (round_data os_r _ (blocks content) answers)
    by first [reflexivity | assumption | apply blocks_fuel_sizes].
  settle.
  (* AckEndOfFile reaches the sender *)
  rewrite exchange_S by discriminate.
  rewrite round_ack_end_of_file by reflexivity.
  settle.
  (* EndOfTransmission reaches the receiver *)
  rewrite exchange_S by discriminate.
  rewrite round_end_of_transmission by reflexivity.
  settle.
  (* AckEndOfTransmission reaches the sender *)
  rewrite exchange_S by discriminate.
  rewrite round_ack_end_of_transmission by reflexivity.
  settle.
  rewrite exchange_nil. unfold finished. settle.
  rewrite ?blocks_concat, ?Z.add_0_l.
  repeat split; try reflexivity.
  apply blocks_fuel_sizes.
Qed.

(** A closed instance: [a.txt], ten bytes, goes from one handler to the
    other. *)
Lemma two_handlers_transfer_the_file_witness :
  concat (written (snd (fst (transfer 8 example_os example_os (lit "a.txt")
                               (lit "dl") example_handler example_handler))))
  = [x61; x62; x63; x64; x65; x66; x67; x68; x69; x6a]
  /\ state (fst (fst (transfer 8 example_os example_os (lit "a.txt")
                        (lit "dl") example_handler example_handler))) = DONE
  /\ state (fst (snd (transfer 8 example_os example_os (lit "a.txt")
                        (lit "dl") example_handler example_handler))) = DONE.
Proof.
  pose proof (two_handlers_transfer_the_file example_os example_os
                example_handler example_handler (lit "a.txt") (lit "dl")
                [x61; x62; x63; x64; x65; x66; x67; x68; x69; x6a] 10 [] 8
                eq_refl eq_refl eq_refl eq_refl eq_refl eq_refl eq_refl
                ltac:(vm_compute; discriminate)
                ltac:(vm_compute; repeat constructor)
                ltac:(vm_compute; lia)
                eq_refl eq_refl
                ltac:(constructor)
                ltac:(lia)) as H.
  destruct (transfer 8 example_os example_os (lit "a.txt") (lit "dl")
              example_handler example_handler) as [[r1 tr] [s1 ts]].
  cbn [fst snd].
  destruct H as ((Hs & Hr) & _ & _ & (Hw & _) & _).
  split; [exact Hw|split; [exact Hr|exact Hs]].
Defined.

(** ** Two more corners of the decoder *)

Lemma split_nul_no_nul (p : bytes) :
  Forall (fun b => b <> x00) p -> split_nul p = [p].
Proof.
  induction 1 as [|c p Hc _ IH]; [reflexivity|].
  rewrite split_nul_cons, (byte_eqb_neq _ _ Hc), IH. reflexivity.
Qed.

(** X26.  A Header whose payload holds no NUL byte has a single field and
    sets neither name nor size: the receiver goes on with the name and the
    size it had.  With no name (a receiver just started) the Header is
    refused as "Invalid filename"; with the name of a file received before,
    that file is opened for writing again and ReceiveFile is sent. *)
Theorem header_without_nul_keeps_name :
  forall (os : OS) (h : YappHandler) (payload rest : bytes),
    state_in (state h) [R_WAIT; R_HEADER] = true ->
    length payload <= 255 ->
    _rx_buf h = wire HD payload ++ rest ->
    Forall (fun b => b <> x00) payload ->
    let received :=
      logged h RECEIVED (lit "HD (Header) file=" ++ _filename h
                         ++ lit " size=" ++ str_of_int (_file_size h)) in
    (_filename h = [] ->
     decode_step os h
     = (Ok true, finished false (with_rx_buf rest h),
        received
        ++ sent h (wire NR (encode_ascii (lit "Invalid filename")))
             (lit "NR (Not Ready) Invalid filename")
        ++ finish_calls false (lit "Invalid filename in header") h))
    /\ (forall answers : list (option Exn),
          _filename h <> [] ->
          open_wb os (os_path_join os (_download_dir h) (_filename h))
          = inr answers ->
          decode_step os h
          = (Ok true,
             with_state R_DATA
               (with_bytes_transferred 0
                  (with_file_handle (Some (Writer answers))
                     (with_timer false (with_rx_buf rest h)))),
             received
             ++ sent h RF_packet (lit "RF (Receive File)")
             ++ logged h INFO (lit "Receiving " ++ _filename h ++ lit "..."))).
Proof.
  intros os h payload rest Hst Hlen Hbuf Hnul received. subst received.
  pose proof (split_nul_no_nul payload Hnul) as Hsplit.
  destruct_handler h. cbn in Hst, Hbuf |- *. subst buf.
  split.
  - intros ->.
    destruct st; try discriminate Hst; destruct tm;
      unfold_step; munfold; cbn;
      rewrite (to_nat_len_byte _ Hlen);
      rewrite (ltb_complete _ _ _ _ _ eq_refl), (slice_prefix _ _ _ _ _ eq_refl),
        (slice_from_prefix _ _ _ _ _ eq_refl);
      unfold _parse_header; rewrite Hsplit; munfold;
      literal_len; munfold; destruct fh, sr, oe, ofn; reflexivity.
  - intros answers Hne Hopen.
    destruct fname as [|c0 fname']; [congruence|].
    destruct st; try discriminate Hst; destruct tm;
      unfold_step; munfold; cbn;
      rewrite (to_nat_len_byte _ Hlen);
      rewrite (ltb_complete _ _ _ _ _ eq_refl), (slice_prefix _ _ _ _ _ eq_refl),
        (slice_from_prefix _ _ _ _ _ eq_refl);
      unfold _parse_header; rewrite Hsplit; munfold;
      rewrite Hopen; munfold; destruct sr, oe; reflexivity.
Qed.

(** A closed instance: the Header "abc", without NUL, on a receiver that
    has no name yet. *)
Lemma header_without_nul_keeps_name_witness :
  finished_calls
    (trace (decode_step example_os
              (with_rx_buf (wire HD [x61; x62; x63] ++ [])
                 (with_state R_WAIT example_handler))))
  = [(false, lit "Invalid filename in header")].
Proof.
  rewrite (proj1 (header_without_nul_keeps_name example_os
                    (with_rx_buf (wire HD [x61; x62; x63] ++ [])
                       (with_state R_WAIT example_handler))
                    [x61; x62; x63] []
                    ltac:(vm_compute; reflexivity) ltac:(vm_compute; lia)
                    ltac:(vm_compute; reflexivity)
                    ltac:(repeat constructor; discriminate))
             eq_refl).
  vm_compute. reflexivity.
Defined.

(** X27.  In the sender states that wait for an answer, ACK followed by a
    byte that is no known subtype (not 01 to 06) is taken for an
    acknowledgement all the same: both bytes are consumed, nothing is sent
    or reported, the state stays, and the timer is left stopped. *)
Theorem unknown_acknowledgement_skipped :
  forall (os : OS) (h : YappHandler) (second : byte) (rest : bytes),
    state_in (state h) [S_INIT; S_HEADER; S_EOF; S_EOT] = true ->
    _rx_buf h = ACK :: second :: rest ->
    ~ In second [x01; x02; x03; x04; x05; x06] ->
    decode_step os h
    = (Ok true, with_timer false (with_rx_buf rest h), []).
Proof.
  intros os h second rest Hst Hbuf Hsub.
  assert (H1 : Byte.eqb second x01 = false)
    by (apply byte_eqb_neq; intros ->; apply Hsub; cbn; tauto).
  assert (H2 : Byte.eqb second x02 = false)
    by (apply byte_eqb_neq; intros ->; apply Hsub; cbn; tauto).
  assert (H3 : Byte.eqb second x03 = false)
    by (apply byte_eqb_neq; intros ->; apply Hsub; cbn; tauto).
  assert (H4 : Byte.eqb second x04 = false)
    by (apply byte_eqb_neq; intros ->; apply Hsub; cbn; tauto).
  assert (H5 : Byte.eqb second x05 = false)
    by (apply byte_eqb_neq; intros ->; apply Hsub; cbn; tauto).
  assert (H6 : Byte.eqb second ACK = false)
    by (apply byte_eqb_neq; intros ->; apply Hsub; cbn; tauto).
  destruct_handler h. cbn in Hst, Hbuf. subst buf.
  destruct st; try discriminate Hst; destruct tm;
    unfold_step; munfold; cbn; munfold;
    rewrite H1, H2, H3, H4, H5, H6; reflexivity.
Qed.

(** A closed instance: ACK 09 received in S_INIT. *)
Lemma unknown_acknowledgement_skipped_witness :
  decode_step example_os (with_rx_buf [ACK; x09; x61] sender_started)
  = (Ok true,
     with_timer false
       (with_rx_buf [x61] (with_rx_buf [ACK; x09; x61] sender_started)),
     []).
Proof.
  refine (unknown_acknowledgement_skipped example_os
            (with_rx_buf [ACK; x09; x61] sender_started) x09 [x61] _ _ _).
  - vm_compute. reflexivity.
  - vm_compute. reflexivity.
  - intros H. repeat (destruct H as [H|H]; [discriminate H|]). exact H.
Defined.

End Yapp.
